(** * PolicyMVP: ingestion pipeline and relevance query builder

    A shallow embedding of the algorithmic core of the repository
    (cursor pagination, identifier parsing, validation, run-scoped
    deduplication and batching, bulk submission, query construction and
    snippet shaping), with the properties the specification states about it.

    Conventions.
    - A Python [str] is a [string]; one character of the [string] stands for
      one character of the Python string.  Texts that come back from the store
      (search hits) may hold any Unicode character and are cut by characters,
      so they are lists of code points ([SearchService.text]).
    - A Python [dict] with string keys is a [gmap string _]; a [set] of
      strings is a [gset string].
    - Code that can raise returns a [result]; the exception is a value of
      [exn].
    - The document store and the upstream HTTP servers are outside the
      repository; they appear as parameters (the bulk helper's answer, the
      sequence of page responses). *)

From Stdlib Require Import ZArith String Ascii List Lia Bool DecimalString.
From stdpp Require Import gmap strings list.

Local Open Scope string_scope.
Local Open Scope Z_scope.
Local Open Scope list_scope.

(** ** Python values, truthiness, exceptions *)

Module Py.

(** The scalar values a document field holds: [None] or a [str]. *)
Inductive value : Type :=
  | VNone
  | VStr (s : string).

#[global] Instance value_eq_dec : EqDecision value.
Proof. solve_decision. Defined.

#[global] Instance value_countable : Countable value :=
  inj_countable'
    (fun v => match v with VNone => None | VStr s => Some s end)
    (fun o => match o with None => VNone | Some s => VStr s end)
    (fun v => match v with VNone => eq_refl | VStr _ => eq_refl end).

(** [bool(v)]. *)
Definition truthy (v : value) : bool :=
  match v with
  | VNone => false
  | VStr s => negb (String.eqb s "")
  end.

(** [a or b]. *)
Definition py_or (a b : value) : value := if truthy a then a else b.

(** [str(v)]. *)
Definition py_str (v : value) : string :=
  match v with
  | VNone => "None"
  | VStr s => s
  end.

(** [d.get(k)]: a missing key reads as [None]. *)
Definition get (d : gmap string value) (k : string) : value :=
  default VNone (d !! k).

(** [d.setdefault(k, v)]: only a missing key is set (a key bound to [None]
    stays bound to [None]). *)
Definition setdefault (k : string) (v : value) (d : gmap string value)
  : gmap string value :=
  match d !! k with
  | Some _ => d
  | None => <[k := v]> d
  end.

Inductive exn : Type :=
  | ValueError (msg : string)
  | KeyError (key : string)
  | IndexError
  | AttributeError (msg : string)
  | HTTPError (status : Z)
  | RequestException
  | JSONDecodeError
  | RuntimeError (msg : string).

Inductive result (A : Type) : Type :=
  | Ok (a : A)
  | Raise (e : exn).
Arguments Ok {A} a.
Arguments Raise {A} e.

Definition bind {A B} (k : A -> result B) (m : result A) : result B :=
  match m with
  | Ok a => k a
  | Raise e => Raise e
  end.

#[global] Instance result_bind : MBind result := @bind.
#[global] Instance result_ret : MRet result := @Ok.
#[global] Instance result_fmap : FMap result :=
  fun A B f m => match m with Ok a => Ok (f a) | Raise e => Raise e end.

(** [l[i]] raises [IndexError] out of range. *)
Definition getitem {A} (l : list A) (i : nat) : result A :=
  match l !! i with
  | Some x => Ok x
  | None => Raise IndexError
  end.

(** [l[i:j]] never raises. *)
Definition slice {A} (l : list A) (i j : nat) : list A :=
  take (j - i)%nat (drop i l).

(** [sep.join(l)]. *)
Fixpoint join (sep : string) (l : list string) : string :=
  match l with
  | [] => ""
  | [x] => x
  | x :: rest => x +:+ sep +:+ join sep rest
  end.

(** [s.split(c)] for a one-character separator: always at least one
    segment, empty segments are kept. *)
Fixpoint split (c : ascii) (s : string) : list string :=
  match s with
  | EmptyString => [""]
  | String a rest =>
      if Ascii.eqb a c then "" :: split c rest
      else match split c rest with
           | seg :: segs => String a seg :: segs
           | [] => [String a ""]
           end
  end.

(** [c in s] for a character [c]. *)
Fixpoint occurs (c : ascii) (s : string) : bool :=
  match s with
  | EmptyString => false
  | String a s' => Ascii.eqb a c || occurs c s'
  end.

(** [s.endswith(suffix)]. *)
Definition endswith (s suffix : string) : bool :=
  let n := String.length s in
  let m := String.length suffix in
  (m <=? n)%nat && String.eqb (String.substring (n - m) m s) suffix.

(** [len(s)]. *)
Definition len (s : string) : Z := Z.of_nat (String.length s).

(** [d[k]] raises [KeyError] on a missing key. *)
Definition getkey (d : gmap string value) (k : string) : result value :=
  match d !! k with
  | Some v => Ok v
  | None => Raise (KeyError k)
  end.

(** [s.replace(old, new)] for a non-empty [old]: occurrences are replaced
    from the left and do not overlap ([skip] characters of a replaced
    occurrence are still to be passed over). *)
Fixpoint replace_from (old new : string) (skip : nat) (s : string) : string :=
  match s with
  | EmptyString => ""
  | String c rest =>
      match skip with
      | S k => replace_from old new k rest
      | O =>
          if String.prefix old s
          then new +:+ replace_from old new (String.length old - 1) rest
          else String c (replace_from old new 0 rest)
      end
  end.

Definition replace (old new s : string) : string := replace_from old new 0 s.

(** [repr] of a list of strs without quotes or escapes in them, as an
    f-string prints it: [['a', 'b']]. *)
Definition repr_str (s : string) : string := "'" +:+ s +:+ "'".

Definition repr_list (l : list string) : string :=
  "[" +:+ join ", " (repr_str <$> l) +:+ "]".

(** What a generator hands out before it ends, and the exception that ends
    it ([None] when it returns). *)
Record stream (A : Type) : Type := {
  items : list A;
  raised : option exn;
}.
Arguments items {A} _.
Arguments raised {A} _.

End Py.

Export Py.

(** ** app/datasources/eu_api.py *)

Module EuApi.

(** The dict [parse_identifier] returns: five keys, each [None] or a [str]. *)
Record identifier_meta : Type := {
  kind : option string;
  term : option string;
  year : option string;
  number : option string;
  date : option string;
}.

Definition parse_identifier (identifier : string) : result identifier_meta :=
  let parts := split "-" identifier in
  if bool_decide (parts = []) || (length parts <? 2)%nat then
    Ok {| kind := None; term := None; year := None; number := None;
          date := None |}
  else
    kind ← getitem parts 0;
    term ← getitem parts 1;
    if String.eqb kind "CRE" then
      let date_str :=
        if (5 <=? length parts)%nat then Some (join "-" (slice parts 2 5))
        else None in
      Ok {| kind := Some kind; term := Some term; year := None;
            number := None; date := date_str |}
    else
      year ← (if (2 <? length parts)%nat
              then Some <$> getitem parts 2 else Ok None);
      number ← (if (3 <? length parts)%nat
                then Some <$> getitem parts 3 else Ok None);
      Ok {| kind := Some kind; term := Some term; year := year;
            number := number; date := None |}.

End EuApi.

(** ** app/datasources/bundestag_dip.py *)

Module BundestagDip.

(** One upstream item: a JSON object with string fields. *)
Abbreviation item := (gmap string value).

(** What [resp.json()] gives. *)
Inductive body : Type :=
  | NotJson
  | JsonList (items : list item)
  | JsonObject (documents data : option (list item)) (cursor : value).

(** What [session.get] gives: it raises (timeout, connection error) or
    returns a response with a status code. *)
Inductive response : Type :=
  | Failed
  | Http (status : Z) (b : body).

(** [resp.raise_for_status()] raises for 4xx and 5xx. *)
Definition raise_for_status (status : Z) : result unit :=
  if (400 <=? status) && (status <? 600) then Raise (HTTPError status)
  else Ok tt.

(** [a or b] on lists that may be absent: an absent or empty list is
    falsy. *)
Definition list_or (a : option (list item)) (b : list item) : list item :=
  match a with
  | Some (x :: l) => x :: l
  | _ => b
  end.

(** [data.get("documents") or data.get("data") or (data if
    isinstance(data, list) else [])]: the [get] comes first, and a list has
    none. *)
Definition page_docs (b : body) : result (list item) :=
  match b with
  | NotJson => Raise JSONDecodeError
  | JsonList _ => Raise (AttributeError "'list' object has no attribute 'get'")
  | JsonObject documents data _ => Ok (list_or documents (list_or data []))
  end.

Definition page_cursor (b : body) : value :=
  match b with
  | JsonObject _ _ cursor => cursor
  | _ => VNone
  end.

(** What the generator does, in order: a page request with its query
    parameters, or an item handed to the consumer. *)
Inductive event : Type :=
  | Request (params : gmap string string)
  | Yield (d : item).

(** How the generator ends: it returns, it raises, or (in the model only)
    the loop is still running when the fuel is spent. *)
Inductive status : Type :=
  | Returned
  | Raised (e : exn)
  | Running.

Record run : Type := {
  events : list event;
  final : status;
}.

Definition prepend (evs : list event) (r : run) : run :=
  {| events := evs ++ events r; final := final r |}.

(** The body of [while True], unrolled [fuel] times.  [n] counts the
    requests made so far: the [n]-th request gets [responses n]. *)
Fixpoint paginate_loop (responses : nat -> response) (fuel : nat) (n : nat)
    (params : gmap string string) (prev_cursor : value) : run :=
  match fuel with
  | O => {| events := []; final := Running |}
  | S fuel' =>
      match responses n with
      | Failed =>
          {| events := [Request params]; final := Raised RequestException |}
      | Http code b =>
          match (_ ← raise_for_status code; page_docs b) with
          | Raise e => {| events := [Request params]; final := Raised e |}
          | Ok docs =>
              let next_cursor := page_cursor b in
              if negb (truthy next_cursor)
                 || bool_decide (next_cursor = prev_cursor)
              then {| events := Request params :: (Yield <$> docs);
                      final := Returned |}
              else
                prepend (Request params :: (Yield <$> docs))
                  (paginate_loop responses fuel' (S n)
                     (<["cursor" := py_str next_cursor]> params) next_cursor)
          end
      end
  end.

(** [params = {"format": "json"}], updated with the entries of
    [extra_params] that are not [None]. *)
Definition initial_params (extra_params : gmap string value)
  : gmap string string :=
  omap (fun v => match v with VNone => None | VStr s => Some s end)
       extra_params ∪ {[ "format" := "json" ]}.

Definition _paginate_cursor (responses : nat -> response) (fuel : nat)
    (extra_params : gmap string value) : run :=
  paginate_loop responses fuel 0 (initial_params extra_params) VNone.

(** The items yielded and the number of requests made in a run. *)
Definition yielded (r : run) : list item :=
  omap (fun ev => match ev with Yield d => Some d | Request _ => None end)
       (events r).

Definition is_request (ev : event) : bool :=
  match ev with
  | Request _ => true
  | Yield _ => false
  end.

Definition requests (r : run) : nat :=
  length (List.filter is_request (events r)).

(** Reading a sequence of page responses: the cursor and the items of the
    [k]-th page (none when the request fails), whether the [k]-th request
    fails with a timeout, connection error or 4xx/5xx status, and the
    exception it then raises. *)
Definition cursor_at (responses : nat -> response) (k : nat) : value :=
  match responses k with
  | Http _ b => page_cursor b
  | Failed => VNone
  end.

Definition docs_at (responses : nat -> response) (k : nat) : list item :=
  match responses k with
  | Http _ b => match page_docs b with Ok docs => docs | Raise _ => [] end
  | Failed => []
  end.

Definition request_error (resp : response) : option exn :=
  match resp with
  | Failed => Some RequestException
  | Http code _ =>
      if (400 <=? code) && (code <? 600) then Some (HTTPError code) else None
  end.

(** The cursor sent with the [k]-th request: none with the first, the one
    the previous page returned after that. *)
Definition previous_cursor (responses : nat -> response) (k : nat) : value :=
  match k with
  | O => VNone
  | S j => cursor_at responses j
  end.

(** Page [k] ends the sequence: it returns no cursor, or the cursor of the
    page before it. *)
Definition stops_at (responses : nat -> response) (k : nat) : Prop :=
  truthy (cursor_at responses k) = false
  \/ cursor_at responses k = previous_cursor responses k.

(** Page [k] is a good page with a new cursor: the loop goes on after it. *)
Definition continues_at (responses : nat -> response) (k : nat) : Prop :=
  request_error (responses k) = None
  /\ (exists code b docs, responses k = Http code b /\ page_docs b = Ok docs)
  /\ truthy (cursor_at responses k) = true
  /\ cursor_at responses k <> previous_cursor responses k.

End BundestagDip.

(** ** hashlib.sha1 and str.encode

    [hashlib] is the Python standard library's; SHA-1 is written here after
    FIPS 180-4, on 32-bit words held in [Z] with the wrap-around written
    out. *)

Module Sha1.

Definition w32 (x : Z) : Z := Z.land x 4294967295.

Definition add32 (x y : Z) : Z := w32 (x + y).

Definition rotl (n x : Z) : Z :=
  w32 (Z.lor (Z.shiftl x n) (Z.shiftr x (32 - n))).

(** [s.encode("utf-8")] for characters up to U+00FF: one byte below 128,
    two bytes from 128 on. *)
Definition utf8_char (c : ascii) : list Z :=
  let n := Z.of_N (N_of_ascii c) in
  if n <? 128 then [n]
  else [Z.lor 192 (Z.shiftr n 6); Z.lor 128 (Z.land n 63)].

Definition encode_utf8 (s : string) : list Z :=
  flat_map utf8_char (list_ascii_of_string s).

(** The 64-bit big-endian length field. *)
Definition be_bytes (width : nat) (x : Z) : list Z :=
  map (fun i => Z.land (Z.shiftr x (8 * Z.of_nat (width - 1 - i))) 255)
      (seq 0 width).

(** Padding: a 1 bit, then zeros up to 56 modulo 64, then the bit length. *)
Definition pad (msg : list Z) : list Z :=
  let l := Z.of_nat (length msg) in
  let zeros := Z.to_nat ((55 - l) mod 64) in
  msg ++ [128] ++ repeat 0 zeros ++ be_bytes 8 (8 * l).

Fixpoint be_words (bytes : list Z) : list Z :=
  match bytes with
  | a :: b :: c :: d :: rest =>
      (Z.lor (Z.shiftl a 24) (Z.lor (Z.shiftl b 16) (Z.lor (Z.shiftl c 8) d)))
      :: be_words rest
  | _ => []
  end.

(** The message schedule, newest word first: [rw] holds W(t-1), W(t-2), ... *)
Fixpoint extend (n : nat) (rw : list Z) : list Z :=
  match n with
  | O => rw
  | S n' =>
      let x := Z.lxor (Z.lxor (nth 2 rw 0) (nth 7 rw 0))
                      (Z.lxor (nth 13 rw 0) (nth 15 rw 0)) in
      extend n' (rotl 1 x :: rw)
  end.

Definition schedule (block : list Z) : list Z :=
  rev (extend 64 (rev block)).

Definition f (t : nat) (b c d : Z) : Z :=
  if (t <? 20)%nat then Z.lor (Z.land b c) (Z.land (w32 (Z.lnot b)) d)
  else if (t <? 40)%nat then Z.lxor (Z.lxor b c) d
  else if (t <? 60)%nat
       then Z.lor (Z.lor (Z.land b c) (Z.land b d)) (Z.land c d)
  else Z.lxor (Z.lxor b c) d.

Definition K (t : nat) : Z :=
  if (t <? 20)%nat then 1518500249
  else if (t <? 40)%nat then 1859775393
  else if (t <? 60)%nat then 2400959708
  else 3395469782.

Record state : Type := { ha : Z; hb : Z; hc : Z; hd : Z; he : Z }.

Definition round (st : state) (tw : nat * Z) : state :=
  let '(t, w) := tw in
  let temp :=
    add32 (add32 (add32 (add32 (rotl 5 (ha st)) (f t (hb st) (hc st) (hd st)))
                        (he st)) w) (K t) in
  {| ha := temp; hb := ha st; hc := rotl 30 (hb st); hd := hc st;
     he := hd st |}.

Definition compress (h : state) (block : list Z) : state :=
  let w := schedule block in
  let r := fold_left round (combine (seq 0 80) w) h in
  {| ha := add32 (ha h) (ha r); hb := add32 (hb h) (hb r);
     hc := add32 (hc h) (hc r); hd := add32 (hd h) (hd r);
     he := add32 (he h) (he r) |}.

Fixpoint blocks (n : nat) (words : list Z) : list (list Z) :=
  match n with
  | O => []
  | S n' => take 16 words :: blocks n' (drop 16 words)
  end.

Definition initial : state :=
  {| ha := 1732584193; hb := 4023233417; hc := 2562383102; hd := 271733878;
     he := 3285377520 |}.

Definition sha1 (msg : list Z) : state :=
  let words := be_words (pad msg) in
  fold_left compress (blocks (length words / 16) words) initial.

Definition hex_digit (x : Z) : ascii :=
  ascii_of_N (Z.to_N (if x <? 10 then 48 + x else 87 + x)).

Definition hex_word (x : Z) : string :=
  string_of_list_ascii
    (map (fun i => hex_digit (Z.land (Z.shiftr x (4 * Z.of_nat (7 - i))) 15))
         (seq 0 8)).

Definition hexdigest (h : state) : string :=
  hex_word (ha h) +:+ hex_word (hb h) +:+ hex_word (hc h) +:+
  hex_word (hd h) +:+ hex_word (he h).

End Sha1.

(** ** app/services/search_service.py *)

Module SearchService.

(** A canonical document: a dict of scalar fields, and the nested
    [metadata] object when the key is there. *)
Record document : Type := {
  fields : gmap string value;
  metadata : option (gmap string string);
}.

#[global] Instance document_inhabited : Inhabited document :=
  populate {| fields := ∅; metadata := None |}.

(** [d.get(k)] and [d[k] = v] on the scalar fields. *)
Definition doc_get (d : document) (k : string) : value := get (fields d) k.

Definition doc_set (k : string) (v : value) (d : document) : document :=
  {| fields := <[k := v]> (fields d); metadata := metadata d |}.

Definition _doc_id (url : string) : string :=
  Sha1.hexdigest (Sha1.sha1 (Sha1.encode_utf8 url)).

(** *** index_documents *)

(** The documents are objects the caller holds references to: the heap maps
    an object's identity to its present contents, and the list handed to
    [index_documents] is a list of references (the same object may occur
    twice).  A reference always points to a live object. *)
Abbreviation loc := nat.
Abbreviation heap := (gmap loc document).

(** A bulk action.  [_source] is the document object itself; the bulk helper
    serializes each action when it takes it from the generator, so the
    record holds the contents at that moment. *)
Record action : Type := {
  _op_type : string;
  _index : string;
  _id : value;
  _source : document;
}.

(** The body of the loop of [gen_actions] on one object:
    [if not d.get("id") and d.get("url"): d["id"] = _doc_id(d["url"])]. *)
Definition assign_id (d : document) : document :=
  if negb (truthy (doc_get d "id")) && truthy (doc_get d "url")
  then doc_set "id" (VStr (_doc_id (py_str (doc_get d "url")))) d
  else d.

(** The action yielded for an object whose contents are [d]. *)
Definition action_of (index : string) (d : document) : action :=
  {| _op_type := "index"; _index := index; _id := doc_get d "id";
     _source := d |}.

Fixpoint gen_actions (index : string) (docs : list loc) (h : heap)
  : heap * list action :=
  match docs with
  | [] => (h, [])
  | l :: rest =>
      let d := assign_id (h !!! l) in
      let h1 := <[l := d]> h in
      let a := action_of index d in
      let '(h2, acts) := gen_actions index rest h1 in
      (h2, a :: acts)
  end.

(** What [index_documents] returns: [{"success": ..., "errors": ...}]. *)
Record bulk_result : Type := {
  success : Z;
  errors : list string;
}.

Section Store.

(** [settings.os_index], and the answer of [helpers.bulk] (with
    [raise_on_error=False]) to a list of actions. *)
Variable os_index : string.
Variable bulk : list action -> bulk_result.

(** A call that returns: the objects afterwards, the actions handed to the
    bulk helper and the result.  [ensure_index] and the refresh after the
    bulk call act on the store only and are left out. *)
Definition index_documents (docs : list loc) (index_name : value) (h : heap)
  : heap * list action * bulk_result :=
  let index := py_str (py_or index_name (VStr os_index)) in
  let '(h', acts) := gen_actions index docs h in
  (h', acts, bulk acts).

(** [ensure_index], [get_client] and [helpers.bulk] talk to the store and
    may raise (no connection, a refused request); [index_documents] catches
    nothing of it, only the refresh is guarded.  [store_error acts] is the
    exception raised when the actions [acts] are to be submitted, if any. *)
Variable store_error : list action -> option exn.

(** The call as its caller has it: it returns as above or raises what the
    store raised.  How far a failed call got, in the objects and in the
    store, is not known. *)
Definition index_documents_call (docs : list loc) (index_name : value)
    (h : heap) : result (heap * list action * bulk_result) :=
  let '(h', acts, res) := index_documents docs index_name h in
  match store_error acts with
  | Some e => Raise e
  | None => Ok (h', acts, res)
  end.

End Store.

(** *** search_documents: the request body *)

Local Unset Elimination Schemes.
Inductive json : Type :=
  | JNull
  | JBool (b : bool)
  | JInt (n : Z)
  | JDec (mantissa exponent : Z)
  | JStr (s : string)
  | JList (l : list json)
  | JDict (o : list (string * json)).
Local Set Elimination Schemes.

Definition jstrs (l : list string) : json := JList (JStr <$> l).

(** A possibly absent list argument is truthy when it has an element. *)
Definition nonempty (l : option (list string)) : bool :=
  match l with
  | Some (_ :: _) => true
  | _ => false
  end.

Definition should_queries (query : string) : list json :=
  [ JDict [("multi_match", JDict [
       ("query", JStr query);
       ("fields", jstrs ["title^2"; "content"]);
       ("type", JStr "cross_fields");
       ("operator", JStr "and");
       ("boost", JInt 3)])];
    JDict [("match_phrase", JDict [("title", JDict [
       ("query", JStr query); ("boost", JInt 4); ("slop", JInt 2)])])];
    JDict [("match_phrase", JDict [("content", JDict [
       ("query", JStr query); ("boost", JInt 2); ("slop", JInt 2)])])];
    JDict [("multi_match", JDict [
       ("query", JStr query);
       ("fields", jstrs ["title^2"; "content"]);
       ("type", JStr "best_fields");
       ("operator", JStr "or");
       ("fuzziness", JStr "AUTO");
       ("fuzzy_transpositions", JBool true);
       ("boost", JDec 2 (-1))])] ].

Definition must_clauses (query : value) : list json :=
  if truthy query then
    [ JDict [("bool", JDict [
        ("should", JList (should_queries (py_str query)));
        ("minimum_should_match", JInt 1)])] ]
  else [].

Definition range_query (date_from date_to : value) : json :=
  JDict [("range", JDict [("publication_date", JDict (
    (if truthy date_from then [("gte", JStr (py_str date_from))] else []) ++
    (if truthy date_to then [("lte", JStr (py_str date_to))] else [])))])].

Definition filter_clauses (sources doc_types : option (list string))
    (date_from date_to : value) : list json :=
  (if nonempty sources
   then [JDict [("terms", JDict [("source", jstrs (default [] sources))])]]
   else []) ++
  (if nonempty doc_types
   then [JDict [("terms",
           JDict [("metadata.document_type", jstrs (default [] doc_types))])]]
   else []) ++
  (if truthy date_from || truthy date_to
   then [range_query date_from date_to] else []).

Definition highlight_spec : json :=
  JDict [
    ("pre_tags", jstrs ["<mark>"]);
    ("post_tags", jstrs ["</mark>"]);
    ("require_field_match", JBool false);
    ("fields", JDict [
       ("content", JDict [
          ("fragment_size", JInt 180);
          ("number_of_fragments", JInt 1);
          ("no_match_size", JInt 180);
          ("order", JStr "score")]);
       ("title", JDict [("number_of_fragments", JInt 0)])])].

Definition build_body (query : value) (sources doc_types : option (list string))
    (date_from date_to : value) (page size : Z) : json :=
  let must := must_clauses query in
  JDict ([
    ("query", JDict [("bool", JDict [
       ("must", JList (match must with
                       | [] => [JDict [("match_all", JDict [])]]
                       | _ => must
                       end));
       ("filter",
        JList (filter_clauses sources doc_types date_from date_to))])]);
    ("from", JInt ((page - 1) * size));
    ("size", JInt size);
    ("aggs", JDict [
       ("sources", JDict [("terms", JDict [("field", JStr "source")])]);
       ("doc_types",
        JDict [("terms", JDict [("field", JStr "metadata.document_type")])])]);
    ("_source", jstrs ["id"; "title"; "source"; "publication_date"; "url";
                       "content"; "metadata.document_type"])
  ] ++ (if truthy query then [("highlight", highlight_spec)] else [])).

(** Reading a built body: [j[k]] on a dict, and a path of keys. *)
Fixpoint assoc (k : string) (o : list (string * json)) : option json :=
  match o with
  | [] => None
  | (k', v) :: rest => if String.eqb k k' then Some v else assoc k rest
  end.

Definition jget (k : string) (j : json) : option json :=
  match j with
  | JDict o => assoc k o
  | _ => None
  end.

Fixpoint jpath (ks : list string) (j : json) : option json :=
  match ks with
  | [] => Some j
  | k :: rest => match jget k j with
                 | Some j' => jpath rest j'
                 | None => None
                 end
  end.

(** A filter clause is a range filter on [field] when it reads
    [{"range": {field: ...}}]. *)
Definition is_range_on (field : string) (j : json) : bool :=
  match jpath ["range"; field] j with
  | Some _ => true
  | None => false
  end.

(** *** search_documents: shaping the hits *)

(** Texts of the store's response: lists of Unicode code points. *)
Abbreviation text := (list N).

(** U+2026, the one-character ellipsis. *)
Definition ellipsis : text := [8230%N].

(** One raw hit: [_id], the fields of [_source] that are read, and the
    fragment lists of [highlight]; [None] is an absent (or null) entry. *)
Record raw_hit : Type := {
  hit_id : option text;
  src_id : option text;
  src_title : option text;
  src_source : option text;
  src_publication_date : option text;
  src_url : option text;
  src_content : option text;
  hl_content : option (list text);
  hl_title : option (list text);
}.

Record shaped_hit : Type := {
  out_id : option text;
  out_title : option text;
  out_source : option text;
  out_publication_date : option text;
  out_url : option text;
  snippet : option text;
}.

(** [bool(t)] and [a or b] on optional texts. *)
Definition text_truthy (t : option text) : bool :=
  match t with
  | Some (_ :: _) => true
  | _ => false
  end.

Definition text_or (a b : option text) : option text :=
  if text_truthy a then a else b.

Definition make_snippet (h : raw_hit) : option text :=
  let content_frags := default [] (hl_content h) in
  let title_frags := default [] (hl_title h) in
  match content_frags with
  | frag :: _ => Some frag
  | [] =>
      match title_frags with
      | frag :: _ => Some frag
      | [] =>
          if text_truthy (src_content h) then
            let content := default [] (src_content h) in
            if 300 <? Z.of_nat (length content)
            then Some (take 300 content ++ ellipsis)
            else Some content
          else None
      end
  end.

(** The store highlighted nothing of a field: the entry is absent or an
    empty list. *)
Definition no_fragment (frags : option (list text)) : Prop :=
  frags = None \/ frags = Some [].

Definition shape_hit (h : raw_hit) : shaped_hit :=
  {| out_id := text_or (src_id h) (hit_id h);
     out_title := src_title h;
     out_source := src_source h;
     out_publication_date := src_publication_date h;
     out_url := src_url h;
     snippet := make_snippet h |}.

End SearchService.

(** ** app/services/ingestion_service.py *)

Module IngestionService.

Import SearchService.

Definition doc_setdefault (k : string) (v : value) (d : document) : document :=
  {| fields := setdefault k v (fields d); metadata := metadata d |}.

Definition required_fields : list string := ["source"; "url"; "content"].

(** [now] is [datetime.utcnow().isoformat()] at the time of the call.
    [out = dict(doc)] is a copy: the caller's [doc] is left as it is. *)
Definition validate_doc_shape (now : string) (doc : document)
  : result document :=
  let out := doc in
  let out := doc_setdefault "language" (VStr "de") out in
  let out := doc_setdefault "ingested_at" (VStr (now +:+ "Z")) out in
  let missing :=
    List.filter (fun k => negb (truthy (doc_get out k))) required_fields in
  match missing with
  | [] => Ok out
  | _ => Raise (ValueError ("Missing required fields: " +:+ repr_list missing))
  end.

(** The local variables of [run_and_index], and the submissions made so
    far (oldest first): for each call of [index_documents] that returned,
    the actions it handed to the bulk helper. *)
Record run_state : Type := {
  batch : list document;
  seen_ids : gset value;
  total : Z;
  submitted : list (list action);
}.

Definition initial_state : run_state :=
  {| batch := []; seen_ids := ∅; total := 0; submitted := [] |}.

(** How the [for] loop ends: the stream is used up, or an exception leaves
    the function (the batches submitted before stay submitted). *)
Inductive loop_end : Type :=
  | Finished (st : run_state)
  | Aborted (e : exn) (st : run_state).

Record run_result : Type := {
  outcome : result Z;
  batches : list (list action);
}.

Section Run.

(** The clock ([utcnow n] is the time when the [n]-th document of the stream
    is validated), [settings.os_index], the bulk helper's answer and the
    exception of the store, if any. *)
Variable utcnow : nat -> string.
Variable os_index : string.
Variable bulk : list action -> bulk_result.
Variable store_error : list action -> option exn.

(** [res = index_documents(batch); total += res.get("success", 0);
    batch.clear()].  The objects of the batch are the copies made by
    [validate_doc_shape]; they live at [0 .. len(batch) - 1] of a heap of
    their own.  A call that raises leaves the function. *)
Definition flush (st : run_state) : result run_state :=
  let locs := seq 0 (length (batch st)) in
  let h : heap := map_seq 0 (batch st) in
  match index_documents_call os_index bulk store_error locs VNone h with
  | Raise e => Raise e
  | Ok (_, acts, res) =>
      Ok {| batch := [];
            seen_ids := seen_ids st;
            total := total st + success res;
            submitted := submitted st ++ [acts] |}
  end.

(** One turn of the [for] loop on [doc]; [continue] leaves the state as it
    is. *)
Definition loop_body (batch_size : Z) (now : string) (doc : document)
    (st : run_state) : result run_state :=
  clean ← validate_doc_shape now doc;
  let doc_id := py_or (doc_get clean "id") (doc_get clean "url") in
  if truthy doc_id && bool_decide (doc_id ∈ seen_ids st)
  then Ok st
  else
    let st1 :=
      {| batch := batch st ++ [clean];
         seen_ids := if truthy doc_id
                     then {[ doc_id ]} ∪ seen_ids st
                     else seen_ids st;
         total := total st;
         submitted := submitted st |} in
    if batch_size <=? Z.of_nat (length (batch st1))
    then flush st1 else Ok st1.

(** [for doc in source_iter]: the documents the source hands out, then its
    end, which is an exception when the source raises. *)
Fixpoint loop (batch_size : Z) (n : nat) (docs : list document)
    (ending : option exn) (st : run_state) : loop_end :=
  match docs with
  | [] =>
      match ending with
      | Some e => Aborted e st
      | None => Finished st
      end
  | doc :: rest =>
      match loop_body batch_size (utcnow n) doc st with
      | Raise e => Aborted e st
      | Ok st' => loop batch_size (S n) rest ending st'
      end
  end.

Definition run_and_index (source_iter : stream document) (batch_size : Z)
  : run_result :=
  match loop batch_size 0 (items source_iter) (raised source_iter)
          initial_state with
  | Aborted e st => {| outcome := Raise e; batches := submitted st |}
  | Finished st =>
      match batch st with
      | [] => {| outcome := Ok (total st); batches := submitted st |}
      | _ =>
          match flush st with
          | Raise e => {| outcome := Raise e; batches := submitted st |}
          | Ok st' => {| outcome := Ok (total st'); batches := submitted st' |}
          end
      end
  end.

End Run.

(** The identifier the deduplicator uses: [id] if present, else [url]. *)
Definition identifier (d : document) : value :=
  py_or (doc_get d "id") (doc_get d "url").

(** The copy [validate_doc_shape] returns: the document with the defaults for
    [language] and [ingested_at] filled in. *)
Definition with_defaults (now : string) (d : document) : document :=
  doc_setdefault "ingested_at" (VStr (now +:+ "Z"))
    (doc_setdefault "language" (VStr "de") d).

(** How often an identifier occurs among documents. *)
Definition occurrences (v : value) (docs : list document) : nat :=
  length (List.filter (fun d => bool_decide (identifier d = v)) docs).

(** A field is empty or absent: the key is missing, or bound to [None] or
    to the empty string. *)
Definition empty_or_absent (d : document) (k : string) : Prop :=
  fields d !! k = None \/ fields d !! k = Some VNone
  \/ fields d !! k = Some (VStr "").

#[global] Instance empty_or_absent_dec d k : Decision (empty_or_absent d k).
Proof. unfold empty_or_absent. apply _. Defined.

(** The required fields a document lacks, in the order source, url,
    content. *)
Definition missing_fields (d : document) : list string :=
  List.filter (fun k => bool_decide (empty_or_absent d k)) required_fields.

(** A document passes validation when no required field is empty or
    absent. *)
Definition valid (d : document) : Prop :=
  forall k, k ∈ required_fields -> ~ empty_or_absent d k.

End IngestionService.

(** ** scripts/ingest_bundestag_backfill.py, scripts/ingest_bundestag_daily.py *)

Module Scripts.

Import SearchService.

(** The same function in both scripts.  [d] is a record as the DIP client
    yields it. *)
Definition normalize_for_index (d : gmap string value) : result document :=
  let title := py_or (get d "titel") (VStr "") in
  let datum := py_str (py_or (get d "datum") (VStr "")) in
  id ← getkey d "id";
  let url :=
    py_or (get d "pdf_url")
          (VStr ("https://dip.bundestag.de/vorgang/" +:+ py_str id)) in
  Ok {| fields := list_to_map [
          ("id", VStr (py_str id));
          ("title", title);
          ("source", VStr "bundestag");
          ("source_name", VStr "German Bundestag");
          ("publication_date",
           VStr (if endswith datum "Z" then datum
                 else if len datum =? 10 then datum +:+ "T00:00:00Z"
                 else datum));
          ("url", url);
          ("content", py_or (get d "text") (VStr ""));
          ("language", VStr "de") ];
        metadata := Some ∅ |}.

End Scripts.

(** ** app/datasources/eu_client.py: the publication date *)

Module EuClient.

Section Dates.

(** [datetime] is the standard library's: parsing, the test for a missing
    time zone and [dt.astimezone(timezone.utc).isoformat()] are taken as
    given. *)
Variable datetime : Type.
Variable fromisoformat : string -> result datetime.
Variable tzinfo_is_none : datetime -> bool.
Variable utc_isoformat : datetime -> string.


End Dates.

(** The [pub_date] of [iter_cre], from the identifier CRE-TERM-YYYY-MM-DD. *)
Definition cre_publication_date (identifier : string) : value :=
  let parts := split "-" identifier in
  match parts with
  | _ :: _ :: y :: m :: d :: _ =>
      VStr (y +:+ "-" +:+ m +:+ "-" +:+ d +:+ "T00:00:00Z")
  | _ => VNone
  end.

End EuClient.

(** ** Shapes of date strings *)

Module DateShape.

Definition is_digit (c : ascii) : bool :=
  let n := N_of_ascii c in (48 <=? n)%N && (n <=? 57)%N.

(** [s] follows [template], where [d] in the template stands for a digit
    and any other character for itself. *)
Fixpoint matches (template s : string) : bool :=
  match template, s with
  | EmptyString, EmptyString => true
  | String t template', String c s' =>
      (if Ascii.eqb t "d" then is_digit c else Ascii.eqb t c)
      && matches template' s'
  | _, _ => false
  end.

Fixpoint all_digits (s : string) : bool :=
  match s with
  | EmptyString => true
  | String c s' => is_digit c && all_digits s'
  end.

(** YYYY-MM-DD. *)
Definition is_date_only (s : string) : bool := matches "dddd-dd-dd" s.

(** An absolute UTC instant: YYYY-MM-DDTHH:MM:SS, an optional fraction of a
    second, and the designator Z. *)
Definition is_utc_instant (s : string) : bool :=
  let n := String.length s in
  matches "dddd-dd-ddTdd:dd:dd" (String.substring 0 19 s)
  && (String.eqb (String.substring 19 (n - 19) s) "Z"
      || ((21 <? n)%nat
          && String.eqb (String.substring 19 1 s) "."
          && all_digits (String.substring 20 (n - 21) s)
          && String.eqb (String.substring (n - 1) 1 s) "Z")).

End DateShape.

(** ** Sample inputs *)

Module Examples.

Import BundestagDip.

Definition item_a : item := {[ "id" := VStr "1"; "text" := VStr "a" ]}.
Definition item_b : item := {[ "id" := VStr "2"; "text" := VStr "b" ]}.

(** A server that answers every request with the same page and the same
    cursor. *)
Definition stale_server : nat -> response :=
  fun _ => Http 200 (JsonObject (Some [item_a]) None (VStr "abc")).

(** A server whose first answer is 503 Service Unavailable and whose later
    answers are good last pages. *)
Definition transient_server : nat -> response :=
  fun n => match n with
           | O => Http 503 NotJson
           | S _ => Http 200 (JsonObject (Some [item_a]) None VNone)
           end.

(** A good first page with a cursor, then a 503. *)
Definition failing_server : nat -> response :=
  fun n => match n with
           | O => Http 200 (JsonObject (Some [item_a; item_b]) None (VStr "c1"))
           | S _ => Http 503 NotJson
           end.

Import SearchService.

(** The query of the specification's example. *)
Definition wasserstoff_body : json :=
  build_body (VStr "Wasserstoff") (Some ["bundestag"]) None VNone VNone 1 10.

(** A hit without highlights whose content has 301 characters. *)
Definition long_hit : raw_hit :=
  {| hit_id := Some [49%N]; src_id := None; src_title := Some [84%N];
     src_source := None; src_publication_date := None; src_url := None;
     src_content := Some (repeat 97%N 301);
     hl_content := None; hl_title := Some [] |}.

(** Two document objects, the first without an id, and a list that names
    the first one twice. *)
Definition doc_without_id : document :=
  {| fields := {[ "url" := VStr "https://example.org/bt/1";
                  "source" := VStr "bundestag";
                  "content" := VStr "Wasserstoff" ]};
     metadata := None |}.

Definition doc_with_id : document :=
  {| fields := {[ "id" := VStr "42";
                  "url" := VStr "https://example.org/bmi/2";
                  "source" := VStr "bmi";
                  "content" := VStr "Digitalisierung" ]};
     metadata := Some {[ "document_type" := "report" ]} |}.

Definition sample_heap : heap := {[ 0%nat := doc_without_id; 1%nat := doc_with_id ]}.

Definition sample_docs : list loc := [0%nat; 1%nat; 0%nat].

(** A document without url and content, and a run's clock. *)
Definition doc_invalid : document :=
  {| fields := {[ "id" := VStr "7"; "source" := VStr "eu";
                  "url" := VNone ]};
     metadata := None |}.

Definition clock : nat -> string := fun _ => "2025-08-01T10:30:00".

(** A later copy of [doc_with_id]: same id, other content. *)
Definition doc_with_id_again : document :=
  {| fields := {[ "id" := VStr "42";
                  "url" := VStr "https://example.org/bmi/2";
                  "source" := VStr "bmi";
                  "content" := VStr "Digitalisierung, zweite Fassung" ]};
     metadata := None |}.

(** Two records as the DIP client yields them: one dated by day, one with
    a local date and time without time zone. *)
Definition dip_record_day : gmap string value :=
  {[ "id" := VStr "1"; "titel" := VStr "Plenarprotokoll 20/1";
     "datum" := VStr "2025-08-01"; "text" := VStr "Wasserstoff" ]}.

Definition dip_record_naive : gmap string value :=
  {[ "id" := VStr "2"; "titel" := VStr "Drucksache 20/2";
     "datum" := VStr "2025-08-01T10:30:00"; "text" := VStr "Wasserstoff" ]}.

(** A store that accepts every action. *)
Definition accept_all (acts : list action) : bulk_result :=
  {| success := Z.of_nat (length acts); errors := [] |}.

(** A store that never raises. *)
Definition store_up (acts : list action) : option exn := None.

End Examples.

(** ** app/datasources/bundestag_dip.py: what a run sent *)

Module DipRequests.

Import BundestagDip.

(** The query parameters of the requests of a run, in order. *)
Definition request_params (r : run) : list (gmap string string) :=
  omap (fun ev => match ev with Request p => Some p | Yield _ => None end)
       (events r).

(** The parameters of the requests that follow page [n], for [d] more
    pages: each carries the cursor the page before it returned. *)
Definition params_after (responses : nat -> response)
    (p : gmap string string) (n d : nat) : list (gmap string string) :=
  (fun j => <["cursor" := py_str (cursor_at responses j)]> p) <$> seq n d.

(** Page [k] is a good page: the request succeeds and the body is an object. *)
Definition good_page (responses : nat -> response) (k : nat) : Prop :=
  request_error (responses k) = None
  /\ exists code b docs, responses k = Http code b /\ page_docs b = Ok docs.

(** A server that answers with the cursors a, b, a, b, ... *)
Definition alternating_server : nat -> response :=
  fun n => Http 200 (JsonObject (Some [Examples.item_a]) None
                       (VStr (if Nat.even n then "a" else "b"))).

(** Two good pages, the second one without cursor. *)
Definition two_page_server : nat -> response :=
  fun n => match n with
           | O => Http 200 (JsonObject (Some [Examples.item_a]) None (VStr "c1"))
           | S _ => Http 200 (JsonObject None (Some [Examples.item_b]) VNone)
           end.

End DipRequests.

(** ** app/datasources/bundestag_dip.py: the two record streams *)

Module DipClient.

Import BundestagDip.

Section Records.

(** The nested [fundstelle] object of an item, when the item has one (the
    scalar fields of an item do not hold it). *)
Variable fundstelle : item -> option (gmap string value).

(** [fs = d.get("fundstelle"); if isinstance(fs, dict): pdf_url =
    fs.get("pdf_url")]. *)
Definition fundstelle_pdf_url (d : item) : value :=
  match fundstelle d with
  | Some fs => get fs "pdf_url"
  | None => VNone
  end.

Definition _normalize_plenar (d : item) : option item :=
  let id_ := py_or (py_or (get d "id") (get d "documentId"))
                   (get d "vorgangId") in
  let titel := py_or (get d "titel") (get d "title") in
  let datum := py_or (get d "datum") (get d "date") in
  let text := py_or (get d "text") (get d "inhalt") in
  if negb (truthy id_ && truthy titel && truthy datum && truthy text)
  then None
  else
    let pdf_url := fundstelle_pdf_url d in
    let dokumentart :=
      py_or (py_or (get d "dokumentart") (get d "Dokumentart"))
            (VStr "Plenarprotokoll") in
    let out : item :=
      {[ "id" := VStr (py_str id_); "titel" := VStr (py_str titel);
         "datum" := VStr (py_str datum); "text" := VStr (py_str text) ]} in
    let out := if truthy pdf_url then <["pdf_url" := pdf_url]> out else out in
    let out := if truthy dokumentart
               then <["dokumentart" := VStr (py_str dokumentart)]> out
               else out in
    Some out.

Definition _normalize_drucksache (d : item) : option item :=
  let id_ := py_or (get d "id") (get d "drucksacheId") in
  let titel := py_or (get d "titel") (get d "title") in
  let datum := py_or (get d "datum") (get d "date") in
  let text := py_or (get d "text") (get d "inhalt") in
  if negb (truthy id_ && truthy titel && truthy datum && truthy text)
  then None
  else
    let pdf_url := fundstelle_pdf_url d in
    let out : item :=
      {[ "id" := VStr (py_str id_); "titel" := VStr (py_str titel);
         "datum" := VStr (py_str datum); "text" := VStr (py_str text) ]} in
    let out := if truthy pdf_url then <["pdf_url" := pdf_url]> out else out in
    Some out.

(** [for raw in self._paginate_cursor(...): out = normalize(raw); if out and
    out.get("text"): yield out]: the requests stay, an item is replaced by
    its record or dropped. *)
Definition keep_record (normalize : item -> option item) (ev : event)
  : option event :=
  match ev with
  | Request p => Some (Request p)
  | Yield raw =>
      match normalize raw with
      | Some out => if truthy (get out "text") then Some (Yield out) else None
      | None => None
      end
  end.

Definition records (normalize : item -> option item) (r : run) : run :=
  {| events := omap (keep_record normalize) (events r); final := final r |}.

(** The [params] dicts of the two streams. *)
Definition plenar_params (date_from date_to : value) : gmap string value :=
  let params : gmap string value := ∅ in
  let params := if truthy date_from
                then <["datum.start" := date_from]>
                       (<["f.datum.start" := date_from]> params)
                else params in
  if truthy date_to
  then <["datum.end" := date_to]> (<["f.datum.end" := date_to]> params)
  else params.

Definition drucksache_params (date_from date_to : value)
  : gmap string value :=
  let params : gmap string value := ∅ in
  let params := if truthy date_from
                then <["fundstelle.datum.start" := date_from]>
                       (<["datum.start" := date_from]>
                          (<["f.datum.start" := date_from]> params))
                else params in
  if truthy date_to
  then <["fundstelle.datum.end" := date_to]>
         (<["datum.end" := date_to]> (<["f.datum.end" := date_to]> params))
  else params.

(** [responses] is what the endpoint of the stream answers. *)
Definition plenarprotokoll_text (responses : nat -> response) (fuel : nat)
    (date_from date_to : value) : run :=
  records _normalize_plenar
    (_paginate_cursor responses fuel (plenar_params date_from date_to)).

Definition drucksache_text (responses : nat -> response) (fuel : nat)
    (date_from date_to : value) : run :=
  records _normalize_drucksache
    (_paginate_cursor responses fuel (drucksache_params date_from date_to)).

End Records.

(** A record has its four fields: id, titel, datum and text are non-empty
    strings. *)
Definition complete (out : item) : Prop :=
  forall k, k ∈ ["id"; "titel"; "datum"; "text"] ->
    exists s, out !! k = Some (VStr s) /\ s <> "".

(** A date bound as a query parameter: sent when it is given and not
    empty. *)
Definition date_param (v : value) : option string :=
  if truthy v then Some (py_str v) else None.

(** What a request of a stream carries: [format], the lower bound under the
    keys [starts], the upper bound under the keys [ends], and nothing else
    but the cursor. *)
Definition carries (starts ends : list string) (date_from date_to : value)
    (q : gmap string string) : Prop :=
  q !! "format" = Some "json"
  /\ (forall k, k ∈ starts -> q !! k = date_param date_from)
  /\ (forall k, k ∈ ends -> q !! k = date_param date_to)
  /\ (forall k, k ∉ "format" :: "cursor" :: starts ++ ends -> q !! k = None).

(** [DIPClient()]: [api_key] is [settings.dip_api_key]. *)
Definition new_client (api_key : value) : result unit :=
  if negb (truthy api_key)
  then Raise (RuntimeError
                "DIP API key missing. Set DIP_API_KEY in environment.")
  else Ok tt.

(** A run that has ended, as its consumer sees it: the records handed out
    and the exception, if one ended it.  A run still going is no stream. *)
Definition stream_of (r : run) : option (stream item) :=
  match final r with
  | Returned => Some {| items := yielded r; raised := None |}
  | Raised e => Some {| items := yielded r; raised := Some e |}
  | Running => None
  end.

End DipClient.

(** ** scripts/ingest_bundestag_backfill.py: iter_range *)

Module Backfill.

Import SearchService Scripts.

(** [base["metadata"]["document_type"] = t]. *)
Definition set_document_type (t : string) (base : document)
  : result document :=
  match metadata base with
  | Some m => Ok {| fields := fields base;
                    metadata := Some (<["document_type" := t]> m) |}
  | None => Raise (KeyError "metadata")
  end.

(** [for doc in records: base = normalize_for_index(doc); ...; yield base]
    over a stream of the client: the documents made until an exception
    ends the loop, be it the stream's or one raised in the body. *)
Fixpoint normalized (t : string) (recs : list (gmap string value))
    (ending : option exn) : stream document :=
  match recs with
  | [] => {| items := []; raised := ending |}
  | doc :: rest =>
      match (base ← normalize_for_index doc; set_document_type t base) with
      | Raise e => {| items := []; raised := Some e |}
      | Ok base =>
          let s := normalized t rest ending in
          {| items := base :: items s; raised := raised s |}
      end
  end.

(** [api_key] is the configured key; [plenar] and [drucksache] are what
    [client.plenarprotokoll_text(...)] and [client.drucksache_text(...)]
    hand out.  The second stream is only started when the first loop has
    ended without exception. *)
Definition iter_range (api_key : value)
    (plenar drucksache : stream (gmap string value)) : stream document :=
  match DipClient.new_client api_key with
  | Raise e => {| items := []; raised := Some e |}
  | Ok _ =>
      let s1 := normalized "plenarprotokoll" (items plenar) (raised plenar) in
      match raised s1 with
      | Some e => s1
      | None =>
          let s2 :=
            normalized "drucksache" (items drucksache) (raised drucksache) in
          {| items := items s1 ++ items s2; raised := raised s2 |}
      end
  end.

End Backfill.

(** ** What a run hands to the store *)

Module RunLog.

Import SearchService IngestionService.

(** The actions [index_documents] submits for a batch whose objects nobody
    else holds. *)
Definition batch_actions (index : string) (b : list document) : list action :=
  (fun d => action_of index (assign_id d)) <$> b.

(** The number of documents at which a batch is flushed: [batch_size], and 1
    when [batch_size] is below 1 (the test [len(batch) >= batch_size] then
    holds after every append). *)
Definition flush_length (batch_size : Z) : nat := Z.to_nat (Z.max batch_size 1).

(** The copies [validate_doc_shape] returns for documents that pass it,
    the first one validated at time [utcnow n]. *)
Fixpoint cleaned (utcnow : nat -> string) (n : nat) (docs : list document)
  : list document :=
  match docs with
  | [] => []
  | d :: rest => with_defaults (utcnow n) d :: cleaned utcnow (S n) rest
  end.

(** The documents whose identifier is not in [seen] and did not occur
    earlier in the list, in order. *)
Fixpoint keep_first (seen : gset value) (docs : list document)
  : list document :=
  match docs with
  | [] => []
  | d :: rest =>
      if bool_decide (identifier d ∈ seen) then keep_first seen rest
      else d :: keep_first ({[ identifier d ]} ∪ seen) rest
  end.

(** The sum of the success counts the store reports for the submissions. *)
Definition reported (bulk : list action -> bulk_result)
    (bs : list (list action)) : Z :=
  foldr (fun b acc => success (bulk b) + acc) 0 bs.

(** The state against the clean documents accepted so far, in order: the
    last of them are in the batch, the ones before were submitted. *)
Definition accepted (index : string) (st : run_state) (log : list document)
  : Prop :=
  exists flushed,
    log = flushed ++ batch st
    /\ concat (submitted st) = batch_actions index flushed.

(** An action as [gen_actions] builds it for the index. *)
Definition well_formed (index : string) (a : action) : Prop :=
  _op_type a = "index" /\ _index a = index
  /\ _id a = doc_get (_source a) "id".

End RunLog.

(** ** More sample inputs *)

Module MoreExamples.

Import SearchService.

(** A Drucksache record with the id of [Examples.dip_record_day]. *)
Definition dip_record_same_id : gmap string value :=
  {[ "id" := VStr "1"; "titel" := VStr "Drucksache 20/1";
     "datum" := VStr "2025-08-02"; "text" := VStr "Antrag";
     "pdf_url" := VStr "https://dserver.bundestag.de/btd/20/001/2000001.pdf" ]}.

(** A store that rejects every second action. *)
Definition accept_half (acts : list action) : bulk_result :=
  {| success := Z.of_nat (length acts) / 2; errors := [] |}.

(** A url with a character beyond ASCII, U+00DC. *)
Definition url_umlaut : string :=
  "https://example.org/bt/" +:+ String "220"%char "bersicht".

Definition doc_umlaut : document :=
  {| fields := {[ "url" := VStr url_umlaut; "source" := VStr "bundestag";
                  "content" := VStr "Bericht" ]};
     metadata := None |}.

(** Documents with the url of [Examples.doc_without_id]: one that carries
    the digest of that url as its id, a later version of it, and one with
    an id of its own. *)
Definition doc_digest_id : document :=
  {| fields := {[ "id" := VStr "2bb570db24c0ec43125775086cc0ac791db18eb9";
                  "url" := VStr "https://example.org/bt/1";
                  "source" := VStr "bundestag";
                  "content" := VStr "Wasserstoff" ]};
     metadata := None |}.

Definition doc_digest_id_again : document :=
  {| fields := {[ "id" := VStr "2bb570db24c0ec43125775086cc0ac791db18eb9";
                  "url" := VStr "https://example.org/bt/1";
                  "source" := VStr "bundestag";
                  "content" := VStr "Wasserstoff, zweite Fassung" ]};
     metadata := None |}.

Definition doc_same_url : document :=
  {| fields := {[ "id" := VStr "42";
                  "url" := VStr "https://example.org/bt/1";
                  "source" := VStr "bundestag";
                  "content" := VStr "Wasserstoff" ]};
     metadata := None |}.


(** A DIP endpoint whose first page holds two complete items and a cursor
    and whose second request fails, and one with a single last page. *)
Definition dip_failing_server : nat -> BundestagDip.response :=
  fun n => match n with
           | O => BundestagDip.Http 200
                    (BundestagDip.JsonObject
                       (Some [Examples.dip_record_day; dip_record_same_id])
                       None (VStr "c1"))
           | S _ => BundestagDip.Http 503 BundestagDip.NotJson
           end.

Definition dip_last_page_server : nat -> BundestagDip.response :=
  fun _ => BundestagDip.Http 200
             (BundestagDip.JsonObject (Some [dip_record_same_id]) None VNone).

End MoreExamples.

(** ** app/datasources/eu_api.py: build_download_url *)

Module EuUrls.

(** The dataclass [WorkDetails]. *)
Record WorkDetails : Type := {
  id : string;
  work_type : string;
  identifier : string;
  term : option Z;
  title_en : option string;
  issued : value;
  is_answer : bool;
}.

(** How an f-string prints a value of the parsed identifier: [None] prints
    as the word None. *)
Definition fmt (o : option string) : string := default "None" o.

Definition doceo : string := "https://www.europarl.europa.eu/doceo/document/".

Section Upper.

(** [str.upper], the built-in. *)
Variable upper : string -> string.

Definition build_download_url (details : WorkDetails) (lang : string)
  : result (string * string) :=
  meta ← EuApi.parse_identifier (identifier details);
  let kind := upper (default "" (EuApi.kind meta)) in
  if String.eqb kind "CRE" then
    let term := EuApi.term meta in
    let d := EuApi.date meta in
    Ok (doceo +:+ "CRE-" +:+ fmt term +:+ "-" +:+ fmt d +:+ "_" +:+ lang
        +:+ ".pdf", "CRE")
  else
    let term := EuApi.term meta in
    let year := EuApi.year meta in
    let number := EuApi.number meta in
    let '(suffix, src) :=
      if String.eqb kind "E" && is_answer details
      then ("-ASW", "E-ASW") else ("", kind) in
    Ok (doceo +:+ kind +:+ "-" +:+ fmt term +:+ "-" +:+ fmt year +:+ "-"
        +:+ fmt number +:+ suffix +:+ "_" +:+ lang +:+ ".pdf", src).

End Upper.

(** [str.upper] on strings of ASCII letters, digits and signs. *)
Definition ascii_upper (s : string) : string :=
  string_of_list_ascii
    (map (fun c => let n := N_of_ascii c in
                   if (97 <=? n)%N && (n <=? 122)%N
                   then ascii_of_N (n - 32) else c)
         (list_ascii_of_string s)).

Definition report_details : WorkDetails :=
  {| id := "eli/dl/doc/A-10-2024-0001";
     work_type := "def/ep-document-types/REPORT_PLENARY";
     identifier := "A-10-2024-0001"; term := Some 10;
     title_en := Some "Report"; issued := VStr "2024-09-12";
     is_answer := false |}.

Definition answer_details : WorkDetails :=
  {| id := "eli/dl/doc/E-10-2024-001357-ASW";
     work_type := "def/ep-document-types/QUESTION_WRITTEN_ANSWER";
     identifier := "E-10-2024-001357"; term := Some 10;
     title_en := None; issued := VNone; is_answer := true |}.

End EuUrls.

(** ** scripts/ingest_bundestag_daily.py: iter_newest_for_day *)

Module Daily.

Import SearchService Scripts Backfill.

(** [day_gate]: 1 for a record newer than the target day, -1 for an older
    one, 0 for a record of the target day or without date.  Strings compare
    as in Python, character by character. *)
Definition day_gate (target_date : string) (d : gmap string value) : Z :=
  let dstr := String.substring 0 10
                (py_str (py_or (get d "datum") (VStr ""))) in
  if String.eqb dstr "" then 0
  else if String.ltb target_date dstr then 1
  else if String.ltb dstr target_date then -1
  else 0.

(** How the loop over one stream ends: it runs out of records or breaks
    (the generator goes on), [return] at the cap, or an exception. *)
Inductive loop_exit : Type :=
  | GoOn
  | Returned
  | Raised (e : exn).

(** One of the two [for] loops; [produced] is the counter on entry, [recs]
    what the client stream hands out and [ending] the exception that ends
    it, if any. *)
Fixpoint day_stream (target_date : string) (t : string) (max_docs : Z)
    (produced : Z) (recs : list (gmap string value)) (ending : option exn)
  : list document * Z * loop_exit :=
  match recs with
  | [] =>
      ([], produced, match ending with Some e => Raised e | None => GoOn end)
  | doc :: rest =>
      let cmp := day_gate target_date doc in
      if 0 <? cmp then day_stream target_date t max_docs produced rest ending
      else if cmp <? 0 then ([], produced, GoOn)
      else
        match (base ← normalize_for_index doc; set_document_type t base) with
        | Raise e => ([], produced, Raised e)
        | Ok base =>
            let produced := produced + 1 in
            if max_docs <=? produced then ([base], produced, Returned)
            else
              let '(docs, p, how) :=
                day_stream target_date t max_docs produced rest ending in
              (base :: docs, p, how)
        end
  end.

(** [api_key] is the configured key; [plenar] and [drucksache] are what
    the two client streams hand out, newest first. *)
Definition iter_newest_for_day (api_key : value) (target_date : string)
    (max_docs : Z) (plenar drucksache : stream (gmap string value))
  : stream document :=
  match DipClient.new_client api_key with
  | Raise e => {| items := []; raised := Some e |}
  | Ok _ =>
      let '(a, p, how) :=
        day_stream target_date "plenarprotokoll" max_docs 0 (items plenar)
          (raised plenar) in
      match how with
      | Returned => {| items := a; raised := None |}
      | Raised e => {| items := a; raised := Some e |}
      | GoOn =>
          let '(b, _, how') :=
            day_stream target_date "drucksache" max_docs p
              (items drucksache) (raised drucksache) in
          {| items := a ++ b;
             raised := match how' with Raised e => Some e | _ => None end |}
      end
  end.

(** The documents made of the records of [recs] that pass the day gate. *)
Definition of_the_day (target_date : string) (recs : list (gmap string value))
    (doc : document) : Prop :=
  exists rec t base,
    rec ∈ recs
    /\ day_gate target_date rec = 0
    /\ normalize_for_index rec = Ok base
    /\ set_document_type t base = Ok doc.

Definition newer_record : gmap string value :=
  {[ "id" := VStr "9"; "titel" := VStr "Plenarprotokoll 20/9";
     "datum" := VStr "2025-08-03"; "text" := VStr "neu" ]}.

Definition older_record : gmap string value :=
  {[ "id" := VStr "0"; "titel" := VStr "Plenarprotokoll 20/0";
     "datum" := VStr "2025-07-31"; "text" := VStr "alt" ]}.

End Daily.

(** ** app/datasources/eu_client.py: the documents yielded *)

Module EuDocuments.

Import SearchService.

(** The dict [iter_cre] and [iter_pdf_kind] yield.  [title_en] is
    [details.title_en], [text] what [_load_text] returned ([None] when the
    text file could not be read), [language] is "mixed" for debates and
    "en" for the pdf kinds. *)
Definition eu_document (title_en : value) (src_name : string)
    (pub_date : value) (url : string) (text : value) (language : string)
  : document :=
  {| fields := list_to_map [
       ("id", VStr (_doc_id url));
       ("title", py_or title_en (VStr "title not found"));
       ("source", VStr "eu");
       ("source_name", VStr src_name);
       ("publication_date", pub_date);
       ("url", VStr url);
       ("content", py_or text (VStr ""));
       ("language", VStr language) ];
     metadata := Some {[ "document_type" := src_name ]} |}.

(** The same document as another source would hand it over, without id. *)
Definition without_id (d : document) : document :=
  {| fields := delete "id" (fields d); metadata := metadata d |}.

(** Every character is one of 0-9, a-f. *)
Definition is_hex_char (c : ascii) : bool :=
  let n := N_of_ascii c in
  ((48 <=? n)%N && (n <=? 57)%N) || ((97 <=? n)%N && (n <=? 102)%N).

Fixpoint all_hex (s : string) : bool :=
  match s with
  | EmptyString => true
  | String c s' => is_hex_char c && all_hex s'
  end.

End EuDocuments.

(** ** app/services/search_service.py: ensure_index; scripts/recreate_index.py *)

Module IndexAdmin.

Import SearchService.

(** The settings and mappings an index is created with. *)
Definition index_body : json :=
  JDict [
    ("settings", JDict [
       ("index", JDict [("number_of_shards", JInt 1);
                        ("number_of_replicas", JInt 0)]);
       ("analysis", JDict [
          ("analyzer", JDict [
             ("german_custom", JDict [
                ("tokenizer", JStr "standard");
                ("filter", jstrs ["lowercase"; "german_normalization";
                                  "german_stem"])])])])]);
    ("mappings", JDict [
       ("properties", JDict [
          ("id", JDict [("type", JStr "keyword")]);
          ("title", JDict [
             ("type", JStr "text");
             ("analyzer", JStr "german_custom");
             ("fields", JDict [("raw", JDict [("type", JStr "keyword")])])]);
          ("content", JDict [("type", JStr "text");
                             ("analyzer", JStr "german_custom")]);
          ("source", JDict [("type", JStr "keyword")]);
          ("source_name", JDict [("type", JStr "keyword")]);
          ("publication_date", JDict [("type", JStr "date")]);
          ("url", JDict [("type", JStr "keyword")]);
          ("language", JDict [("type", JStr "keyword")]);
          ("metadata", JDict [
             ("properties", JDict [
                ("document_type", JDict [("type", JStr "keyword")])])]);
          ("ingested_at", JDict [("type", JStr "date")])])])].

(** The indices of the store: each index with the body it was created
    with.  [client.indices.exists] is a lookup, [create] an insertion,
    [delete] a deletion. *)
Definition ensure_index (os_index : string) (index_name : value)
    (store : gmap string json) : gmap string json :=
  let index := py_str (py_or index_name (VStr os_index)) in
  if bool_decide (is_Some (store !! index)) then store
  else <[index := index_body]> store.

(** [main] of scripts/recreate_index.py. *)
Definition recreate_index (os_index : string) (store : gmap string json)
  : gmap string json :=
  let index := os_index in
  let store := if bool_decide (is_Some (store !! index))
               then delete index store else store in
  ensure_index os_index VNone store.

End IndexAdmin.

(** ** app/datasources/eu_api.py: list_work_ids *)

Module EuListing.

(** [str(n)] for an [int]. *)
Definition int_str (n : Z) : string := NilEmpty.string_of_int (Z.to_int n).

(** The dataclass [WorkStub]. *)
Record WorkStub : Type := {
  id : value;
  work_type : value;
  identifier : string;
  label : value;
}.

(** [WORKTYPE_QUERY[kind]]. *)
Definition worktype_query (kind : string) : result string :=
  if String.eqb kind "TA" then Ok "TEXT_ADOPTED"
  else if String.eqb kind "A" then Ok "REPORT_PLENARY"
  else if String.eqb kind "E" then Ok "QUESTION_WRITTEN"
  else if String.eqb kind "E-ASW" then Ok "QUESTION_WRITTEN_ANSWER"
  else if String.eqb kind "CRE" then Ok "CRE_PLENARY"
  else Raise (KeyError kind).

(** What a request gives: [session.get] raises, or the body is not JSON
    ([data = {}]), a JSON array, or a JSON object with its [data] entry. *)
Inductive page : Type :=
  | GetFailed
  | NotJson
  | JsonArray
  | JsonObject (data : option (list (gmap string value))).

(** [list(data.get("data") or [])]. *)
Definition page_items (p : page) : result (list (gmap string value)) :=
  match p with
  | GetFailed => Raise RequestException
  | NotJson => Ok []
  | JsonArray => Raise (AttributeError "'list' object has no attribute 'get'")
  | JsonObject data => Ok (default [] data)
  end.

(** The client-side filter by term. *)
Definition term_matches (term : option Z) (ident : string) : bool :=
  match term with
  | None => true
  | Some t =>
      String.prefix ("A-" +:+ int_str t +:+ "-") ident
      || String.prefix ("TA-" +:+ int_str t +:+ "-") ident
      || String.prefix ("E-" +:+ int_str t +:+ "-") ident
      || String.prefix ("CRE-" +:+ int_str t +:+ "-") ident
  end.

Definition stub_of (it : gmap string value) : WorkStub :=
  {| id := py_or (get it "id") (VStr "");
     work_type := py_or (get it "work_type") (VStr "");
     identifier := py_str (py_or (get it "identifier") (VStr ""));
     label := get it "label" |}.

(** The stubs yielded for the items of one page. *)
Definition page_stubs (term : option Z) (items : list (gmap string value))
  : list WorkStub :=
  List.filter (fun st => term_matches term (identifier st)) (stub_of <$> items).

Inductive event : Type :=
  | Request (work_type : string) (offset limit : Z)
  | Yield (stub : WorkStub).

Inductive status : Type :=
  | Returned
  | Raised (e : exn)
  | Running.

Record run : Type := {
  events : list event;
  final : status;
}.

(** The body of [while True], unrolled [fuel] times; the [n]-th request
    gets [responses n]. *)
Fixpoint list_loop (responses : nat -> page) (query_kind : string)
    (term : option Z) (page_limit : Z) (max_pages : option Z)
    (fuel : nat) (n : nat) (offset pages : Z) : run :=
  match fuel with
  | O => {| events := []; final := Running |}
  | S fuel' =>
      let req := Request query_kind offset page_limit in
      match page_items (responses n) with
      | Raise e => {| events := [req]; final := Raised e |}
      | Ok [] => {| events := [req]; final := Returned |}
      | Ok items =>
          let yields := Yield <$> page_stubs term items in
          let offset := offset + page_limit in
          let pages := pages + 1 in
          if match max_pages with
             | Some m => m <=? pages
             | None => false
             end
          then {| events := req :: yields; final := Returned |}
          else
            let r := list_loop responses query_kind term page_limit max_pages
                       fuel' (S n) offset pages in
            {| events := req :: yields ++ events r; final := final r |}
      end
  end.

Definition list_work_ids (responses : nat -> page) (fuel : nat)
    (kind : string) (term : option Z) (page_limit : Z) (max_pages : option Z)
  : run :=
  match worktype_query kind with
  | Raise e => {| events := []; final := Raised e |}
  | Ok query_kind =>
      list_loop responses query_kind term page_limit max_pages fuel 0 0 0
  end.

Definition yielded (r : run) : list WorkStub :=
  omap (fun ev => match ev with Yield st => Some st | Request _ _ _ => None end)
       (events r).

Definition offsets (r : run) : list Z :=
  omap (fun ev => match ev with Request _ o _ => Some o | Yield _ => None end)
       (events r).

(** One of the four prefixes of a term. *)
Definition of_term (t : Z) (ident : string) : Prop :=
  exists k, k ∈ ["A"; "TA"; "E"; "CRE"]
    /\ String.prefix (k +:+ "-" +:+ int_str t +:+ "-") ident = true.

(** A server with full pages for ever. *)
Definition endless_listing : nat -> page :=
  fun n => JsonObject (Some [ {[ "id" := VStr "eli/dl/doc/A-10-2024-0001";
                                 "identifier" := VStr "A-10-2024-0001" ]};
                              {[ "id" := VStr "eli/dl/doc/A-9-2023-0007";
                                 "identifier" := VStr "A-9-2023-0007" ]} ]).

(** A server with one page of items, and no JSON after it. *)
Definition short_listing : nat -> page :=
  fun n => match n with
           | O => endless_listing O
           | S _ => NotJson
           end.

End EuListing.

(** * Properties *)

(** ** Strings *)

Lemma split_nonempty (c : ascii) (s : string) : split c s <> [].
Proof.
  induction s as [|a s IH]; simpl; [discriminate|].
  destruct (Ascii.eqb a c); [discriminate|].
  destruct (split c s); discriminate.
Qed.

(** Joining the segments with the separator gives the string back. *)
Lemma join_split (c : ascii) (s : string) :
  join (String c "") (split c s) = s.
Proof.
  induction s as [|a s IH]; simpl; [reflexivity|].
  destruct (Ascii.eqb_spec a c) as [->|Hne].
  - destruct (split c s) as [|seg segs] eqn:E.
    + now destruct (split_nonempty c s).
    + cbn [join]. simpl. now rewrite <- IH.
  - destruct (split c s) as [|seg segs] eqn:E.
    + now destruct (split_nonempty c s).
    + rewrite <- IH. destruct segs; reflexivity.
Qed.

(** No segment holds the separator. *)
Lemma split_segments (c : ascii) (s : string) :
  Forall (fun seg => occurs c seg = false) (split c s).
Proof.
  induction s as [|a s IH]; simpl.
  - repeat constructor.
  - destruct (Ascii.eqb a c) eqn:E.
    + constructor; [reflexivity | exact IH].
    + destruct (split c s) as [|seg segs]; [repeat constructor; simpl; now rewrite E|].
      inversion IH; subst. constructor; [simpl; now rewrite E | assumption].
Qed.

Example split_keeps_empty_segments : split "-" "a--b-" = ["a"; ""; "b"; ""].
Proof. reflexivity. Qed.

Example replace_designator :
  replace "Z" "+00:00" "2024-05-01T10:00:00Z" = "2024-05-01T10:00:00+00:00"
  /\ replace "+00:00" "Z" "2024-05-01T10:00:00+00:00" = "2024-05-01T10:00:00Z".
Proof. split; reflexivity. Qed.

Example repr_list_example :
  repr_list ["url"; "content"] = "['url', 'content']".
Proof. reflexivity. Qed.

(** ** Identifier parsing *)

Section ParseIdentifier.

Import EuApi.

(** C9. [parse_identifier] returns a record for every input string and never
    raises.  With fewer than two hyphen-delimited segments all five fields
    are null; for a CRE identifier the date is segments 3 to 5 joined by
    hyphens (null when there are fewer than five segments) and year and
    number are null; for any other kind year and number are segments 3 and
    4 (each null when absent) and the date is null. *)
Theorem parse_identifier_total (identifier : string) :
  exists r, parse_identifier identifier = Ok r /\
    let parts := split "-" identifier in
    ((length parts < 2)%nat ->
       r = {| kind := None; term := None; year := None; number := None;
              date := None |}) /\
    (forall t rest, parts = "CRE" :: t :: rest ->
       r = {| kind := Some "CRE"; term := Some t; year := None;
              number := None;
              date := match rest with
                      | y :: m :: d :: _ =>
                          Some (y +:+ "-" +:+ m +:+ "-" +:+ d)
                      | _ => None
                      end |}) /\
    (forall k t rest, k <> "CRE" -> parts = k :: t :: rest ->
       r = {| kind := Some k; term := Some t; year := rest !! 0%nat;
              number := rest !! 1%nat; date := None |}).
Proof.
  unfold parse_identifier.
  destruct (split "-" identifier) as [|k [|t rest]] eqn:E.
  - now destruct (split_nonempty "-" identifier).
  - eexists; split; [reflexivity|]. cbn zeta.
    split; [reflexivity|]. split; intros; discriminate.
  - cbn [length bool_decide]. rewrite bool_decide_eq_false_2 by discriminate.
    cbn -[String.eqb join slice].
    destruct (String.eqb_spec k "CRE") as [->|Hk].
    + eexists; split; [reflexivity|]. cbn zeta. split; [cbn; lia|].
      split.
      * intros t' rest' [= <- <-].
        destruct rest as [|y [|m [|d rest]]]; reflexivity.
      * intros k' t' rest' Hk' [= <- _ _]. now destruct Hk'.
    + destruct rest as [|y [|n rest]]; cbn;
        (eexists; split; [reflexivity|]; cbn zeta;
         split; [cbn; lia|]; split;
         [intros t' rest' [= -> _ _]; now destruct Hk
         |intros k' t' rest' _ [= <- <- <-]; reflexivity]).
Qed.

Lemma parse_identifier_total_witness :
  exists r, parse_identifier "CRE-10-2025-01-20" = Ok r /\
            date r = Some "2025-01-20" /\ year r = None.
Proof.
  destruct (parse_identifier_total "CRE-10-2025-01-20") as (r & Hr & _ & Hcre & _).
  exists r. split; [exact Hr|].
  rewrite (Hcre "10" ["2025"; "01"; "20"] eq_refl). split; reflexivity.
Defined.

End ParseIdentifier.

(** ** Cursor pagination *)

Section Pagination.

Import BundestagDip.

Variable responses : nat -> response.

Lemma requests_prepend evs r :
  requests (prepend evs r)
  = (length (List.filter is_request evs) + requests r)%nat.
Proof. unfold requests, prepend. cbn. now rewrite List.filter_app, length_app. Qed.

Lemma filter_request_yields (docs : list item) :
  List.filter is_request (Yield <$> docs) = [].
Proof. induction docs; [reflexivity | assumption]. Qed.

Lemma yielded_prepend evs r :
  yielded (prepend evs r)
  = omap (fun ev => match ev with Yield d => Some d | Request _ => None end) evs
    ++ yielded r.
Proof. unfold yielded, prepend. cbn. apply omap_app. Qed.

Lemma omap_yields (docs : list item) :
  omap (fun ev => match ev with Yield d => Some d | Request _ => None end)
       (Yield <$> docs) = docs.
Proof. induction docs as [|d docs IH]; [reflexivity|]. cbn. now rewrite IH. Qed.

(** One turn of the loop, by cases on the response. *)
Lemma paginate_loop_step fuel n params prev :
  paginate_loop responses (S fuel) n params prev =
  match responses n with
  | Failed => {| events := [Request params]; final := Raised RequestException |}
  | Http code b =>
      match (_ ← raise_for_status code; page_docs b) with
      | Raise e => {| events := [Request params]; final := Raised e |}
      | Ok docs =>
          if negb (truthy (page_cursor b))
             || bool_decide (page_cursor b = prev)
          then {| events := Request params :: (Yield <$> docs);
                  final := Returned |}
          else prepend (Request params :: (Yield <$> docs))
                 (paginate_loop responses fuel (S n)
                    (<["cursor" := py_str (page_cursor b)]> params)
                    (page_cursor b))
      end
  end.
Proof. reflexivity. Qed.

(** The loop started at request [n] with [prev] in hand ends by page
    [n + d] at the latest when that page returns no cursor or repeats the
    cursor before it. *)
Lemma paginate_loop_stops (d : nat) :
  forall n fuel params prev,
    (d < fuel)%nat ->
    truthy (cursor_at responses (n + d)) = false
    \/ cursor_at responses (n + d)
       = match d with O => prev | S d' => cursor_at responses (n + d') end ->
    let r := paginate_loop responses fuel n params prev in
    final r <> Running /\ (requests r <= d + 1)%nat
    /\ r = paginate_loop responses (S d) n params prev.
Proof.
  induction d as [|d IH]; intros n fuel params prev Hfuel Hstop;
    (destruct fuel as [|fuel]; [lia|]); cbn zeta;
    rewrite !paginate_loop_step; unfold cursor_at in Hstop.
  - rewrite Nat.add_0_r in Hstop.
    destruct (responses n) as [|code b]; [now repeat split|].
    destruct (_ ← raise_for_status code; page_docs b) as [docs|e];
      [|now repeat split].
    assert (negb (truthy (page_cursor b))
            || bool_decide (page_cursor b = prev) = true) as ->.
    { destruct Hstop as [-> | ->]; [reflexivity|].
      rewrite bool_decide_eq_true_2 by reflexivity. apply orb_true_r. }
    repeat split; [discriminate|].
    unfold requests; cbn. rewrite filter_request_yields. cbn. lia.
  - destruct (responses n) as [|code b] eqn:Rn; [repeat split; [discriminate|cbn; lia]|].
    destruct (_ ← raise_for_status code; page_docs b) as [docs|e];
      [|repeat split; [discriminate|cbn; lia]].
    destruct (negb (truthy (page_cursor b))
              || bool_decide (page_cursor b = prev)).
    + repeat split; [discriminate|].
      unfold requests; cbn. rewrite filter_request_yields. cbn. lia.
    + specialize (IH (S n) fuel (<["cursor" := py_str (page_cursor b)]> params)
                     (page_cursor b)).
      cbn zeta in IH. destruct IH as (Hfin & Hreq & Heq); [lia| |].
      { replace (S n + d)%nat with (n + S d)%nat by lia.
        destruct Hstop as [H|H]; [now left|right].
        unfold cursor_at. rewrite H. destruct d as [|d'].
        - rewrite Nat.add_0_r, Rn. reflexivity.
        - now replace (S n + d')%nat with (n + S d')%nat by lia. }
      split; [exact Hfin|]. split.
      * rewrite requests_prepend. cbn. rewrite filter_request_yields. cbn. lia.
      * now rewrite Heq.
Qed.

(** C1. When some page [k] of the response sequence returns no cursor, or a
    cursor identical to the one the previous page returned, the generator
    ends (it returns or raises; it is not still looping) after at most
    [k + 1] page requests, whatever fuel beyond [k + 1] it is given. *)
Theorem paginate_cursor_terminates (extra_params : gmap string value)
    (k fuel : nat) :
  stops_at responses k ->
  (k < fuel)%nat ->
  let r := _paginate_cursor responses fuel extra_params in
  final r <> Running
  /\ (requests r <= k + 1)%nat
  /\ r = _paginate_cursor responses (S k) extra_params.
Proof.
  intros Hstop Hfuel. unfold _paginate_cursor.
  apply (paginate_loop_stops k 0); [exact Hfuel|].
  destruct Hstop as [H|H]; [now left|right].
  destruct k; exact H.
Qed.

(** The loop started at request [n] raises at page [n + d] when the pages
    before it are good pages with new cursors and that request fails: every
    page was requested once. *)
Lemma paginate_loop_fails (d : nat) :
  forall n fuel params e,
    (d < fuel)%nat ->
    (forall j, (n <= j < n + d)%nat -> continues_at responses j) ->
    request_error (responses (n + d)) = Some e ->
    let r := paginate_loop responses fuel n params (previous_cursor responses n) in
    final r = Raised e /\ requests r = (d + 1)%nat
    /\ yielded r = concat (docs_at responses <$> seq n d).
Proof.
  induction d as [|d IH]; intros n fuel params e Hfuel Hgood Herr;
    (destruct fuel as [|fuel]; [lia|]); cbn zeta;
    rewrite paginate_loop_step.
  - rewrite Nat.add_0_r in Herr. unfold request_error in Herr.
    destruct (responses n) as [|code b].
    + injection Herr as <-. now repeat split.
    + unfold raise_for_status.
      destruct ((400 <=? code) && (code <? 600)); [|discriminate].
      injection Herr as <-. now repeat split.
  - destruct (Hgood n ltac:(lia)) as (Hok & (code & b & docs & Rn & Hdocs) & Htr & Hne).
    unfold cursor_at in Htr, Hne. rewrite Rn in *.
    unfold request_error in Hok. unfold raise_for_status.
    destruct ((400 <=? code) && (code <? 600)); [discriminate|].
    cbn. rewrite Hdocs, Htr. cbn [negb orb].
    rewrite bool_decide_eq_false_2 by exact Hne.
    specialize (IH (S n) fuel (<["cursor" := py_str (page_cursor b)]> params) e).
    assert (previous_cursor responses (S n) = page_cursor b) as Hprev.
    { cbn. unfold cursor_at. now rewrite Rn. }
    cbn zeta in IH. rewrite Hprev in IH.
    destruct IH as (Hfin & Hreq & Hy).
    + lia.
    + intros j Hj. apply Hgood. lia.
    + now replace (S n + d)%nat with (n + S d)%nat by lia.
    + split; [exact Hfin|]. split.
      * rewrite requests_prepend. cbn. rewrite filter_request_yields, Hreq. cbn. lia.
      * rewrite yielded_prepend. cbn [omap]. cbn. rewrite omap_yields, Hy.
        unfold docs_at at 2. now rewrite Rn, Hdocs.
Qed.

(** C7 (amended). A page request of the pagination loop that fails (the
    request raises, or the status is 4xx or 5xx) is not retried: when the
    pages before page [k] are good pages with new cursors and the request
    for page [k] fails, the generator raises that error after exactly
    [k + 1] requests, one per page, having yielded the items of the pages
    before [k] and nothing else. *)
Theorem paginate_cursor_no_retry (extra_params : gmap string value)
    (k fuel : nat) (e : exn) :
  (forall j, (j < k)%nat -> continues_at responses j) ->
  request_error (responses k) = Some e ->
  (k < fuel)%nat ->
  let r := _paginate_cursor responses fuel extra_params in
  final r = Raised e
  /\ requests r = (k + 1)%nat
  /\ yielded r = concat (docs_at responses <$> seq 0 k).
Proof.
  intros Hgood Herr Hfuel. unfold _paginate_cursor.
  apply (paginate_loop_fails k 0 fuel _ e Hfuel); [|exact Herr].
  intros j Hj. apply Hgood. lia.
Qed.

End Pagination.

Lemma paginate_cursor_terminates_witness :
  let r := BundestagDip._paginate_cursor Examples.stale_server 10 ∅ in
  BundestagDip.final r <> BundestagDip.Running
  /\ (BundestagDip.requests r <= 1 + 1)%nat
  /\ r = BundestagDip._paginate_cursor Examples.stale_server 2 ∅.
Proof.
  apply (paginate_cursor_terminates Examples.stale_server ∅ 1 10);
    [right; reflexivity | lia].
Defined.

(** C7, as stated, fails: the first request gets a 503 and the next one
    would succeed, yet the generator raises after that single request and
    yields nothing. *)
Lemma paginate_cursor_retry_counterexample :
  let r := BundestagDip._paginate_cursor Examples.transient_server 5 ∅ in
  BundestagDip.final r = BundestagDip.Raised (HTTPError 503)
  /\ BundestagDip.requests r = 1%nat
  /\ BundestagDip.yielded r = []
  /\ BundestagDip.request_error (Examples.transient_server 1) = None.
Proof. vm_compute. repeat split. Qed.

Lemma paginate_cursor_no_retry_witness :
  let r := BundestagDip._paginate_cursor Examples.failing_server 5 ∅ in
  BundestagDip.final r = BundestagDip.Raised (HTTPError 503)
  /\ BundestagDip.requests r = (1 + 1)%nat
  /\ BundestagDip.yielded r = [Examples.item_a; Examples.item_b].
Proof.
  apply (paginate_cursor_no_retry Examples.failing_server ∅ 1 5 (HTTPError 503)).
  - intros j Hj. assert (j = 0%nat) as -> by lia.
    split; [reflexivity|]. split; [now eexists _, _, _|].
    split; [reflexivity | discriminate].
  - reflexivity.
  - lia.
Defined.

(** ** Query construction *)

Section QueryConstruction.

Import SearchService.

(** C5. For text "Wasserstoff", sources ["bundestag"], no document types, no
    dates, page 1 and size 10, the request body has a filter list holding
    the terms filter on [source] for ["bundestag"] and no range filter on
    [publication_date]; its must clause is one bool/should with
    [minimum_should_match] 1 that holds the cross-field multi-match and the
    title and content phrase clauses; [from] is 0 and [size] is 10. *)
Theorem search_body_wasserstoff :
  exists filters should,
    jpath ["query"; "bool"; "filter"] Examples.wasserstoff_body
      = Some (JList filters)
    /\ In (JDict [("terms", JDict [("source", JList [JStr "bundestag"])])])
          filters
    /\ existsb (is_range_on "publication_date") filters = false
    /\ jpath ["query"; "bool"; "must"] Examples.wasserstoff_body
        = Some (JList [JDict [("bool", JDict [
                  ("should", JList should);
                  ("minimum_should_match", JInt 1)])]])
    /\ In (JDict [("multi_match", JDict [
                ("query", JStr "Wasserstoff");
                ("fields", JList [JStr "title^2"; JStr "content"]);
                ("type", JStr "cross_fields");
                ("operator", JStr "and");
                ("boost", JInt 3)])]) should
    /\ In (JDict [("match_phrase", JDict [("title", JDict [
                ("query", JStr "Wasserstoff"); ("boost", JInt 4);
                ("slop", JInt 2)])])]) should
    /\ In (JDict [("match_phrase", JDict [("content", JDict [
                ("query", JStr "Wasserstoff"); ("boost", JInt 2);
                ("slop", JInt 2)])])]) should
    /\ jget "from" Examples.wasserstoff_body = Some (JInt 0)
    /\ jget "size" Examples.wasserstoff_body = Some (JInt 10).
Proof.
  eexists _, _. split; [reflexivity|].
  split; [now left|]. split; [reflexivity|]. split; [reflexivity|].
  split; [now left|]. split; [right; now left|].
  split; [right; right; now left|]. split; reflexivity.
Qed.

End QueryConstruction.

(** ** Snippets *)

Section Snippets.

Import SearchService.

(** C8. The snippet of a shaped hit is the first highlighted content
    fragment when there is one; else the first highlighted title fragment
    when there is one; else, when the stored content is not empty, the
    content itself if it has at most 300 characters and its first 300
    characters followed by the ellipsis if it has more; else null. *)
Theorem snippet_fallback_chain (h : raw_hit) :
  (forall frag rest, hl_content h = Some (frag :: rest) ->
     snippet (shape_hit h) = Some frag)
  /\ (forall frag rest, no_fragment (hl_content h) ->
       hl_title h = Some (frag :: rest) ->
       snippet (shape_hit h) = Some frag)
  /\ (forall content, no_fragment (hl_content h) -> no_fragment (hl_title h) ->
       src_content h = Some content -> content <> [] ->
       ((300 < length content)%nat ->
          snippet (shape_hit h) = Some (take 300 content ++ ellipsis)
          /\ length (take 300 content ++ ellipsis) = 301%nat)
       /\ ((length content <= 300)%nat -> snippet (shape_hit h) = Some content))
  /\ (no_fragment (hl_content h) -> no_fragment (hl_title h) ->
       src_content h = None \/ src_content h = Some [] ->
       snippet (shape_hit h) = None).
Proof.
  unfold no_fragment. cbn [snippet shape_hit].
  split; [|split; [|split]].
  - intros frag rest H. unfold make_snippet. now rewrite H.
  - intros frag rest [H | H] Ht; unfold make_snippet; now rewrite H, Ht.
  - intros content Hc Ht Hsrc Hne.
    assert (make_snippet h
            = if 300 <? Z.of_nat (length content)
              then Some (take 300 content ++ ellipsis) else Some content) as ->.
    { unfold make_snippet.
      destruct Hc as [-> | ->], Ht as [-> | ->]; rewrite Hsrc;
        (destruct content; [now destruct Hne | reflexivity]). }
    split; intros Hlen.
    + rewrite (proj2 (Z.ltb_lt _ _)) by lia. split; [reflexivity|].
      rewrite length_app, length_take, Nat.min_l by lia. reflexivity.
    + rewrite (proj2 (Z.ltb_ge _ _)) by lia. reflexivity.
  - intros [Hc | Hc] [Ht | Ht] [Hs | Hs]; unfold make_snippet;
      now rewrite Hc, Ht, Hs.
Qed.

Lemma snippet_fallback_chain_witness :
  snippet (shape_hit Examples.long_hit)
  = Some (take 300 (repeat 97%N 301) ++ ellipsis).
Proof.
  destruct (snippet_fallback_chain Examples.long_hit) as (_ & _ & H & _).
  destruct (H (repeat 97%N 301)) as [Hlong _].
  - now left.
  - now right.
  - reflexivity.
  - discriminate.
  - apply Hlong. rewrite repeat_length. lia.
Defined.

End Snippets.

(** ** SHA-1 *)

(** The digests of the standard test messages, and of a url. *)
Example sha1_empty :
  Sha1.hexdigest (Sha1.sha1 (Sha1.encode_utf8 ""))
  = "da39a3ee5e6b4b0d3255bfef95601890afd80709".
Proof. vm_compute. reflexivity. Qed.

Example sha1_abc :
  Sha1.hexdigest (Sha1.sha1 (Sha1.encode_utf8 "abc"))
  = "a9993e364706816aba3e25717850c26c9cd0d89d".
Proof. vm_compute. reflexivity. Qed.

Example sha1_two_blocks :
  Sha1.hexdigest
    (Sha1.sha1
       (Sha1.encode_utf8
          "abcdbcdecdefdefgefghfghighijhijkijkljklmklmnlmnomnopnopq"))
  = "84983e441c3bd26ebaae4aa1f95129e5e54670f1".
Proof. vm_compute. reflexivity. Qed.

Example doc_id_example :
  SearchService._doc_id "https://example.org/bt/1"
  = "2bb570db24c0ec43125775086cc0ac791db18eb9".
Proof. vm_compute. reflexivity. Qed.

(** A character beyond ASCII is encoded in two bytes; the digest is the one
    [hashlib] gives for the UTF-8 bytes. *)
Example utf8_umlaut :
  Sha1.encode_utf8 (String "220"%char "") = [195; 156]
  /\ Sha1.hexdigest (Sha1.sha1 (Sha1.encode_utf8 (String "252"%char "")))
     = "94a759fd37735430753c7b6b80684306d80ea16e".
Proof. vm_compute. split; reflexivity. Qed.

(** ** Bulk submission *)

Section IndexDocuments.

Import SearchService.

Lemma doc_get_set_eq k v d : doc_get (doc_set k v d) k = v.
Proof.
  unfold doc_get, doc_set, get. cbn [fields].
  rewrite lookup_insert_eq. reflexivity.
Qed.

Lemma doc_get_set_ne k k' v d :
  k <> k' -> doc_get (doc_set k v d) k' = doc_get d k'.
Proof.
  intros H. unfold doc_get, doc_set, get. cbn [fields].
  rewrite lookup_insert_ne by exact H. reflexivity.
Qed.

(** A digest is forty characters long, so it is never the empty string. *)
Lemma doc_id_length url : String.length (_doc_id url) = 40%nat.
Proof. reflexivity. Qed.

Lemma doc_id_truthy url : truthy (VStr (_doc_id url)) = true.
Proof.
  pose proof (doc_id_length url) as H. cbn.
  destruct (_doc_id url); [discriminate | reflexivity].
Qed.

(** A second visit of the same object changes nothing. *)
Lemma assign_id_idem d : assign_id (assign_id d) = assign_id d.
Proof.
  unfold assign_id at 2.
  destruct (negb (truthy (doc_get d "id")) && truthy (doc_get d "url")) eqn:E.
  - unfold assign_id. rewrite doc_get_set_eq, doc_id_truthy, E. reflexivity.
  - unfold assign_id. now rewrite E.
Qed.

(** The generator visits the objects in order; each object ends up as
    [assign_id] of its initial contents, also when the list names it more
    than once, and the other objects are not touched. *)
Lemma gen_actions_spec index docs :
  forall h,
    let '(h', acts) := gen_actions index docs h in
    acts = (fun l => action_of index (assign_id (h !!! l))) <$> docs
    /\ (forall l, l ∈ docs -> h' !!! l = assign_id (h !!! l))
    /\ (forall l, l ∉ docs -> h' !! l = h !! l).
Proof.
  induction docs as [|l docs IH]; intros h; cbn [gen_actions].
  - split; [reflexivity|]. split; [intros l Hl; now apply elem_of_nil in Hl | reflexivity].
  - specialize (IH (<[l := assign_id (h !!! l)]> h)).
    destruct (gen_actions index docs (<[l := assign_id (h !!! l)]> h))
      as [h' acts].
    destruct IH as (Hacts & Hin & Hout).
    assert (forall l', assign_id (<[l := assign_id (h !!! l)]> h !!! l')
                       = assign_id (h !!! l')) as Hsame.
    { intros l'. destruct (decide (l = l')) as [<-|Hne].
      - rewrite lookup_total_insert_eq. apply assign_id_idem.
      - now rewrite lookup_total_insert_ne. }
    split; [|split].
    + cbn [fmap list_fmap]. f_equal. rewrite Hacts.
      apply list_fmap_ext. intros _ l' _. now rewrite Hsame.
    + intros l' Hl'. destruct (decide (l' ∈ docs)) as [Hd|Hd].
      * rewrite (Hin l' Hd). apply Hsame.
      * apply elem_of_cons in Hl' as [->|?]; [|contradiction].
        rewrite lookup_total_alt, (Hout l Hd), lookup_insert_eq. reflexivity.
    + intros l' Hl'. apply not_elem_of_cons in Hl' as [Hne Hd].
      rewrite (Hout l' Hd). now rewrite lookup_insert_ne.
Qed.

Variable os_index : string.
Variable bulk : list action -> bulk_result.

(** C10 (amended). [index_documents] updates the caller's objects in
    place.  For the object at each position of the list: when it has no id
    and a non-empty url, it gets [id] set to the hex SHA-1 digest of the
    UTF-8 encoded url and the action submitted for it carries that digest
    as [_id]; when it arrives with an id it is left unchanged and the action
    carries its id, whatever its url.  In both cases the action's id is the
    [id] field of the object as it is afterwards, and objects not in the
    list are untouched.  Two objects without id and with the same url get
    the same store identifier, in the same call or in two calls, at any
    positions.  The encoding is UTF-8: a url with a character beyond ASCII
    gets the digest of its UTF-8 bytes. *)
Theorem index_documents_assigns_ids (docs : list loc) (index_name : value)
    (h : heap) :
  let '(h', acts, res) := index_documents os_index bulk docs index_name h in
  res = bulk acts
  /\ length acts = length docs
  /\ (forall i l, docs !! i = Some l ->
      exists a, acts !! i = Some a
        /\ _id a = doc_get (h' !!! l) "id"
        /\ _source a = h' !!! l
        /\ (forall u, truthy (doc_get (h !!! l) "id") = false ->
                      doc_get (h !!! l) "url" = VStr u -> u <> "" ->
              h' !!! l = doc_set "id" (VStr (_doc_id u)) (h !!! l)
              /\ _id a = VStr (Sha1.hexdigest (Sha1.sha1 (Sha1.encode_utf8 u))))
        /\ (truthy (doc_get (h !!! l) "id") = true ->
              h' !!! l = h !!! l /\ _id a = doc_get (h !!! l) "id"))
  /\ (forall l, l ∉ docs -> h' !! l = h !! l)
  /\ (forall docs2 index_name2 h2 i j li lj ai aj u,
        docs !! i = Some li -> acts !! i = Some ai ->
        docs2 !! j = Some lj ->
        (index_documents os_index bulk docs2 index_name2 h2).1.2 !! j
        = Some aj ->
        truthy (doc_get (h !!! li) "id") = false ->
        truthy (doc_get (h2 !!! lj) "id") = false ->
        doc_get (h !!! li) "url" = VStr u ->
        doc_get (h2 !!! lj) "url" = VStr u -> u <> "" ->
        _id ai = _id aj)
  /\ (Sha1.encode_utf8 MoreExamples.url_umlaut
      = Sha1.encode_utf8 "https://example.org/bt/"
        ++ [195; 156] ++ Sha1.encode_utf8 "bersicht"
      /\ _doc_id MoreExamples.url_umlaut
         = "51ea06c5c169decdef557c89af65ede38b77a6e3").
Proof.
  unfold index_documents.
  pose proof (gen_actions_spec (py_str (py_or index_name (VStr os_index))) docs h) as H.
  destruct (gen_actions _ docs h) as [h' acts].
  destruct H as (Hacts & Hin & Hout).
  split; [reflexivity|]. split; [now rewrite Hacts, length_fmap|].
  assert (forall i l, docs !! i = Some l ->
            acts !! i = Some (action_of (py_str (py_or index_name (VStr os_index)))
                                        (assign_id (h !!! l)))) as Hact.
  { intros i l Hi. rewrite Hacts, list_lookup_fmap, Hi. reflexivity. }
  split; [|split; [exact Hout|split; [|split; vm_compute; reflexivity]]].
  - intros i l Hi. eexists. split; [exact (Hact i l Hi)|].
    assert (l ∈ docs) as Hl by (eapply list_elem_of_lookup_2; exact Hi).
    rewrite (Hin l Hl). cbn [_id _source action_of].
    split; [reflexivity|]. split; [reflexivity|]. split.
    + intros u Hid Hurl Hu. unfold assign_id. rewrite Hid, Hurl. cbn [negb].
      assert (truthy (VStr u) = true) as ->.
      { cbn. destruct (String.eqb_spec u ""); [contradiction | reflexivity]. }
      cbn [andb py_str]. rewrite doc_get_set_eq. split; reflexivity.
    + intros Hid. unfold assign_id. rewrite Hid. cbn [negb andb].
      split; reflexivity.
  - intros docs2 index_name2 h2 i j li lj ai aj u Hi Hai Hj Haj Hidi Hidj
      Hui Huj Hu.
    rewrite (Hact i li Hi) in Hai.
    pose proof (gen_actions_spec
                  (py_str (py_or index_name2 (VStr os_index))) docs2 h2) as H2.
    destruct (gen_actions _ docs2 h2) as [h2' acts2].
    destruct H2 as (Hacts2 & _ & _). cbn [fst snd] in Haj.
    rewrite Hacts2, list_lookup_fmap, Hj in Haj. cbn in Haj.
    injection Hai as <-. injection Haj as <-.
    cbn [_id action_of]. unfold assign_id.
    rewrite Hidi, Hidj, Hui, Huj. cbn [negb truthy].
    destruct (String.eqb_spec u ""); [contradiction|].
    cbn [negb andb]. now rewrite !doc_get_set_eq.
Qed.

End IndexDocuments.

Lemma index_documents_assigns_ids_witness :
  let '(h', acts, res) :=
    SearchService.index_documents "policy-documents" Examples.accept_all
      Examples.sample_docs VNone Examples.sample_heap in
  h' !!! 0%nat
    = SearchService.doc_set "id"
        (VStr "2bb570db24c0ec43125775086cc0ac791db18eb9")
        Examples.doc_without_id
  /\ h' !!! 1%nat = Examples.doc_with_id
  /\ SearchService._id <$> acts
     = [VStr "2bb570db24c0ec43125775086cc0ac791db18eb9"; VStr "42";
        VStr "2bb570db24c0ec43125775086cc0ac791db18eb9"].
Proof.
  pose proof (index_documents_assigns_ids "policy-documents"
                Examples.accept_all Examples.sample_docs VNone
                Examples.sample_heap) as H.
  destruct (SearchService.index_documents _ _ _ _ _) as [[h' acts] res].
  destruct H as (_ & Hlen & Hpos & _ & _ & _).
  destruct (Hpos 0%nat 0%nat eq_refl) as (a0 & Ha0 & _ & _ & Hno & _).
  destruct (Hpos 1%nat 1%nat eq_refl) as (a1 & Ha1 & _ & _ & _ & Hyes).
  destruct (Hpos 2%nat 0%nat eq_refl) as (a2 & Ha2 & Hid2 & _ & _ & _).
  destruct (Hno "https://example.org/bt/1" eq_refl eq_refl ltac:(discriminate))
    as [Hh0 Hid0].
  destruct (Hyes eq_refl) as [Hh1 Hid1].
  split; [rewrite Hh0; vm_compute; reflexivity|]. split; [exact Hh1|].
  destruct acts as [|b0 [|b1 [|b2 [|? ?]]]]; try discriminate Hlen.
  injection Ha0 as ->. injection Ha1 as ->. injection Ha2 as ->.
  cbn [fmap list_fmap]. rewrite Hid0, Hid1, Hid2, Hh0.
  vm_compute. reflexivity.
Defined.

(** C10, as stated, fails in its last clause: two documents with the same
    url, one of which arrives with an id of its own, are stored under
    different identifiers. *)
Lemma same_url_counterexample :
  let '(h', acts, res) :=
    SearchService.index_documents "policy-documents" Examples.accept_all
      [0%nat; 1%nat] VNone
      ({[ 0%nat := Examples.doc_without_id;
          1%nat := MoreExamples.doc_same_url ]} : SearchService.heap) in
  SearchService.doc_get Examples.doc_without_id "url"
  = SearchService.doc_get MoreExamples.doc_same_url "url"
  /\ SearchService._id <$> acts
     = [VStr "2bb570db24c0ec43125775086cc0ac791db18eb9"; VStr "42"].
Proof. vm_compute. split; reflexivity. Qed.

(** ** Validation *)

Section Validation.

Import SearchService IngestionService.

Lemma truthy_get_false (m : gmap string value) k :
  truthy (get m k) = false
  <-> m !! k = None \/ m !! k = Some VNone \/ m !! k = Some (VStr "").
Proof.
  unfold get. destruct (m !! k) as [[|s]|]; cbn.
  - split; [now right; left | reflexivity].
  - destruct (String.eqb_spec s "") as [->|Hne]; cbn.
    + split; [now right; right | reflexivity].
    + split; [discriminate|]. intros [H|[H|H]]; try discriminate.
      injection H as ->. now destruct Hne.
  - split; [now left | reflexivity].
Qed.

Lemma setdefault_lookup_ne k k' v (m : gmap string value) :
  k <> k' -> setdefault k v m !! k' = m !! k'.
Proof.
  intros Hne. unfold setdefault.
  destruct (m !! k); [reflexivity | now rewrite lookup_insert_ne].
Qed.

(** The defaults do not touch the other keys. *)
Lemma with_defaults_lookup now d k :
  k <> "language" -> k <> "ingested_at" ->
  fields (with_defaults now d) !! k = fields d !! k.
Proof.
  intros H1 H2. unfold with_defaults, doc_setdefault. cbn [fields].
  rewrite !setdefault_lookup_ne by congruence. reflexivity.
Qed.

Lemma with_defaults_get now d k :
  k <> "language" -> k <> "ingested_at" ->
  doc_get (with_defaults now d) k = doc_get d k.
Proof.
  intros H1 H2. unfold doc_get, get. now rewrite with_defaults_lookup.
Qed.

Lemma required_not_default k :
  k ∈ required_fields -> k <> "language" /\ k <> "ingested_at".
Proof.
  unfold required_fields. rewrite !elem_of_cons, elem_of_nil.
  intros [->|[->|[->|[]]]]; split; discriminate.
Qed.

Lemma empty_or_absent_truthy d k :
  empty_or_absent d k <-> truthy (doc_get d k) = false.
Proof. unfold empty_or_absent, doc_get. symmetry. apply truthy_get_false. Qed.

(** The list the code computes on the copy is the list of required fields
    the document lacks. *)
Lemma missing_filter now d :
  List.filter (fun k => negb (truthy (doc_get (with_defaults now d) k)))
              required_fields
  = missing_fields d.
Proof.
  unfold missing_fields. apply List.filter_ext_in. intros k Hk.
  apply list_elem_of_In, required_not_default in Hk as [H1 H2].
  rewrite with_defaults_get by assumption.
  destruct (truthy (doc_get d k)) eqn:E; cbn; symmetry.
  - apply bool_decide_eq_false_2. rewrite empty_or_absent_truthy. congruence.
  - apply bool_decide_eq_true_2. now rewrite empty_or_absent_truthy.
Qed.

Lemma validate_doc_shape_cases now d :
  validate_doc_shape now d
  = match missing_fields d with
    | [] => Ok (with_defaults now d)
    | _ => Raise (ValueError ("Missing required fields: "
                              +:+ repr_list (missing_fields d)))
    end.
Proof.
  unfold validate_doc_shape. fold (with_defaults now d).
  rewrite missing_filter. reflexivity.
Qed.

Lemma elem_of_missing_fields d k :
  k ∈ missing_fields d <-> k ∈ required_fields /\ empty_or_absent d k.
Proof.
  unfold missing_fields. rewrite list_elem_of_In, List.filter_In.
  rewrite bool_decide_eq_true, <- list_elem_of_In. reflexivity.
Qed.

Lemma valid_missing d : valid d <-> missing_fields d = [].
Proof.
  split.
  - intros Hv. destruct (missing_fields d) as [|k m] eqn:E; [reflexivity|].
    assert (k ∈ missing_fields d) as Hk by (rewrite E; left).
    apply elem_of_missing_fields in Hk as [Hk He]. now destruct (Hv k Hk).
  - intros E k Hk He.
    assert (k ∈ missing_fields d) as Hm by (now apply elem_of_missing_fields).
    rewrite E in Hm. now apply elem_of_nil in Hm.
Qed.

Lemma validate_valid now d :
  valid d -> validate_doc_shape now d = Ok (with_defaults now d).
Proof.
  intros Hv. rewrite validate_doc_shape_cases.
  apply valid_missing in Hv. now rewrite Hv.
Qed.

Lemma validate_invalid now d :
  ~ valid d ->
  validate_doc_shape now d
  = Raise (ValueError ("Missing required fields: "
                       +:+ repr_list (missing_fields d))).
Proof.
  intros Hv. rewrite validate_doc_shape_cases.
  destruct (missing_fields d) eqn:E; [|reflexivity].
  destruct Hv. now apply valid_missing.
Qed.

Lemma valid_dec d : {valid d} + {~ valid d}.
Proof.
  destruct (missing_fields d) eqn:E.
  - left. now apply valid_missing.
  - right. rewrite valid_missing, E. discriminate.
Qed.

Lemma valid_with_defaults now d : valid d -> valid (with_defaults now d).
Proof.
  intros Hv k Hk. specialize (Hv k Hk).
  destruct (required_not_default k Hk) as [H1 H2].
  unfold empty_or_absent in *. now rewrite with_defaults_lookup.
Qed.

Lemma identifier_with_defaults now d :
  identifier (with_defaults now d) = identifier d.
Proof.
  unfold identifier. now rewrite !with_defaults_get by discriminate.
Qed.

Lemma identifier_truthy d : valid d -> truthy (identifier d) = true.
Proof.
  intros Hv. unfold identifier, py_or.
  destruct (truthy (doc_get d "id")) eqn:E; [exact E|].
  destruct (truthy (doc_get d "url")) eqn:E'; [reflexivity|].
  destruct (Hv "url"); [apply list_elem_of_further, list_elem_of_here|].
  now apply empty_or_absent_truthy.
Qed.

End Validation.

(** ** The ingestion run *)

Section RunAndIndex.

Import SearchService IngestionService RunLog.

Variable utcnow : nat -> string.
Variable os_index : string.
Variable bulk : list action -> bulk_result.
Variable store_error : list action -> option exn.

Lemma map_seq_lookup_total (b : list document) (start : nat) :
  (fun l => (map_seq start b : heap) !!! l) <$> seq start (length b) = b.
Proof.
  revert start. induction b as [|d b IH]; intros start; [reflexivity|].
  cbn [length seq fmap list_fmap map_seq]. f_equal.
  - now rewrite lookup_total_insert_eq.
  - rewrite <- (IH (S start)) at 2. apply list_fmap_ext.
    intros i l Hi. apply lookup_seq in Hi as [Hi _].
    rewrite lookup_total_insert_ne by lia. reflexivity.
Qed.

(** What a flush submits, and how it ends. *)
Lemma flush_cases st :
  flush os_index bulk store_error st
  = match store_error (batch_actions os_index (batch st)) with
    | Some e => Raise e
    | None =>
        Ok {| batch := []; seen_ids := seen_ids st;
              total := total st
                       + success (bulk (batch_actions os_index (batch st)));
              submitted := submitted st
                           ++ [batch_actions os_index (batch st)] |}
    end.
Proof.
  unfold flush, index_documents_call, index_documents.
  pose proof (gen_actions_spec (py_str (py_or VNone (VStr os_index)))
                (seq 0 (length (batch st))) (map_seq 0 (batch st))) as H.
  destruct (gen_actions _ _ _) as [h' acts]. destruct H as (Hacts & _ & _).
  assert (acts = batch_actions os_index (batch st)) as ->.
  { rewrite Hacts. cbn [py_or truthy py_str]. unfold batch_actions.
    rewrite <- (map_seq_lookup_total (batch st) 0) at 2.
    now rewrite <- list_fmap_compose. }
  cbv beta iota. destruct (store_error _); reflexivity.
Qed.

Lemma loop_body_invalid bs now doc st :
  ~ valid doc ->
  loop_body os_index bulk store_error bs now doc st
  = Raise (ValueError ("Missing required fields: "
                       +:+ repr_list (missing_fields doc))).
Proof. intros Hv. unfold loop_body. now rewrite validate_invalid. Qed.

(** A valid document whose identifier was seen leaves the state as it is;
    a new one is appended and its identifier recorded, and the batch is
    flushed when it is full. *)
Lemma loop_body_valid bs now doc st :
  valid doc ->
  loop_body os_index bulk store_error bs now doc st
  = if bool_decide (identifier doc ∈ seen_ids st) then Ok st
    else
      let st1 := {| batch := batch st ++ [with_defaults now doc];
                    seen_ids := {[ identifier doc ]} ∪ seen_ids st;
                    total := total st;
                    submitted := submitted st |} in
      if bs <=? Z.of_nat (length (batch st1))
      then flush os_index bulk store_error st1 else Ok st1.
Proof.
  intros Hv. unfold loop_body. rewrite validate_valid by exact Hv.
  cbn [mbind result_bind bind].
  fold (identifier (with_defaults now doc)).
  rewrite identifier_with_defaults, (identifier_truthy doc Hv). reflexivity.
Qed.

Lemma batch_actions_app index b1 b2 :
  batch_actions index (b1 ++ b2)
  = batch_actions index b1 ++ batch_actions index b2.
Proof. unfold batch_actions. apply fmap_app. Qed.

Lemma batch_actions_length index b :
  length (batch_actions index b) = length b.
Proof. unfold batch_actions. apply length_fmap. Qed.

(** The required fields of a document are not touched when its id is
    filled in. *)
Lemma valid_assign_id d : valid d -> valid (assign_id d).
Proof.
  intros Hv. unfold assign_id.
  destruct (negb (truthy (doc_get d "id")) && truthy (doc_get d "url"));
    [|exact Hv].
  intros k Hk He. apply (Hv k Hk). unfold empty_or_absent in *.
  unfold doc_set in He. cbn [fields] in He.
  rewrite lookup_insert_ne in He; [exact He|].
  unfold required_fields in Hk. rewrite !elem_of_cons, elem_of_nil in Hk.
  destruct Hk as [->|[->|[->|[]]]]; discriminate.
Qed.

(** *** First occurrences *)

Lemma cleaned_identifiers docs :
  forall n, identifier <$> cleaned utcnow n docs = identifier <$> docs.
Proof.
  induction docs as [|d docs IH]; intros n; [reflexivity|].
  cbn [cleaned fmap list_fmap]. f_equal;
    [apply identifier_with_defaults | apply IH].
Qed.

Lemma cleaned_valid docs :
  forall n, Forall valid docs -> Forall valid (cleaned utcnow n docs).
Proof.
  induction docs as [|d docs IH]; intros n Hv; [constructor|].
  inversion Hv; subst. cbn [cleaned].
  constructor; [now apply valid_with_defaults | now apply IH].
Qed.

Lemma keep_first_sub docs :
  forall seen d, d ∈ keep_first seen docs -> d ∈ docs.
Proof.
  induction docs as [|d0 docs IH]; intros seen d; cbn [keep_first];
    [trivial|].
  destruct (bool_decide (identifier d0 ∈ seen)); intros Hd.
  - right. now apply (IH seen).
  - apply elem_of_cons in Hd as [->|Hd]; [left | right; exact (IH _ d Hd)].
Qed.

(** The documents kept have pairwise different identifiers, none of them
    seen before. *)
Lemma keep_first_nodup docs :
  forall seen,
    NoDup (identifier <$> keep_first seen docs)
    /\ (forall d, d ∈ keep_first seen docs -> identifier d ∉ seen).
Proof.
  induction docs as [|d0 docs IH]; intros seen; cbn [keep_first].
  - split; [constructor | intros d Hd; now apply elem_of_nil in Hd].
  - destruct (decide (identifier d0 ∈ seen)) as [Hin|Hnin].
    + rewrite bool_decide_eq_true_2 by exact Hin. apply IH.
    + rewrite bool_decide_eq_false_2 by exact Hnin.
      destruct (IH ({[ identifier d0 ]} ∪ seen)) as [Hnd Hout]. split.
      * cbn [fmap list_fmap]. apply NoDup_cons. split; [|exact Hnd].
        intros Hd. apply list_elem_of_fmap in Hd as (d' & Heq & Hd').
        apply (Hout d' Hd'). rewrite <- Heq.
        apply elem_of_union_l, elem_of_singleton. reflexivity.
      * intros d' Hd'. apply elem_of_cons in Hd' as [->|Hd']; [exact Hnin|].
        intros Hs. apply (Hout d' Hd'). now apply elem_of_union_r.
Qed.

(** Every identifier of the list was seen before or is kept. *)
Lemma keep_first_covers docs :
  forall seen v,
    v ∈ identifier <$> docs ->
    v ∈ seen \/ v ∈ identifier <$> keep_first seen docs.
Proof.
  induction docs as [|d0 docs IH]; intros seen v Hv;
    [now apply elem_of_nil in Hv|].
  cbn [keep_first]. cbn [fmap list_fmap] in Hv.
  destruct (decide (identifier d0 ∈ seen)) as [Hin|Hnin].
  - rewrite bool_decide_eq_true_2 by exact Hin.
    apply elem_of_cons in Hv as [->|Hv]; [now left | now apply IH].
  - rewrite bool_decide_eq_false_2 by exact Hnin. cbn [fmap list_fmap].
    apply elem_of_cons in Hv as [->|Hv]; [right; left|].
    destruct (IH ({[ identifier d0 ]} ∪ seen) v Hv) as [H|H].
    + apply elem_of_union in H as [H|H]; [|now left].
      apply elem_of_singleton in H. rewrite H. right. left.
    + right. now right.
Qed.

Lemma occurrences_zero v docs :
  v ∉ identifier <$> docs -> occurrences v docs = 0%nat.
Proof.
  unfold occurrences. induction docs as [|d docs IH]; [reflexivity|].
  cbn [fmap list_fmap]. intros Hd. apply not_elem_of_cons in Hd as [Hne Hd].
  cbn [List.filter]. rewrite bool_decide_eq_false_2 by congruence.
  now apply IH.
Qed.

(** An identifier that occurs among documents with pairwise different
    identifiers occurs once. *)
Lemma occurrences_one v docs :
  NoDup (identifier <$> docs) -> v ∈ identifier <$> docs ->
  occurrences v docs = 1%nat.
Proof.
  induction docs as [|d docs IH]; cbn [fmap list_fmap];
    intros Hnd Hin; [now apply elem_of_nil in Hin|].
  apply NoDup_cons in Hnd as [Hd Hnd].
  unfold occurrences. cbn [List.filter].
  destruct (decide (identifier d = v)) as [<-|Hne].
  - rewrite bool_decide_eq_true_2 by reflexivity. cbn [length]. f_equal.
    now apply occurrences_zero.
  - rewrite bool_decide_eq_false_2 by exact Hne.
    apply elem_of_cons in Hin as [->|Hin]; [now destruct Hne | now apply IH].
Qed.

Lemma occurrences_le_one v docs :
  NoDup (identifier <$> docs) -> (occurrences v docs <= 1)%nat.
Proof.
  intros Hnd. destruct (decide (v ∈ identifier <$> docs)) as [Hin|Hnin].
  - now rewrite occurrences_one.
  - rewrite occurrences_zero by exact Hnin. lia.
Qed.

(** A shorter stream keeps a prefix. *)
Lemma keep_first_prefix docs :
  forall seen n k,
    keep_first seen (cleaned utcnow n (take k docs))
    `prefix_of` keep_first seen (cleaned utcnow n docs).
Proof.
  induction docs as [|d docs IH]; intros seen n k.
  - now rewrite take_nil.
  - destruct k as [|k]; [apply prefix_nil|].
    cbn [firstn cleaned keep_first].
    destruct (bool_decide _); [apply IH | apply prefix_cons, IH].
Qed.

(** *** The loop *)

Lemma accepted_initial : accepted os_index initial_state [].
Proof. exists []. split; reflexivity. Qed.

(** One turn that does not raise: the document was valid, and when its
    identifier is new its clean copy is accepted. *)
Lemma loop_body_accepted bs now doc st st' log :
  accepted os_index st log ->
  loop_body os_index bulk store_error bs now doc st = Ok st' ->
  valid doc
  /\ seen_ids st' = (if bool_decide (identifier doc ∈ seen_ids st)
                     then seen_ids st
                     else {[ identifier doc ]} ∪ seen_ids st)
  /\ accepted os_index st'
       (log ++ keep_first (seen_ids st) [with_defaults now doc]).
Proof.
  intros (flushed & Hlog & Hsub) Hb.
  destruct (valid_dec doc) as [Hv|Hv];
    [|rewrite loop_body_invalid in Hb by exact Hv; discriminate].
  split; [exact Hv|].
  rewrite loop_body_valid in Hb by exact Hv.
  cbn [keep_first]. rewrite identifier_with_defaults.
  destruct (bool_decide (identifier doc ∈ seen_ids st)).
  - injection Hb as <-. split; [reflexivity|].
    exists flushed. now rewrite app_nil_r.
  - cbn zeta in Hb. cbn [batch] in Hb.
    destruct (bs <=? Z.of_nat (length (batch st ++ [with_defaults now doc]))).
    + rewrite flush_cases in Hb. cbn [batch seen_ids total submitted] in Hb.
      destruct (store_error _); [discriminate|]. injection Hb as <-.
      cbn [seen_ids batch submitted]. split; [reflexivity|].
      exists (log ++ [with_defaults now doc]).
      split; [now rewrite app_nil_r|]. cbn [submitted].
      rewrite concat_app, Hsub, Hlog. cbn [concat].
      now rewrite app_nil_r, <- batch_actions_app, app_assoc.
    + injection Hb as <-. cbn [seen_ids batch submitted].
      split; [reflexivity|]. exists flushed. cbn [batch submitted].
      split; [now rewrite Hlog, <- app_assoc | exact Hsub].
Qed.

(** The loop, however it ends: the documents read without an exception
    were valid, and the clean copies of their first occurrences are what
    was accepted, in order. *)
Lemma loop_accepted bs docs ending :
  forall n st log,
    accepted os_index st log ->
    match loop utcnow os_index bulk store_error bs n docs ending st with
    | Finished st' =>
        ending = None /\ Forall valid docs
        /\ accepted os_index st'
             (log ++ keep_first (seen_ids st) (cleaned utcnow n docs))
    | Aborted e st' =>
        exists k, (k <= length docs)%nat /\ Forall valid (take k docs)
          /\ accepted os_index st'
               (log ++ keep_first (seen_ids st)
                         (cleaned utcnow n (take k docs)))
    end.
Proof.
  induction docs as [|doc rest IH]; intros n st log Hacc; cbn [loop].
  - destruct ending as [e|].
    + exists 0%nat. cbn. rewrite app_nil_r.
      split; [lia|]. split; [constructor | exact Hacc].
    + cbn. rewrite app_nil_r. split; [reflexivity|].
      split; [constructor | exact Hacc].
  - destruct (loop_body os_index bulk store_error bs (utcnow n) doc st)
      as [st1|e] eqn:Hb.
    + destruct (loop_body_accepted _ _ _ _ _ _ Hacc Hb) as (Hv & Hseen & Hacc1).
      specialize (IH (S n) st1 _ Hacc1).
      assert (forall l,
                (log ++ keep_first (seen_ids st)
                          [with_defaults (utcnow n) doc])
                ++ keep_first (seen_ids st1) (cleaned utcnow (S n) l)
                = log ++ keep_first (seen_ids st)
                           (cleaned utcnow n (doc :: l))) as Hstep.
      { intros l. rewrite <- app_assoc. f_equal.
        cbn [cleaned keep_first]. rewrite Hseen, identifier_with_defaults.
        now destruct (bool_decide (identifier doc ∈ seen_ids st)). }
      destruct (loop utcnow os_index bulk store_error bs (S n) rest ending st1)
        as [st'|e st'].
      * destruct IH as (He & Hvs & Ha). rewrite Hstep in Ha.
        split; [exact He|]. split; [now constructor | exact Ha].
      * destruct IH as (k & Hk & Hvs & Ha). exists (S k).
        rewrite Hstep in Ha. cbn [length firstn].
        split; [lia|]. split; [now constructor | exact Ha].
    + exists 0%nat. cbn. rewrite app_nil_r.
      split; [lia|]. split; [constructor | exact Hacc].
Qed.

Lemma reported_snoc (bs : list (list action)) b :
  reported bulk (bs ++ [b]) = reported bulk bs + success (bulk b).
Proof.
  unfold reported. induction bs as [|b' bs IH]; cbn; [lia|].
  rewrite IH. lia.
Qed.

(** The count is the sum of what the store reported, the submissions have
    the flush length and the batch in memory is shorter. *)
Lemma loop_body_log bs now doc st st' :
  loop_body os_index bulk store_error bs now doc st = Ok st' ->
  total st = reported bulk (submitted st) ->
  Forall (fun b => length b = flush_length bs) (submitted st) ->
  (length (batch st) < flush_length bs)%nat ->
  total st' = reported bulk (submitted st')
  /\ Forall (fun b => length b = flush_length bs) (submitted st')
  /\ (length (batch st') < flush_length bs)%nat.
Proof.
  intros Hb Ht Hf Hl. unfold loop_body in Hb.
  destruct (validate_doc_shape now doc) as [clean|e]; [|discriminate].
  cbn [mbind result_bind bind] in Hb.
  destruct (truthy _ && bool_decide _); [injection Hb as <-; now repeat split|].
  cbn [batch] in Hb. unfold flush_length in *.
  destruct (Z.leb_spec bs (Z.of_nat (length (batch st ++ [clean])))) as [Hle|Hgt].
  - rewrite flush_cases in Hb. cbn [batch seen_ids total submitted] in Hb.
    destruct (store_error _); [discriminate|]. injection Hb as <-.
    cbn [total submitted batch length].
    rewrite length_app in Hle. cbn [length] in Hle.
    split; [rewrite reported_snoc, Ht; reflexivity|]. split; [|lia].
    apply Forall_app. split; [exact Hf|]. constructor; [|constructor].
    rewrite batch_actions_length, length_app. cbn [length]. lia.
  - injection Hb as <-. cbn [total submitted batch].
    rewrite length_app in *. cbn [length] in *.
    split; [exact Ht|]. split; [exact Hf | lia].
Qed.

Lemma loop_log bs docs ending :
  forall n st,
    total st = reported bulk (submitted st) ->
    Forall (fun b => length b = flush_length bs) (submitted st) ->
    (length (batch st) < flush_length bs)%nat ->
    match loop utcnow os_index bulk store_error bs n docs ending st with
    | Finished st' | Aborted _ st' =>
        total st' = reported bulk (submitted st')
        /\ Forall (fun b => length b = flush_length bs) (submitted st')
        /\ (length (batch st') < flush_length bs)%nat
    end.
Proof.
  induction docs as [|doc rest IH]; intros n st Ht Hf Hl; cbn [loop].
  - destruct ending; now repeat split.
  - destruct (loop_body os_index bulk store_error bs (utcnow n) doc st)
      as [st1|e] eqn:Hb; [|now repeat split].
    destruct (loop_body_log _ _ _ _ _ Hb Ht Hf Hl) as (Ht1 & Hf1 & Hl1).
    exact (IH (S n) st1 Ht1 Hf1 Hl1).
Qed.

(** An invalid document is never passed: the loop is aborted at it or
    before it. *)
Lemma loop_invalid_aborts bs pre bad post ending :
  ~ valid bad ->
  forall n st,
    exists e st',
      loop utcnow os_index bulk store_error bs n (pre ++ bad :: post) ending st
      = Aborted e st'.
Proof.
  intros Hbad. induction pre as [|doc pre IH]; intros n st; cbn [loop app].
  - rewrite loop_body_invalid by exact Hbad. now eexists _, _.
  - destruct (loop_body os_index bulk store_error bs (utcnow n) doc st)
      as [st1|e]; [apply IH | now eexists _, _].
Qed.

Section StoreUp.

(** The store raises nothing. *)
Hypothesis store_up : forall acts, store_error acts = None.

Lemma loop_body_returns bs now doc st :
  valid doc ->
  exists st', loop_body os_index bulk store_error bs now doc st = Ok st'.
Proof.
  intros Hv. rewrite loop_body_valid by exact Hv.
  destruct (bool_decide _); [now eexists|]. cbn zeta.
  destruct (bs <=? _); [|now eexists].
  rewrite flush_cases, store_up. now eexists.
Qed.

(** Over valid documents the loop reads the stream to its end. *)
Lemma loop_valid bs docs ending :
  forall n st,
    Forall valid docs ->
    exists st',
      loop utcnow os_index bulk store_error bs n docs None st = Finished st'
      /\ loop utcnow os_index bulk store_error bs n docs ending st
         = match ending with
           | Some e => Aborted e st'
           | None => Finished st'
           end.
Proof.
  induction docs as [|doc rest IH]; intros n st Hv; cbn [loop].
  - exists st. now destruct ending.
  - inversion Hv as [|? ? Hdoc Hrest]; subst.
    destruct (loop_body_returns bs (utcnow n) doc st Hdoc) as [st1 ->].
    now apply IH.
Qed.

(** The first invalid document ends the loop: the state is the one reached
    on the documents before it, and the documents after it play no role. *)
Lemma loop_first_invalid bs pre bad post ending :
  forall n st,
    Forall valid pre -> ~ valid bad ->
    exists st',
      loop utcnow os_index bulk store_error bs n pre None st = Finished st'
      /\ loop utcnow os_index bulk store_error bs n (pre ++ bad :: post)
           ending st
         = Aborted (ValueError ("Missing required fields: "
                                +:+ repr_list (missing_fields bad))) st'.
Proof.
  induction pre as [|doc pre IH]; intros n st Hpre Hbad; cbn [loop app].
  - exists st. split; [reflexivity|]. now rewrite loop_body_invalid.
  - inversion Hpre as [|? ? Hdoc Hpre']; subst.
    destruct (loop_body_returns bs (utcnow n) doc st Hdoc) as [st1 ->].
    apply IH; assumption.
Qed.

(** When the loop has read the stream to its end, the run returns after
    the last flush. *)
Lemma run_finished bs (s : stream document) st :
  loop utcnow os_index bulk store_error bs 0 (items s) (raised s) initial_state
  = Finished st ->
  let r := run_and_index utcnow os_index bulk store_error s bs in
  (exists t, outcome r = Ok t)
  /\ batches r
     = submitted st ++ match batch st with
                       | [] => []
                       | _ => [batch_actions os_index (batch st)]
                       end.
Proof.
  intros Hl. cbn zeta. unfold run_and_index. rewrite Hl.
  destruct (batch st) as [|d b] eqn:Hb.
  - cbn [outcome batches]. rewrite app_nil_r. split; [now eexists | reflexivity].
  - rewrite flush_cases, store_up, Hb. cbn [outcome batches submitted].
    split; [now eexists | reflexivity].
Qed.

End StoreUp.

Lemma keep_first_valid docs seen n :
  Forall valid docs -> Forall valid (keep_first seen (cleaned utcnow n docs)).
Proof.
  intros Hv. apply (cleaned_valid docs n) in Hv.
  rewrite Forall_forall in *. intros d Hd. apply Hv.
  now apply (keep_first_sub _ seen).
Qed.

(** The submissions of a run, flattened, are the actions for the clean
    copies of first occurrences, in stream order: all of them when the run
    returns, the first of them when it is aborted. *)
Lemma run_log (s : stream document) bs :
  let r := run_and_index utcnow os_index bulk store_error s bs in
  exists kept,
    concat (batches r) = batch_actions os_index kept
    /\ kept `prefix_of` keep_first ∅ (cleaned utcnow 0 (items s))
    /\ Forall valid kept
    /\ (forall t, outcome r = Ok t ->
          kept = keep_first ∅ (cleaned utcnow 0 (items s))
          /\ Forall valid (items s) /\ raised s = None).
Proof.
  cbn zeta. unfold run_and_index.
  pose proof (loop_accepted bs (items s) (raised s) 0 initial_state []
                accepted_initial) as H.
  cbn [app seen_ids initial_state] in H.
  destruct (loop utcnow os_index bulk store_error bs 0 (items s) (raised s)
              initial_state) as [st|e st].
  - destruct H as (Hend & Hv & flushed & Hlog & Hsub).
    pose proof (keep_first_valid (items s) ∅ 0 Hv) as Hkv.
    rewrite Hlog in Hkv. apply Forall_app in Hkv as [Hfv Hbv].
    destruct (batch st) as [|d b] eqn:Hb.
    + cbn [outcome batches]. exists flushed. rewrite app_nil_r in Hlog.
      split; [exact Hsub|]. split; [now rewrite Hlog|].
      split; [exact Hfv|]. intros t _. now rewrite Hlog.
    + rewrite flush_cases, Hb.
      destruct (store_error (batch_actions os_index (d :: b))).
      * cbn [outcome batches]. exists flushed. split; [exact Hsub|].
        split; [rewrite Hlog; now apply prefix_app_r|].
        split; [exact Hfv | intros t [=]].
      * cbn [outcome batches submitted].
        exists (keep_first ∅ (cleaned utcnow 0 (items s))).
        split; [|split; [reflexivity|split; [|now intros t _]]].
        -- rewrite concat_app, Hsub, Hlog. cbn [concat].
           now rewrite app_nil_r, <- batch_actions_app.
        -- rewrite Hlog. apply Forall_app. now split.
  - destruct H as (k & Hk & Hv & flushed & Hlog & Hsub).
    pose proof (keep_first_valid (take k (items s)) ∅ 0 Hv) as Hkv.
    rewrite Hlog in Hkv. apply Forall_app in Hkv as [Hfv Hbv].
    cbn [outcome batches]. exists flushed. split; [exact Hsub|].
    split; [|split; [exact Hfv | intros t [=]]].
    transitivity (keep_first ∅ (cleaned utcnow 0 (take k (items s))));
      [rewrite Hlog; now apply prefix_app_r | apply keep_first_prefix].
Qed.

End RunAndIndex.

Section IngestionClaims.

Import SearchService IngestionService RunLog.

Variable utcnow : nat -> string.
Variable os_index : string.
Variable bulk : list action -> bulk_result.
Variable store_error : list action -> option exn.

(** Every action a run submits is the action for a clean copy of a valid
    document, whether the run ends normally or is aborted. *)
Lemma batches_valid (s : stream document) bs b a :
  b ∈ batches (run_and_index utcnow os_index bulk store_error s bs) ->
  a ∈ b ->
  well_formed os_index a /\ valid (_source a).
Proof.
  intros Hb Ha.
  destruct (run_log utcnow os_index bulk store_error s bs)
    as (kept & Hsub & _ & Hval & _).
  assert (a ∈ concat (batches
            (run_and_index utcnow os_index bulk store_error s bs))) as Hc.
  { apply list_elem_of_In, List.in_concat. exists b.
    split; now apply list_elem_of_In. }
  rewrite Hsub in Hc. unfold batch_actions in Hc.
  apply list_elem_of_fmap in Hc as (d & -> & Hd).
  split; [now repeat split|]. cbn [_source action_of].
  apply valid_assign_id. rewrite Forall_forall in Hval. now apply Hval.
Qed.

(** C3. When any of source, url, content is empty or absent,
    [validate_doc_shape] raises the validation error whose message carries
    the list of exactly the missing field names (in the order source, url,
    content); a document with all three fields non-empty is not rejected;
    and no submission of a run holds a document that lacks one of them,
    however the run ends. *)
Theorem required_field_rejection :
  (forall now doc,
     (exists k, k ∈ required_fields /\ empty_or_absent doc k) ->
     validate_doc_shape now doc
     = Raise (ValueError ("Missing required fields: "
                          +:+ repr_list (missing_fields doc)))
     /\ (forall k, k ∈ missing_fields doc
                   <-> k ∈ required_fields /\ empty_or_absent doc k))
  /\ (forall now doc,
        (forall k, k ∈ required_fields -> ~ empty_or_absent doc k) ->
        exists out, validate_doc_shape now doc = Ok out)
  /\ (forall (s : stream document) bs b a,
        b ∈ batches (run_and_index utcnow os_index bulk store_error s bs) ->
        a ∈ b ->
        forall k, k ∈ required_fields -> ~ empty_or_absent (_source a) k).
Proof.
  split; [|split].
  - intros now doc (k & Hk & He). split.
    + apply validate_invalid. intros Hv. now apply (Hv k Hk).
    + apply elem_of_missing_fields.
  - intros now doc Hv. eexists. now apply validate_valid.
  - intros s bs b a Hb Ha. exact (proj2 (batches_valid s bs b a Hb Ha)).
Qed.

(** C4 (amended). Dedup is scoped to the run, not to the batch.  The
    submissions of a run, read in order, are the actions for a list [kept]
    of documents, each submitted with its id filled in from the url when it
    has none.  [kept] is an initial part of the first occurrences: the
    clean copies of the stream's documents in stream order, without those
    whose identifier (id if present, else url, as the document arrived)
    occurred earlier in the stream.  So no identifier occurs twice in it,
    wherever the flushes fall and however the run ends.  When the run
    returns, every identifier of the stream occurs exactly once: later
    documents with an identifier already seen were dropped without an
    error.  The run returns when all documents are valid and neither the
    source nor the store raises. *)
Theorem dedup_is_run_scoped (s : stream document) (bs : Z) :
  let r := run_and_index utcnow os_index bulk store_error s bs in
  exists kept : list document,
    concat (batches r) = batch_actions os_index kept
    /\ kept `prefix_of` keep_first ∅ (cleaned utcnow 0 (items s))
    /\ (forall v, (occurrences v kept <= 1)%nat)
    /\ (forall t, outcome r = Ok t ->
          forall d, d ∈ items s ->
            occurrences (identifier d) kept = 1%nat)
    /\ (Forall valid (items s) -> raised s = None ->
        (forall acts, store_error acts = None) ->
        exists t, outcome r = Ok t).
Proof.
  cbn zeta.
  destruct (run_log utcnow os_index bulk store_error s bs)
    as (kept & Hsub & Hpre & _ & Hok).
  exists kept. split; [exact Hsub|]. split; [exact Hpre|].
  pose proof (proj1 (keep_first_nodup (cleaned utcnow 0 (items s)) ∅)) as Hnd.
  split; [|split].
  - intros v. apply occurrences_le_one. destruct Hpre as [rest Hrest].
    rewrite Hrest, fmap_app in Hnd. now apply NoDup_app in Hnd as [Hnd _].
  - intros t Ht d Hd. destruct (Hok t Ht) as (-> & _ & _).
    apply occurrences_one; [exact Hnd|].
    destruct (keep_first_covers (cleaned utcnow 0 (items s)) ∅ (identifier d))
      as [Hin|Hin]; [|now apply elem_of_empty in Hin | exact Hin].
    rewrite cleaned_identifiers. now apply list_elem_of_fmap_2.
  - intros Hv Hr Hup.
    destruct (loop_valid utcnow os_index bulk store_error Hup bs (items s)
                (raised s) 0 initial_state Hv) as (st & _ & Hl).
    rewrite Hr in Hl at 2.
    exact (proj1 (run_finished utcnow os_index bulk store_error Hup bs s st Hl)).
Qed.

(** C2 (amended). A document that fails validation is not skipped: a run
    over a stream that holds one never returns normally.  When the store
    raises nothing, the [ValueError] of the first such document leaves
    [run_and_index]; the submissions are the ones made while the documents
    before it were processed; the documents still buffered (which a run on
    those documents alone would flush at its end) and all documents after
    it are not submitted, and nothing is counted. *)
Theorem validation_failure_aborts_run pre bad post ending bs :
  Forall valid pre -> ~ valid bad ->
  let r := run_and_index utcnow os_index bulk store_error
             {| items := pre ++ bad :: post; raised := ending |} bs in
  (exists e, outcome r = Raise e)
  /\ ((forall acts, store_error acts = None) ->
      outcome r = Raise (ValueError ("Missing required fields: "
                                     +:+ repr_list (missing_fields bad)))
      /\ exists st,
           loop utcnow os_index bulk store_error bs 0 pre None initial_state
           = Finished st
           /\ batches r = submitted st
           /\ batches (run_and_index utcnow os_index bulk store_error
                         {| items := pre; raised := None |} bs)
              = submitted st ++ (match batch st with
                                 | [] => []
                                 | _ => [batch_actions os_index (batch st)]
                                 end)).
Proof.
  intros Hpre Hbad. cbn zeta. split.
  - destruct (loop_invalid_aborts utcnow os_index bulk store_error bs pre bad
                post ending Hbad 0 initial_state) as (e & st & Hl).
    unfold run_and_index. cbn [items raised]. rewrite Hl. now exists e.
  - intros Hup.
    destruct (loop_first_invalid utcnow os_index bulk store_error Hup bs pre
                bad post ending 0 initial_state Hpre Hbad) as (st & Hfin & Hab).
    unfold run_and_index at 1 2. cbn [items raised]. rewrite Hab.
    cbn [outcome batches].
    split; [reflexivity|]. exists st. split; [exact Hfin|].
    split; [reflexivity|].
    exact (proj2 (run_finished utcnow os_index bulk store_error Hup bs
                    {| items := pre; raised := None |} st Hfin)).
Qed.

End IngestionClaims.

Lemma required_field_rejection_witness :
  IngestionService.validate_doc_shape "2025-08-01T10:30:00" Examples.doc_invalid
  = Raise (ValueError "Missing required fields: ['url', 'content']").
Proof.
  destruct (required_field_rejection Examples.clock "policy-documents"
              Examples.accept_all Examples.store_up) as (H & _ & _).
  destruct (H "2025-08-01T10:30:00" Examples.doc_invalid) as [-> _].
  - exists "url". split; [apply list_elem_of_further, list_elem_of_here|].
    right. now left.
  - reflexivity.
Defined.

Lemma dedup_is_run_scoped_witness :
  let r := IngestionService.run_and_index Examples.clock "policy-documents"
             Examples.accept_all Examples.store_up
             {| items := [Examples.doc_with_id; Examples.doc_without_id;
                          Examples.doc_with_id_again];
                raised := None |} 2 in
  exists kept,
    concat (IngestionService.batches r)
    = RunLog.batch_actions "policy-documents" kept
    /\ (exists t, IngestionService.outcome r = Ok t)
    /\ IngestionService.occurrences (VStr "42") kept = 1%nat.
Proof.
  destruct (dedup_is_run_scoped Examples.clock "policy-documents"
              Examples.accept_all Examples.store_up
              {| items := [Examples.doc_with_id; Examples.doc_without_id;
                           Examples.doc_with_id_again];
                 raised := None |} 2) as (kept & Hsub & _ & _ & Hocc & Hok).
  exists kept. split; [exact Hsub|].
  destruct Hok as [t Ht].
  - repeat constructor; apply valid_missing; reflexivity.
  - reflexivity.
  - reflexivity.
  - split; [now exists t|].
    apply (Hocc t Ht Examples.doc_with_id_again).
    do 2 apply list_elem_of_further. apply list_elem_of_here.
Defined.

(** C4, as stated, fails in two ways.  On a stream that also holds an
    invalid document: two valid documents share the identifier 42, the
    document between them lacks url and content, and the run is aborted
    before any flush, so the identifier occurs in no submission.  And in a
    run that returns: two documents share an id that is the digest of a
    url, a third has that url and no id; the first and the third are both
    submitted, under the same identifier. *)
Lemma dedup_exactly_once_counterexample :
  (let r := IngestionService.run_and_index Examples.clock "policy-documents"
              Examples.accept_all Examples.store_up
              {| items := [Examples.doc_with_id; Examples.doc_invalid;
                           Examples.doc_with_id_again];
                 raised := None |} 5 in
   IngestionService.missing_fields Examples.doc_with_id = []
   /\ IngestionService.missing_fields Examples.doc_with_id_again = []
   /\ IngestionService.identifier Examples.doc_with_id = VStr "42"
   /\ IngestionService.identifier Examples.doc_with_id_again = VStr "42"
   /\ IngestionService.outcome r
      = Raise (ValueError "Missing required fields: ['url', 'content']")
   /\ IngestionService.batches r = [])
  /\ (let r := IngestionService.run_and_index Examples.clock
                 "policy-documents" Examples.accept_all Examples.store_up
                 {| items := [MoreExamples.doc_digest_id;
                              MoreExamples.doc_digest_id_again;
                              Examples.doc_without_id];
                    raised := None |} 5 in
      IngestionService.missing_fields MoreExamples.doc_digest_id = []
      /\ IngestionService.missing_fields MoreExamples.doc_digest_id_again = []
      /\ IngestionService.missing_fields Examples.doc_without_id = []
      /\ IngestionService.identifier MoreExamples.doc_digest_id
         = VStr "2bb570db24c0ec43125775086cc0ac791db18eb9"
      /\ IngestionService.identifier MoreExamples.doc_digest_id_again
         = VStr "2bb570db24c0ec43125775086cc0ac791db18eb9"
      /\ IngestionService.outcome r = Ok 2
      /\ SearchService._id <$> concat (IngestionService.batches r)
         = [VStr "2bb570db24c0ec43125775086cc0ac791db18eb9";
            VStr "2bb570db24c0ec43125775086cc0ac791db18eb9"]
      /\ (fun a => SearchService.doc_get (SearchService._source a) "content")
         <$> concat (IngestionService.batches r)
         = [VStr "Wasserstoff"; VStr "Wasserstoff"]).
Proof. vm_compute. repeat split. Qed.

(** C2, as stated, fails: the first document lacks url and content, the
    second is valid; the run raises and submits nothing, so the valid
    document is neither batched nor indexed. *)
Lemma validation_failure_counterexample :
  let r := IngestionService.run_and_index Examples.clock "policy-documents"
             Examples.accept_all Examples.store_up
             {| items := [Examples.doc_invalid; Examples.doc_with_id];
                raised := None |} 1 in
  IngestionService.outcome r
  = Raise (ValueError "Missing required fields: ['url', 'content']")
  /\ IngestionService.batches r = []
  /\ IngestionService.missing_fields Examples.doc_with_id = [].
Proof. vm_compute. repeat split. Qed.

Lemma validation_failure_aborts_run_witness :
  let r := IngestionService.run_and_index Examples.clock "policy-documents"
             Examples.accept_all Examples.store_up
             {| items := [Examples.doc_with_id] ++ Examples.doc_invalid
                           :: [Examples.doc_without_id];
                raised := None |} 5 in
  IngestionService.outcome r
  = Raise (ValueError "Missing required fields: ['url', 'content']")
  /\ IngestionService.batches r = [].
Proof.
  destruct (validation_failure_aborts_run Examples.clock "policy-documents"
              Examples.accept_all Examples.store_up [Examples.doc_with_id]
              Examples.doc_invalid [Examples.doc_without_id] None 5)
    as (_ & H).
  - repeat constructor; apply valid_missing; reflexivity.
  - rewrite valid_missing. discriminate.
  - destruct H as (Hout & st & Hfin & Hb & _); [reflexivity|].
    split; [exact Hout|]. rewrite Hb.
    vm_compute in Hfin. injection Hfin as <-. reflexivity.
Defined.

(** ** Publication dates *)

Section PublicationDate.

Import SearchService Scripts DateShape.


Lemma matches_cons t template s :
  matches (String t template) s = true ->
  exists c s', s = String c s'
    /\ (if Ascii.eqb t "d" then is_digit c else Ascii.eqb t c) = true
    /\ matches template s' = true.
Proof.
  destruct s as [|c s']; cbn [matches]; [discriminate|].
  intros H. apply andb_prop in H as [H1 H2]. eauto.
Qed.

Lemma matches_nil s : matches "" s = true -> s = "".
Proof. destruct s; [reflexivity | discriminate]. Qed.

(** Takes the first character off a [matches] hypothesis. *)
Ltac matches_step H :=
  let c := fresh "c" in
  let Hc := fresh "Hc" in
  apply matches_cons in H as (c & ? & -> & Hc & H);
  match type of Hc with
  | (if ?b then _ else _) = true =>
      let b' := eval vm_compute in b in
      change b with b' in Hc; cbv iota in Hc
  end;
  try (apply Ascii.eqb_eq in Hc; subst c).

(** A string of the shape YYYY-MM-DD, spelled out. *)
Lemma is_date_only_inv s :
  is_date_only s = true ->
  exists y1 y2 y3 y4 m1 m2 d1 d2,
    s = String y1 (String y2 (String y3 (String y4 (String "-"
          (String m1 (String m2 (String "-" (String d1 (String d2 "")))))))))
    /\ Forall (fun c => is_digit c = true) [y1; y2; y3; y4; m1; m2; d1; d2].
Proof.
  unfold is_date_only. intros H.
  do 10 matches_step H. apply matches_nil in H as ->.
  eexists _, _, _, _, _, _, _, _. split; [reflexivity|].
  repeat constructor; assumption.
Qed.

Lemma date_only_midnight_is_utc_instant s :
  is_date_only s = true -> is_utc_instant (s +:+ "T00:00:00Z") = true.
Proof.
  intros H. apply is_date_only_inv in H
    as (y1 & y2 & y3 & y4 & m1 & m2 & d1 & d2 & -> & Hd).
  repeat match goal with
         | H : Forall _ (_ :: _) |- _ => apply Forall_cons in H as [? H]
         end.
  unfold is_utc_instant. cbv -[is_digit].
  repeat match goal with E : is_digit _ = true |- _ => rewrite E; clear E end.
  reflexivity.
Qed.


Variable datetime : Type.
Variable fromisoformat : string -> result datetime.
Variable tzinfo_is_none : datetime -> bool.
Variable utc_isoformat : datetime -> string.


End PublicationDate.



(** * Further properties *)

(** ** Cursor pagination: the requests of a run *)

Section PaginationRequests.

Import BundestagDip DipRequests.

Variable responses : nat -> response.

Lemma request_params_prepend evs r :
  request_params (prepend evs r)
  = omap (fun ev => match ev with Request p => Some p | Yield _ => None end) evs
    ++ request_params r.
Proof. unfold request_params, prepend. cbn. apply omap_app. Qed.

Lemma omap_request_yields (docs : list item) :
  omap (fun ev => match ev with Request p => Some p | Yield _ => None end)
       (Yield <$> docs) = [].
Proof. induction docs as [|d docs IH]; [reflexivity | exact IH]. Qed.

Lemma params_after_insert p c n d :
  params_after responses (<["cursor" := c]> p) n d = params_after responses p n d.
Proof.
  unfold params_after. apply list_fmap_ext. intros _ j _.
  apply insert_insert_eq.
Qed.

Lemma docs_at_good n code b docs :
  responses n = Http code b -> page_docs b = Ok docs ->
  docs_at responses n = docs.
Proof. intros Rn Hdocs. unfold docs_at. now rewrite Rn, Hdocs. Qed.

(** The loop started at request [n] over [d] continuing pages and a last
    good page that stops: it returns, the items come out in page order, and
    each request after the first carries the cursor of the page before. *)
Lemma paginate_loop_returns (d : nat) :
  forall n fuel params,
    (d < fuel)%nat ->
    (forall j, (n <= j < n + d)%nat -> continues_at responses j) ->
    good_page responses (n + d) ->
    stops_at responses (n + d) ->
    let r := paginate_loop responses fuel n params (previous_cursor responses n) in
    final r = Returned
    /\ yielded r = concat (docs_at responses <$> seq n (S d))
    /\ request_params r = params :: params_after responses params n d.
Proof.
  induction d as [|d IH]; intros n fuel params Hfuel Hgood Hlast Hstop;
    (destruct fuel as [|fuel]; [lia|]); cbn zeta;
    rewrite paginate_loop_step.
  - rewrite Nat.add_0_r in Hlast, Hstop.
    destruct Hlast as (Herr & code & b & docs & Rn & Hdocs).
    unfold stops_at, cursor_at in Hstop. unfold request_error in Herr.
    rewrite Rn in *. unfold raise_for_status.
    destruct ((400 <=? code) && (code <? 600)); [discriminate|].
    cbn [mbind result_bind bind]. rewrite Hdocs.
    assert (negb (truthy (page_cursor b))
            || bool_decide (page_cursor b = previous_cursor responses n)
            = true) as ->.
    { destruct Hstop as [-> | ->]; [reflexivity|].
      rewrite bool_decide_eq_true_2 by reflexivity. apply orb_true_r. }
    split; [reflexivity|]. split.
    + cbn [seq fmap list_fmap concat].
      rewrite (docs_at_good n code b docs Rn Hdocs), app_nil_r.
      unfold yielded. cbn. now rewrite omap_yields.
    + unfold request_params. cbn. now rewrite omap_request_yields.
  - destruct (Hgood n ltac:(lia))
      as (Hok & (code & b & docs & Rn & Hdocs) & Htr & Hne).
    unfold cursor_at in Htr, Hne. rewrite Rn in *.
    unfold request_error in Hok. unfold raise_for_status.
    destruct ((400 <=? code) && (code <? 600)); [discriminate|].
    cbn [mbind result_bind bind]. rewrite Hdocs, Htr. cbn [negb orb].
    rewrite bool_decide_eq_false_2 by exact Hne.
    specialize (IH (S n) fuel (<["cursor" := py_str (page_cursor b)]> params)).
    assert (previous_cursor responses (S n) = page_cursor b) as Hprev.
    { cbn. unfold cursor_at. now rewrite Rn. }
    cbn zeta in IH. rewrite Hprev in IH.
    destruct IH as (Hfin & Hy & Hp).
    + lia.
    + intros j Hj. apply Hgood. lia.
    + now replace (S n + d)%nat with (n + S d)%nat by lia.
    + now replace (S n + d)%nat with (n + S d)%nat by lia.
    + split; [exact Hfin|]. split.
      * change (seq n (S (S d))) with (n :: seq (S n) (S d)).
        rewrite fmap_cons. cbn [concat].
        rewrite (docs_at_good n code b docs Rn Hdocs), <- Hy.
        rewrite yielded_prepend. cbn [omap]. cbn. now rewrite omap_yields.
      * unfold params_after at 1.
        change (seq n (S d)) with (n :: seq (S n) d).
        rewrite fmap_cons. fold (params_after responses params (S n) d).
        unfold cursor_at at 1. rewrite Rn.
        rewrite <- (params_after_insert params (py_str (page_cursor b))), <- Hp.
        rewrite request_params_prepend. cbn [omap]. cbn.
        now rewrite omap_request_yields.
Qed.

(** X1. When the pages before page [k] are good pages with new cursors and
    page [k] is a good page that returns no cursor or repeats the previous
    one, the generator returns after [k + 1] requests; it yields the items
    of the pages 0 to [k] in page order; the first request carries the
    initial parameters and every later request the same parameters with
    [cursor] set to the cursor the previous page returned. *)
Theorem paginate_cursor_follows_cursors (extra_params : gmap string value)
    (k fuel : nat) :
  (forall j, (j < k)%nat -> continues_at responses j) ->
  good_page responses k ->
  stops_at responses k ->
  (k < fuel)%nat ->
  let r := _paginate_cursor responses fuel extra_params in
  final r = Returned
  /\ yielded r = concat (docs_at responses <$> seq 0 (S k))
  /\ request_params r
     = initial_params extra_params
       :: params_after responses (initial_params extra_params) 0 k.
Proof.
  intros Hgood Hlast Hstop Hfuel. unfold _paginate_cursor.
  apply (paginate_loop_returns k 0 fuel _ Hfuel); [|exact Hlast|exact Hstop].
  intros j Hj. apply Hgood. lia.
Qed.

(** The loop never ends by itself when every page is a good page with a
    cursor that differs from the one before. *)
Lemma paginate_loop_keeps_running (fuel : nat) :
  forall n params,
    (forall j, (n <= j)%nat -> continues_at responses j) ->
    let r := paginate_loop responses fuel n params (previous_cursor responses n) in
    final r = Running /\ requests r = fuel.
Proof.
  induction fuel as [|fuel IH]; intros n params Hgood; cbn zeta.
  - now split.
  - rewrite paginate_loop_step.
    destruct (Hgood n ltac:(lia))
      as (Hok & (code & b & docs & Rn & Hdocs) & Htr & Hne).
    unfold cursor_at in Htr, Hne. rewrite Rn in *.
    unfold request_error in Hok. unfold raise_for_status.
    destruct ((400 <=? code) && (code <? 600)); [discriminate|].
    cbn. rewrite Hdocs, Htr. cbn [negb orb].
    rewrite bool_decide_eq_false_2 by exact Hne.
    specialize (IH (S n) (<["cursor" := py_str (page_cursor b)]> params)).
    assert (previous_cursor responses (S n) = page_cursor b) as Hprev.
    { cbn. unfold cursor_at. now rewrite Rn. }
    cbn zeta in IH. rewrite Hprev in IH.
    destruct IH as [Hfin Hreq]; [intros j Hj; apply Hgood; lia|].
    split; [exact Hfin|].
    rewrite requests_prepend. cbn. rewrite filter_request_yields, Hreq.
    reflexivity.
Qed.

(** X2. The stale-cursor guard only compares with the cursor of the page
    just before: against a server whose every page is good and returns a
    cursor different from the previous one (for instance the cursors
    a, b, a, b, ...), the generator is still running after any number of
    requests. *)
Theorem paginate_cursor_unbounded (extra_params : gmap string value)
    (fuel : nat) :
  (forall j, continues_at responses j) ->
  let r := _paginate_cursor responses fuel extra_params in
  final r = Running /\ requests r = fuel.
Proof.
  intros Hgood. unfold _paginate_cursor.
  apply (paginate_loop_keeps_running fuel 0). intros j _. apply Hgood.
Qed.

End PaginationRequests.

Lemma paginate_cursor_follows_cursors_witness :
  let r := BundestagDip._paginate_cursor DipRequests.two_page_server 5
             {[ "f.datum.start" := VStr "2025-08-01"; "skip" := VNone ]} in
  BundestagDip.final r = BundestagDip.Returned
  /\ BundestagDip.yielded r = [Examples.item_a; Examples.item_b]
  /\ DipRequests.request_params r
     = [ {[ "format" := "json"; "f.datum.start" := "2025-08-01" ]};
         {[ "format" := "json"; "f.datum.start" := "2025-08-01";
            "cursor" := "c1" ]} ].
Proof.
  pose proof (paginate_cursor_follows_cursors DipRequests.two_page_server
                {[ "f.datum.start" := VStr "2025-08-01"; "skip" := VNone ]}
                1 5) as H.
  cbn zeta in H. destruct H as (Hf & Hy & Hp).
  - intros j Hj. assert (j = 0%nat) as -> by lia.
    split; [reflexivity|]. split; [now eexists _, _, _|].
    split; [reflexivity | discriminate].
  - split; [reflexivity | now eexists _, _, _].
  - now left.
  - lia.
  - split; [exact Hf|]. split; [rewrite Hy; reflexivity|].
    rewrite Hp. vm_compute. reflexivity.
Defined.

Lemma alternating_server_continues j :
  BundestagDip.continues_at DipRequests.alternating_server j.
Proof.
  split; [reflexivity|]. split; [now eexists _, _, _|].
  split; [unfold BundestagDip.cursor_at; cbn; now destruct (Nat.even j)|].
  destruct j as [|j]; [discriminate|].
  unfold BundestagDip.cursor_at, BundestagDip.previous_cursor; cbn -[Nat.even].
  rewrite Nat.even_succ, <- Nat.negb_even. now destruct (Nat.even j).
Qed.

Lemma paginate_cursor_unbounded_witness :
  let r := BundestagDip._paginate_cursor DipRequests.alternating_server 7 ∅ in
  BundestagDip.final r = BundestagDip.Running
  /\ BundestagDip.requests r = 7%nat.
Proof.
  apply (paginate_cursor_unbounded DipRequests.alternating_server ∅ 7).
  exact alternating_server_continues.
Defined.

(** ** The record streams of the DIP client *)

Section DipRecords.

Import BundestagDip DipClient.

Variable fundstelle : item -> option (gmap string value).

Lemma truthy_str v :
  truthy v = true -> exists s, v = VStr s /\ s <> "" /\ py_str v = s.
Proof.
  destruct v as [|s]; cbn; [discriminate|].
  destruct (String.eqb_spec s "") as [->|Hne]; [discriminate|].
  intros _. now exists s.
Qed.

(** The four fields of a record built from four truthy values. *)
Lemma complete_base (a b c e : value) (out : item) :
  truthy a = true -> truthy b = true -> truthy c = true -> truthy e = true ->
  (forall k, k ∈ ["id"; "titel"; "datum"; "text"] ->
     out !! k = ({[ "id" := VStr (py_str a); "titel" := VStr (py_str b);
                    "datum" := VStr (py_str c); "text" := VStr (py_str e) ]}
                 : item) !! k) ->
  complete out.
Proof.
  intros Ha Hb Hc He Hout k Hk. rewrite (Hout k Hk).
  apply truthy_str in Ha as (sa & _ & Hsa & ->).
  apply truthy_str in Hb as (sb & _ & Hsb & ->).
  apply truthy_str in Hc as (sc & _ & Hsc & ->).
  apply truthy_str in He as (se & _ & Hse & ->).
  rewrite !elem_of_cons, elem_of_nil in Hk.
  destruct Hk as [->|[->|[->|[->|[]]]]]; eexists; (split; [reflexivity|assumption]).
Qed.

Lemma normalize_plenar_some d out :
  _normalize_plenar fundstelle d = Some out ->
  complete out /\ exists s, out !! "dokumentart" = Some (VStr s) /\ s <> "".
Proof.
  unfold _normalize_plenar.
  set (id_ := py_or (py_or (get d "id") (get d "documentId")) (get d "vorgangId")).
  set (titel := py_or (get d "titel") (get d "title")).
  set (datum := py_or (get d "datum") (get d "date")).
  set (text := py_or (get d "text") (get d "inhalt")).
  set (art := py_or (py_or (get d "dokumentart") (get d "Dokumentart"))
                    (VStr "Plenarprotokoll")).
  destruct (truthy id_) eqn:Hi; [|discriminate].
  destruct (truthy titel) eqn:Ht; [|discriminate].
  destruct (truthy datum) eqn:Hd; [|discriminate].
  destruct (truthy text) eqn:Hx; [|discriminate].
  cbn [andb negb].
  assert (truthy art = true) as Hart.
  { unfold art, py_or.
    destruct (truthy (if truthy (get d "dokumentart") then get d "dokumentart"
                      else get d "Dokumentart")) eqn:E; [exact E | reflexivity]. }
  rewrite Hart. intros [= <-]. split.
  - apply (complete_base id_ titel datum text); try assumption.
    intros k Hk. rewrite !elem_of_cons, elem_of_nil in Hk.
    destruct (truthy (fundstelle_pdf_url fundstelle d));
      destruct Hk as [->|[->|[->|[->|[]]]]];
      now rewrite ?lookup_insert_ne by discriminate.
  - apply truthy_str in Hart as (s & _ & Hs & ->).
    exists s. split; [apply lookup_insert_eq | exact Hs].
Qed.

Lemma normalize_drucksache_some d out :
  _normalize_drucksache fundstelle d = Some out -> complete out.
Proof.
  unfold _normalize_drucksache.
  set (id_ := py_or (get d "id") (get d "drucksacheId")).
  set (titel := py_or (get d "titel") (get d "title")).
  set (datum := py_or (get d "datum") (get d "date")).
  set (text := py_or (get d "text") (get d "inhalt")).
  destruct (truthy id_) eqn:Hi; [|discriminate].
  destruct (truthy titel) eqn:Ht; [|discriminate].
  destruct (truthy datum) eqn:Hd; [|discriminate].
  destruct (truthy text) eqn:Hx; [|discriminate].
  cbn [andb negb]. intros [= <-].
  apply (complete_base id_ titel datum text); try assumption.
  intros k Hk. rewrite !elem_of_cons, elem_of_nil in Hk.
  destruct (truthy (fundstelle_pdf_url fundstelle d));
    destruct Hk as [->|[->|[->|[->|[]]]]];
    now rewrite ?lookup_insert_ne by discriminate.
Qed.

Lemma requests_records normalize r : requests (records normalize r) = requests r.
Proof.
  unfold requests, records. cbn [events].
  induction (events r) as [|ev evs IH]; [reflexivity|].
  destruct ev as [p|raw].
  - simpl. f_equal. exact IH.
  - simpl. destruct (normalize raw) as [out|]; [|exact IH].
    destruct (truthy (get out "text")); [|exact IH].
    simpl. exact IH.
Qed.

Lemma yielded_records normalize r out :
  out ∈ yielded (records normalize r) ->
  exists raw, raw ∈ yielded r /\ normalize raw = Some out.
Proof.
  unfold yielded, records. cbn [events].
  induction (events r) as [|ev evs IH];
    [intros H; now apply elem_of_nil in H|].
  destruct ev as [p|raw]; simpl; [exact IH|].
  destruct (normalize raw) as [out'|] eqn:E; simpl.
  - destruct (truthy (get out' "text")); simpl.
    + intros H. apply elem_of_cons in H as [->|H].
      * exists raw. split; [left | exact E].
      * destruct (IH H) as (raw' & Hin & Hn). exists raw'.
        split; [now right | exact Hn].
    + intros H. destruct (IH H) as (raw' & Hin & Hn). exists raw'.
      split; [now right | exact Hn].
  - intros H. destruct (IH H) as (raw' & Hin & Hn). exists raw'.
    split; [now right | exact Hn].
Qed.

Lemma request_params_records normalize r :
  DipRequests.request_params (records normalize r)
  = DipRequests.request_params r.
Proof.
  unfold DipRequests.request_params, records. cbn [events].
  induction (events r) as [|ev evs IH]; [reflexivity|].
  destruct ev as [p|raw].
  - simpl. f_equal. exact IH.
  - simpl. destruct (normalize raw) as [out|]; [|exact IH].
    destruct (truthy (get out "text")); [|exact IH].
    simpl. exact IH.
Qed.

(** Every request of the pagination carries the parameters of the first
    one, apart from the cursor. *)
Lemma paginate_loop_params responses fuel :
  forall n params prev,
    Forall (fun q => forall k, k <> "cursor" -> q !! k = params !! k)
           (DipRequests.request_params
              (paginate_loop responses fuel n params prev)).
Proof.
  induction fuel as [|fuel IH]; intros n params prev; [constructor|].
  rewrite paginate_loop_step.
  destruct (responses n) as [|code b];
    [repeat constructor|].
  destruct (_ ← raise_for_status code; page_docs b) as [docs|e];
    [|repeat constructor].
  destruct (negb (truthy (page_cursor b))
            || bool_decide (page_cursor b = prev)).
  - unfold DipRequests.request_params. cbn [events omap list_omap].
    rewrite omap_request_yields. repeat constructor.
  - rewrite request_params_prepend. cbn [omap list_omap].
    rewrite omap_request_yields. cbn [app].
    constructor; [reflexivity|].
    eapply Forall_impl; [apply IH|]. cbn beta. intros q Hq k Hk.
    rewrite (Hq k Hk). now apply lookup_insert_ne.
Qed.

Lemma initial_params_lookup (extra : gmap string value) k :
  initial_params extra !! k
  = match extra !! k with
    | Some (VStr s) => Some s
    | _ => if String.eqb k "format" then Some "json" else None
    end.
Proof.
  unfold initial_params. rewrite lookup_union, lookup_omap.
  destruct (extra !! k) as [[|s]|]; cbn;
    destruct (String.eqb_spec k "format") as [->|Hne];
    rewrite ?lookup_singleton_eq, ?lookup_singleton_ne by congruence;
    reflexivity.
Qed.

Lemma date_param_lookup (v : value) :
  match (if truthy v then Some v else None) with
  | Some (VStr s) => Some s
  | _ => None
  end = date_param v.
Proof.
  unfold date_param. destruct v as [|s]; [reflexivity|].
  cbn. now destruct (negb (String.eqb s "")).
Qed.

Lemma plenar_params_lookup date_from date_to k :
  plenar_params date_from date_to !! k
  = if String.eqb k "f.datum.start" || String.eqb k "datum.start"
    then (if truthy date_from then Some date_from else None)
    else if String.eqb k "f.datum.end" || String.eqb k "datum.end"
    then (if truthy date_to then Some date_to else None)
    else None.
Proof.
  unfold plenar_params.
  destruct (String.eqb_spec k "f.datum.start") as [->|H1];
    [now destruct (truthy date_from), (truthy date_to)|].
  destruct (String.eqb_spec k "datum.start") as [->|H2];
    [now destruct (truthy date_from), (truthy date_to)|].
  destruct (String.eqb_spec k "f.datum.end") as [->|H3];
    [now destruct (truthy date_from), (truthy date_to)|].
  destruct (String.eqb_spec k "datum.end") as [->|H4];
    [now destruct (truthy date_from), (truthy date_to)|].
  cbn [orb].
  destruct (truthy date_from), (truthy date_to);
    rewrite ?lookup_insert_ne by congruence; apply lookup_empty.
Qed.

Lemma drucksache_params_lookup date_from date_to k :
  drucksache_params date_from date_to !! k
  = if String.eqb k "f.datum.start" || String.eqb k "datum.start"
       || String.eqb k "fundstelle.datum.start"
    then (if truthy date_from then Some date_from else None)
    else if String.eqb k "f.datum.end" || String.eqb k "datum.end"
            || String.eqb k "fundstelle.datum.end"
    then (if truthy date_to then Some date_to else None)
    else None.
Proof.
  unfold drucksache_params.
  destruct (String.eqb_spec k "f.datum.start") as [->|H1];
    [now destruct (truthy date_from), (truthy date_to)|].
  destruct (String.eqb_spec k "datum.start") as [->|H2];
    [now destruct (truthy date_from), (truthy date_to)|].
  destruct (String.eqb_spec k "fundstelle.datum.start") as [->|H3];
    [now destruct (truthy date_from), (truthy date_to)|].
  destruct (String.eqb_spec k "f.datum.end") as [->|H4];
    [now destruct (truthy date_from), (truthy date_to)|].
  destruct (String.eqb_spec k "datum.end") as [->|H5];
    [now destruct (truthy date_from), (truthy date_to)|].
  destruct (String.eqb_spec k "fundstelle.datum.end") as [->|H6];
    [now destruct (truthy date_from), (truthy date_to)|].
  cbn [orb].
  destruct (truthy date_from), (truthy date_to);
    rewrite ?lookup_insert_ne by congruence; apply lookup_empty.
Qed.

(** The parameters of the first request of each stream. *)
Lemma plenar_initial_carries date_from date_to :
  carries ["f.datum.start"; "datum.start"] ["f.datum.end"; "datum.end"]
    date_from date_to (initial_params (plenar_params date_from date_to)).
Proof.
  split; [|split; [|split]].
  - now rewrite initial_params_lookup, plenar_params_lookup.
  - intros k Hk. rewrite initial_params_lookup, plenar_params_lookup.
    rewrite !elem_of_cons, elem_of_nil in Hk.
    destruct Hk as [->|[->|[]]]; apply date_param_lookup.
  - intros k Hk. rewrite initial_params_lookup, plenar_params_lookup.
    rewrite !elem_of_cons, elem_of_nil in Hk.
    destruct Hk as [->|[->|[]]]; apply date_param_lookup.
  - intros k Hk. rewrite initial_params_lookup, plenar_params_lookup.
    cbn [app] in Hk. rewrite !not_elem_of_cons in Hk.
    destruct Hk as (H0 & _ & H1 & H2 & H3 & H4 & _).
    apply String.eqb_neq in H0, H1, H2, H3, H4.
    now rewrite H0, H1, H2, H3, H4.
Qed.

Lemma drucksache_initial_carries date_from date_to :
  carries ["f.datum.start"; "datum.start"; "fundstelle.datum.start"]
    ["f.datum.end"; "datum.end"; "fundstelle.datum.end"]
    date_from date_to (initial_params (drucksache_params date_from date_to)).
Proof.
  split; [|split; [|split]].
  - now rewrite initial_params_lookup, drucksache_params_lookup.
  - intros k Hk. rewrite initial_params_lookup, drucksache_params_lookup.
    rewrite !elem_of_cons, elem_of_nil in Hk.
    destruct Hk as [->|[->|[->|[]]]]; apply date_param_lookup.
  - intros k Hk. rewrite initial_params_lookup, drucksache_params_lookup.
    rewrite !elem_of_cons, elem_of_nil in Hk.
    destruct Hk as [->|[->|[->|[]]]]; apply date_param_lookup.
  - intros k Hk. rewrite initial_params_lookup, drucksache_params_lookup.
    cbn [app] in Hk. rewrite !not_elem_of_cons in Hk.
    destruct Hk as (H0 & _ & H1 & H2 & H3 & H4 & H5 & H6 & _).
    apply String.eqb_neq in H0, H1, H2, H3, H4, H5, H6.
    now rewrite H0, H1, H2, H3, H4, H5, H6.
Qed.

(** What the first request carries, every request carries. *)
Lemma pagination_carries responses fuel starts ends date_from date_to extra :
  "cursor" ∉ starts ++ ends ->
  carries starts ends date_from date_to (initial_params extra) ->
  Forall (carries starts ends date_from date_to)
         (DipRequests.request_params (_paginate_cursor responses fuel extra)).
Proof.
  intros Hc (Hf & Hs & He & Ho). unfold _paginate_cursor.
  eapply Forall_impl; [apply paginate_loop_params|]. cbn beta.
  intros q Hq. apply not_elem_of_app in Hc as [Hcs Hce].
  split; [|split; [|split]].
  - now rewrite Hq.
  - intros k Hk. rewrite Hq; [now apply Hs|]. now intros ->.
  - intros k Hk. rewrite Hq; [now apply He|]. now intros ->.
  - intros k Hk. rewrite Hq; [now apply Ho|].
    intros ->. apply Hk. right. left.
Qed.

Lemma plenar_records_complete responses fuel date_from date_to :
  Forall (fun out => complete out
            /\ exists s, out !! "dokumentart" = Some (VStr s) /\ s <> "")
         (yielded (plenarprotokoll_text fundstelle responses fuel
                     date_from date_to)).
Proof.
  apply Forall_forall. intros out Hout. unfold plenarprotokoll_text in Hout.
  apply yielded_records in Hout as (raw & _ & Hn).
  now apply (normalize_plenar_some raw).
Qed.

Lemma drucksache_records_complete responses fuel date_from date_to :
  Forall complete
         (yielded (drucksache_text fundstelle responses fuel
                     date_from date_to)).
Proof.
  apply Forall_forall. intros out Hout. unfold drucksache_text in Hout.
  apply yielded_records in Hout as (raw & _ & Hn).
  now apply (normalize_drucksache_some raw).
Qed.

(** X3. The two record streams of the DIP client make exactly the requests
    of the pagination and end as it ends.  Every request of a stream
    carries [format=json] and the date bounds that are given and not empty:
    the lower one under [f.datum.start] and [datum.start], the upper one
    under [f.datum.end] and [datum.end], for a Drucksache also under
    [fundstelle.datum.start] and [fundstelle.datum.end]; apart from the
    cursor it carries nothing else.  Every record yielded comes from an item
    of a page and has id, titel, datum and text as non-empty strings (an
    item that lacks one of them under all its key spellings is dropped
    without an error); a Plenarprotokoll record always carries a non-empty
    dokumentart as well. *)
Theorem dip_streams_yield_complete_records (responses : nat -> response)
    (fuel : nat) (date_from date_to : value) :
  let p := plenarprotokoll_text fundstelle responses fuel date_from date_to in
  let d := drucksache_text fundstelle responses fuel date_from date_to in
  (DipRequests.request_params p
   = DipRequests.request_params
       (_paginate_cursor responses fuel (plenar_params date_from date_to))
   /\ Forall (carries ["f.datum.start"; "datum.start"]
                      ["f.datum.end"; "datum.end"] date_from date_to)
             (DipRequests.request_params p)
   /\ requests p
      = requests (_paginate_cursor responses fuel
                    (plenar_params date_from date_to))
   /\ final p
      = final (_paginate_cursor responses fuel (plenar_params date_from date_to))
   /\ Forall (fun out => complete out
                /\ exists s, out !! "dokumentart" = Some (VStr s) /\ s <> "")
             (yielded p))
  /\ (DipRequests.request_params d
      = DipRequests.request_params
          (_paginate_cursor responses fuel
             (drucksache_params date_from date_to))
      /\ Forall (carries ["f.datum.start"; "datum.start";
                          "fundstelle.datum.start"]
                         ["f.datum.end"; "datum.end"; "fundstelle.datum.end"]
                         date_from date_to)
                (DipRequests.request_params d)
      /\ requests d
         = requests (_paginate_cursor responses fuel
                       (drucksache_params date_from date_to))
      /\ final d
         = final (_paginate_cursor responses fuel
                    (drucksache_params date_from date_to))
      /\ Forall complete (yielded d)).
Proof.
  cbn zeta. split.
  - split; [apply request_params_records|].
    split; [|split; [apply requests_records|split; [reflexivity|]]].
    + unfold plenarprotokoll_text. rewrite request_params_records.
      apply pagination_carries; [|apply plenar_initial_carries].
      cbn [app]. rewrite !not_elem_of_cons. repeat split; try discriminate.
      apply not_elem_of_nil.
    + apply plenar_records_complete.
  - split; [apply request_params_records|].
    split; [|split; [apply requests_records|split; [reflexivity|]]].
    + unfold drucksache_text. rewrite request_params_records.
      apply pagination_carries; [|apply drucksache_initial_carries].
      cbn [app]. rewrite !not_elem_of_cons. repeat split; try discriminate.
      apply not_elem_of_nil.
    + apply drucksache_records_complete.
Qed.

(** An item is dropped exactly when one of the four values, taken under the
    first key spelling that has it, is missing. *)
Lemma normalize_plenar_none d :
  _normalize_plenar fundstelle d = None
  <-> truthy (py_or (py_or (get d "id") (get d "documentId"))
                    (get d "vorgangId"))
      && truthy (py_or (get d "titel") (get d "title"))
      && truthy (py_or (get d "datum") (get d "date"))
      && truthy (py_or (get d "text") (get d "inhalt")) = false.
Proof.
  unfold _normalize_plenar.
  destruct (truthy _ && truthy _ && truthy _ && truthy _); cbn [negb].
  - split; discriminate.
  - split; reflexivity.
Qed.

End DipRecords.

(** ** From DIP records to canonical documents *)

Section BackfillPipeline.

Import SearchService IngestionService Scripts BundestagDip DipClient Backfill.

Lemma complete_lookup rec k :
  complete rec -> k ∈ ["id"; "titel"; "datum"; "text"] ->
  exists s, rec !! k = Some (VStr s) /\ s <> "" /\ get rec k = VStr s
            /\ truthy (VStr s) = true.
Proof.
  intros Hc Hk. destruct (Hc k Hk) as (s & Hs & Hne).
  exists s. split; [exact Hs|]. split; [exact Hne|].
  split; [unfold get; now rewrite Hs|].
  cbn. now destruct (String.eqb_spec s "").
Qed.

(** A complete record becomes a document that passes validation, whose id
    and content are the record's id and text. *)
Lemma normalize_for_index_complete rec :
  complete rec ->
  exists doc,
    normalize_for_index rec = Ok doc
    /\ valid doc
    /\ identifier doc = get rec "id"
    /\ doc_get doc "content" = get rec "text"
    /\ metadata doc = Some ∅.
Proof.
  intros Hc.
  destruct (complete_lookup rec "id" Hc) as (i & Hi & Hine & Hgi & Hti);
    [apply list_elem_of_here|].
  destruct (complete_lookup rec "text" Hc) as (x & Hx & Hxne & Hgx & Htx);
    [do 3 apply list_elem_of_further; apply list_elem_of_here|].
  unfold normalize_for_index, getkey. rewrite Hi.
  cbn [mbind result_bind bind py_str]. eexists. split; [reflexivity|].
  assert (exists u, py_or (get rec "pdf_url")
                          (VStr ("https://dip.bundestag.de/vorgang/" +:+ i))
                    = VStr u /\ u <> "") as (u & Hu & Hune).
  { unfold py_or. destruct (truthy (get rec "pdf_url")) eqn:E.
    - apply truthy_str in E as (s & -> & Hs & _). now exists s.
    - eexists. split; [reflexivity | discriminate]. }
  assert (py_or (get rec "text") (VStr "") = VStr x) as Hcontent.
  { unfold py_or. now rewrite Hgx, Htx. }
  rewrite Hu, Hcontent.
  split; [|split; [|split]].
  - intros k Hk. unfold empty_or_absent. cbn [fields].
    unfold required_fields in Hk. rewrite !elem_of_cons, elem_of_nil in Hk.
    destruct Hk as [->|[->|[->|[]]]]; cbn [list_to_map foldr uncurry];
      rewrite ?lookup_insert_ne by discriminate; rewrite lookup_insert_eq;
      intros [H|[H|H]]; try discriminate; injection H as H; congruence.
  - unfold identifier, doc_get, get at 1 2.
    cbn [fields list_to_map foldr uncurry fst snd].
    rewrite lookup_insert_eq. cbn [default from_option id fst snd].
    unfold py_or. rewrite Hti. now rewrite Hgi.
  - unfold doc_get, get at 1. cbn [fields list_to_map foldr uncurry fst snd].
    rewrite !lookup_insert_ne, lookup_insert_eq by discriminate.
    now rewrite Hgx.
  - reflexivity.
Qed.

(** Over complete records the loop raises nothing of its own: it ends as
    the stream ends. *)
Lemma normalized_complete t recs ending :
  Forall complete recs ->
  let s := normalized t recs ending in
  raised s = ending
  /\ Forall valid (items s)
  /\ identifier <$> items s = (fun rec => get rec "id") <$> recs
  /\ Forall (fun doc => metadata doc = Some {[ "document_type" := t ]})
            (items s).
Proof.
  induction recs as [|rec recs IH]; intros Hall; cbn zeta.
  - cbn. repeat split; constructor.
  - inversion Hall as [|? ? Hrec Hrecs]; subst.
    destruct (normalize_for_index_complete rec Hrec)
      as (doc & Hdoc & Hv & Hid & _ & Hm).
    destruct (IH Hrecs) as (Hr & Hvs & Hids & Hms).
    cbn [normalized]. rewrite Hdoc. cbn [mbind result_bind bind].
    unfold set_document_type. rewrite Hm. cbn [items raised].
    split; [exact Hr|]. split; [|split].
    + constructor; [exact Hv | exact Hvs].
    + cbn [fmap list_fmap]. f_equal; [exact Hid | exact Hids].
    + constructor; [|exact Hms]. cbn [metadata]. now rewrite insert_empty.
Qed.

Lemma stream_of_items r (s : stream item) :
  stream_of r = Some s ->
  items s = yielded r
  /\ raised s = match final r with Raised e => Some e | _ => None end.
Proof.
  unfold stream_of. destruct (final r); intros [= <-]; now split.
Qed.

Variable fundstelle : item -> option (gmap string value).
Variable utcnow : nat -> string.
Variable os_index : string.
Variable bulk : list action -> bulk_result.
Variable store_error : list action -> option exn.

(** X4. The backfill adds no failure of its own to those of the DIP
    client.  Without an API key [iter_range] raises the client's
    [RuntimeError] before any document.  With a key it yields one document
    per record of the Plenarprotokoll stream and, only when that stream
    ended without exception, of the Drucksache stream, and ends as the
    stream it was reading ends, with its exception if it raised one; every
    document passes validation, is tagged with the document type of its
    stream and has the record's id as its identifier (so a Drucksache with
    the id of a Plenarprotokoll counts as a duplicate).  When the store
    raises nothing, [run_and_index] over these documents raises the
    exception that ended the stream, and returns normally when there was
    none. *)
Theorem iter_range_documents_valid (responses_p responses_d : nat -> response)
    (fuel_p fuel_d : nat) (date_from date_to api_key : value)
    (plenar drucksache : stream item) (batch_size : Z) :
  stream_of (plenarprotokoll_text fundstelle responses_p fuel_p
               date_from date_to) = Some plenar ->
  stream_of (drucksache_text fundstelle responses_d fuel_d
               date_from date_to) = Some drucksache ->
  let s := iter_range api_key plenar drucksache in
  let recs := items plenar ++ match raised plenar with
                              | Some _ => []
                              | None => items drucksache
                              end in
  (truthy api_key = false ->
   s = {| items := [];
          raised := Some (RuntimeError
                      "DIP API key missing. Set DIP_API_KEY in environment.") |})
  /\ (truthy api_key = true ->
      raised s = match raised plenar with
                 | Some e => Some e
                 | None => raised drucksache
                 end
      /\ length (items s) = length recs
      /\ Forall valid (items s)
      /\ identifier <$> items s = (fun rec => get rec "id") <$> recs
      /\ (forall i doc, items s !! i = Some doc ->
            metadata doc
            = Some {[ "document_type" :=
                        if (i <? length (items plenar))%nat
                        then "plenarprotokoll"
                        else "drucksache" ]})
      /\ ((forall acts, store_error acts = None) ->
          let r := run_and_index utcnow os_index bulk store_error s
                     batch_size in
          match raised s with
          | Some e => outcome r = Raise e
          | None => exists t, outcome r = Ok t
          end)).
Proof.
  intros Hsp Hsd. cbn zeta. unfold iter_range, new_client.
  split; [intros ->; reflexivity|]. intros ->. cbn [negb].
  apply stream_of_items in Hsp as [Hip Hrp].
  apply stream_of_items in Hsd as [Hid Hrd].
  assert (Forall complete (items plenar)) as Hp.
  { rewrite Hip. eapply Forall_impl;
      [apply plenar_records_complete|]. now intros out [H _]. }
  assert (Forall complete (items drucksache)) as Hd.
  { rewrite Hid. apply drucksache_records_complete. }
  destruct (normalized_complete "plenarprotokoll" (items plenar)
              (raised plenar) Hp) as (Hr1 & Hv1 & Hi1 & Hm1).
  destruct (normalized_complete "drucksache" (items drucksache)
              (raised drucksache) Hd) as (Hr2 & Hv2 & Hi2 & Hm2).
  assert (length (items (normalized "plenarprotokoll" (items plenar)
                           (raised plenar))) = length (items plenar)) as Hl1.
  { rewrite <- (length_fmap identifier), Hi1. apply length_fmap. }
  set (s := match raised (normalized "plenarprotokoll" (items plenar)
                            (raised plenar)) with
            | Some _ => _
            | None => _
            end).
  assert (raised s = match raised plenar with
                     | Some e => Some e
                     | None => raised drucksache
                     end
          /\ Forall valid (items s)
          /\ identifier <$> items s
             = (fun rec => get rec "id")
               <$> (items plenar ++ match raised plenar with
                                    | Some _ => []
                                    | None => items drucksache
                                    end)
          /\ (forall i doc, items s !! i = Some doc ->
                metadata doc
                = Some {[ "document_type" :=
                            if (i <? length (items plenar))%nat
                            then "plenarprotokoll"
                            else "drucksache" ]}))
    as (Hraised & Hvalid & Hids & Hmeta).
  { subst s. rewrite Hr1. destruct (raised plenar) as [e|] eqn:Hrp'.
    - rewrite app_nil_r. split; [exact Hr1|]. split; [exact Hv1|].
      split; [exact Hi1|]. intros i doc Hi.
      assert (i < length (items plenar))%nat as Hlt.
      { rewrite <- Hl1. eapply lookup_lt_Some. exact Hi. }
      apply Nat.ltb_lt in Hlt. rewrite Hlt.
      rewrite Forall_forall in Hm1. apply Hm1.
      eapply list_elem_of_lookup_2. exact Hi.
    - cbn [items raised]. split; [exact Hr2|].
      split; [apply Forall_app; now split|].
      split; [now rewrite !fmap_app, Hi1, Hi2|].
      intros i doc Hi. rewrite Forall_forall in Hm1, Hm2.
      destruct (Nat.ltb_spec i (length (items plenar))) as [Hlt|Hge].
      + rewrite lookup_app_l in Hi by lia. apply Hm1.
        eapply list_elem_of_lookup_2. exact Hi.
      + rewrite lookup_app_r in Hi by lia. apply Hm2.
        eapply list_elem_of_lookup_2. exact Hi. }
  split; [exact Hraised|].
  split; [rewrite <- (length_fmap identifier), Hids; apply length_fmap|].
  split; [exact Hvalid|]. split; [exact Hids|]. split; [exact Hmeta|].
  intros Hup.
  destruct (loop_valid utcnow os_index bulk store_error Hup batch_size
              (items s) (raised s) 0 initial_state Hvalid) as (st & _ & Hl).
  destruct (raised s) as [e|] eqn:Hrs.
  - unfold run_and_index. rewrite Hrs, Hl. reflexivity.
  - rewrite <- Hrs in Hl at 1.
    exact (proj1 (run_finished utcnow os_index bulk store_error Hup
                    batch_size s st Hl)).
Qed.

End BackfillPipeline.

Lemma iter_range_documents_valid_witness :
  let p := DipClient.plenarprotokoll_text (fun _ => None)
             MoreExamples.dip_failing_server 5 VNone VNone in
  let d := DipClient.drucksache_text (fun _ => None)
             MoreExamples.dip_last_page_server 5 VNone VNone in
  let s := Backfill.iter_range (VStr "key")
             {| items := BundestagDip.yielded p;
                raised := Some (HTTPError 503) |}
             {| items := BundestagDip.yielded d; raised := None |} in
  raised s = Some (HTTPError 503)
  /\ IngestionService.identifier <$> items s = [VStr "1"; VStr "1"]
  /\ IngestionService.outcome
       (IngestionService.run_and_index Examples.clock "policy-documents"
          Examples.accept_all Examples.store_up s 200)
     = Raise (HTTPError 503).
Proof.
  cbn zeta.
  destruct (iter_range_documents_valid (fun _ => None) Examples.clock
              "policy-documents" Examples.accept_all Examples.store_up
              MoreExamples.dip_failing_server
              MoreExamples.dip_last_page_server 5 5 VNone VNone (VStr "key")
              {| items := BundestagDip.yielded
                            (DipClient.plenarprotokoll_text (fun _ => None)
                               MoreExamples.dip_failing_server 5 VNone VNone);
                 raised := Some (HTTPError 503) |}
              {| items := BundestagDip.yielded
                            (DipClient.drucksache_text (fun _ => None)
                               MoreExamples.dip_last_page_server 5 VNone VNone);
                 raised := None |} 200)
    as (_ & H).
  - vm_compute. reflexivity.
  - vm_compute. reflexivity.
  - destruct H as (Hr & _ & _ & Hi & _ & Hrun); [reflexivity|].
    cbn [raised] in Hr. split; [exact Hr|].
    split; [rewrite Hi; vm_compute; reflexivity|].
    specialize (Hrun (fun _ => eq_refl)). cbn zeta in Hrun.
    rewrite Hr in Hrun. exact Hrun.
Defined.

(** ** More on the ingestion run *)

Section RunLogFacts.

Import SearchService IngestionService RunLog.

Variable utcnow : nat -> string.
Variable os_index : string.
Variable bulk : list action -> bulk_result.
Variable store_error : list action -> option exn.

(** Batches and count of a run, together. *)
Lemma run_batches_and_count (s : stream document) (batch_size : Z) :
  let r := run_and_index utcnow os_index bulk store_error s batch_size in
  (exists full last,
     batches r = full ++ last
     /\ Forall (fun b => length b = flush_length batch_size) full
     /\ (last = []
         \/ exists b, last = [b] /\ (1 <= length b < flush_length batch_size)%nat
                      /\ exists t, outcome r = Ok t))
  /\ (forall t, outcome r = Ok t -> t = reported bulk (batches r)).
Proof.
  cbn zeta. unfold run_and_index.
  pose proof (loop_log utcnow os_index bulk store_error batch_size (items s)
                (raised s) 0 initial_state eq_refl (Forall_nil_2 _)) as H.
  destruct (loop utcnow os_index bulk store_error batch_size 0 (items s)
              (raised s) initial_state)
    as [st|e st]; destruct H as (Ht & Hf & Hl);
    try (cbn; unfold flush_length; lia).
  - destruct (batch st) as [|d b] eqn:Hb.
    + cbn [batches outcome]. split.
      * exists (submitted st), []. rewrite app_nil_r. now repeat split; [|left].
      * intros t [= <-]. exact Ht.
    + rewrite flush_cases, Hb.
      destruct (store_error (batch_actions os_index (d :: b))).
      * cbn [batches outcome]. split; [|intros t [=]].
        exists (submitted st), []. rewrite app_nil_r.
        now repeat split; [|left].
      * cbn [batches outcome total submitted]. split.
        -- exists (submitted st), [batch_actions os_index (d :: b)].
           split; [reflexivity|]. split; [exact Hf|]. right.
           exists (batch_actions os_index (d :: b)). split; [reflexivity|].
           rewrite batch_actions_length.
           split; [cbn [length] in *; lia | now eexists].
        -- intros t [= <-]. now rewrite reported_snoc, Ht.
  - cbn [batches outcome]. split.
    + exists (submitted st), []. rewrite app_nil_r. now repeat split; [|left].
    + intros t [=].
Qed.


Lemma assign_id_valid_truthy d :
  valid d -> truthy (doc_get (assign_id d) "id") = true.
Proof.
  intros Hv. unfold assign_id.
  destruct (truthy (doc_get d "id")) eqn:Hid; [exact Hid|]. cbn [negb andb].
  destruct (truthy (doc_get d "url")) eqn:Hurl.
  - rewrite doc_get_set_eq. apply doc_id_truthy.
  - destruct (Hv "url"); [apply list_elem_of_further, list_elem_of_here|].
    now apply empty_or_absent_truthy.
Qed.

(** X6. The count a run returns is the sum of the success counts the store
    reported for the submissions.  Each submission holds one index action
    per document, for the configured index, whose [_id] is the [id] of the
    document submitted with it and is never empty: it was filled in from
    the url when the document had none. *)
Theorem run_count_is_reported (s : stream document) (batch_size t : Z) :
  let r := run_and_index utcnow os_index bulk store_error s batch_size in
  outcome r = Ok t ->
  t = reported bulk (batches r)
  /\ Forall (Forall (fun a => well_formed os_index a
                              /\ truthy (_id a) = true)) (batches r).
Proof.
  cbn zeta. intros Ht.
  split; [exact (proj2 (run_batches_and_count s batch_size) t Ht)|].
  destruct (run_log utcnow os_index bulk store_error s batch_size)
    as (kept & Hsub & _ & Hval & _).
  apply Forall_forall. intros b Hb. apply Forall_forall. intros a Ha.
  assert (a ∈ concat (batches
            (run_and_index utcnow os_index bulk store_error s batch_size)))
    as Hc.
  { apply list_elem_of_In, List.in_concat. exists b.
    split; now apply list_elem_of_In. }
  rewrite Hsub in Hc. unfold batch_actions in Hc.
  apply list_elem_of_fmap in Hc as (d & -> & Hd).
  split; [now repeat split|]. cbn [_id action_of].
  apply assign_id_valid_truthy. rewrite Forall_forall in Hval. now apply Hval.
Qed.

(** X7. What a run submits, read across the submissions in order, are the
    actions for the clean copies of the stream's documents in stream order,
    without those whose identifier (id if present, else url) occurred
    earlier in the stream, each with its id filled in from the url when it
    has none: the first occurrence is the one submitted, later ones are
    dropped whatever their content.  A run that returns has submitted all
    of them, an aborted run the first of them; and a run over valid
    documents returns when neither the source nor the store raises. *)
Theorem run_submits_first_occurrences (s : stream document)
    (batch_size : Z) :
  let r := run_and_index utcnow os_index bulk store_error s batch_size in
  let firsts :=
    batch_actions os_index (keep_first ∅ (cleaned utcnow 0 (items s))) in
  concat (batches r) `prefix_of` firsts
  /\ (forall t, outcome r = Ok t -> concat (batches r) = firsts)
  /\ (Forall valid (items s) -> raised s = None ->
      (forall acts, store_error acts = None) ->
      concat (batches r) = firsts).
Proof.
  cbn zeta.
  destruct (run_log utcnow os_index bulk store_error s batch_size)
    as (kept & Hsub & [rest Hpre] & _ & Hok).
  assert (forall t,
            outcome (run_and_index utcnow os_index bulk store_error s
                       batch_size) = Ok t ->
            concat (batches (run_and_index utcnow os_index bulk store_error s
                               batch_size))
            = batch_actions os_index
                (keep_first ∅ (cleaned utcnow 0 (items s)))) as Hret.
  { intros t Ht. destruct (Hok t Ht) as (<- & _ & _). exact Hsub. }
  split; [|split; [exact Hret|]].
  - rewrite Hsub, Hpre, batch_actions_app. now apply prefix_app_r.
  - intros Hv Hr Hup.
    destruct (loop_valid utcnow os_index bulk store_error Hup batch_size
                (items s) (raised s) 0 initial_state Hv) as (st & _ & Hl).
    rewrite Hr in Hl at 2.
    destruct (proj1 (run_finished utcnow os_index bulk store_error Hup
                       batch_size s st Hl)) as [t Ht].
    exact (Hret t Ht).
Qed.

End RunLogFacts.

Lemma run_count_is_reported_witness :
  let r := IngestionService.run_and_index Examples.clock "policy-documents"
             MoreExamples.accept_half Examples.store_up
             {| items := [Examples.doc_with_id; Examples.doc_without_id;
                          Examples.doc_with_id_again; MoreExamples.doc_umlaut];
                raised := None |} 2 in
  IngestionService.outcome r = Ok 1
  /\ length <$> IngestionService.batches r = [2%nat; 1%nat].
Proof.
  cbn zeta.
  assert (exists t, IngestionService.outcome
            (IngestionService.run_and_index Examples.clock "policy-documents"
               MoreExamples.accept_half Examples.store_up
               {| items := [Examples.doc_with_id; Examples.doc_without_id;
                            Examples.doc_with_id_again;
                            MoreExamples.doc_umlaut];
                  raised := None |} 2) = Ok t) as [t Ht]
    by (eexists; vm_compute; reflexivity).
  rewrite Ht.
  destruct (run_count_is_reported Examples.clock "policy-documents"
              MoreExamples.accept_half Examples.store_up _ 2 t Ht) as [-> _].
  vm_compute. split; reflexivity.
Defined.

Lemma run_submits_first_occurrences_witness :
  SearchService._id
  <$> concat (IngestionService.batches
                (IngestionService.run_and_index Examples.clock
                   "policy-documents" Examples.accept_all Examples.store_up
                   {| items := [Examples.doc_with_id; Examples.doc_without_id;
                                Examples.doc_with_id_again];
                      raised := None |} 2))
  = [VStr "42"; VStr "2bb570db24c0ec43125775086cc0ac791db18eb9"].
Proof.
  destruct (run_submits_first_occurrences Examples.clock "policy-documents"
              Examples.accept_all Examples.store_up
              {| items := [Examples.doc_with_id; Examples.doc_without_id;
                           Examples.doc_with_id_again];
                 raised := None |} 2) as (_ & _ & H).
  rewrite H.
  - vm_compute. reflexivity.
  - repeat constructor; apply valid_missing; reflexivity.
  - reflexivity.
  - reflexivity.
Defined.

(** ** More on validation *)

Section ValidationFacts.

Import SearchService IngestionService.

Lemma setdefault_lookup_eq k v (m : gmap string value) :
  setdefault k v m !! k = Some (default v (m !! k)).
Proof.
  unfold setdefault. destruct (m !! k) as [w|] eqn:E; cbn.
  - exact E.
  - apply lookup_insert_eq.
Qed.

Lemma setdefault_present k v (m : gmap string value) :
  is_Some (m !! k) -> setdefault k v m = m.
Proof. intros [w Hw]. unfold setdefault. now rewrite Hw. Qed.

(** The defaults fill in exactly the missing keys. *)
Lemma with_defaults_lookup_default now d k :
  fields (with_defaults now d) !! k
  = match fields d !! k with
    | Some v => Some v
    | None => if String.eqb k "language" then Some (VStr "de")
              else if String.eqb k "ingested_at" then Some (VStr (now +:+ "Z"))
              else None
    end.
Proof.
  unfold with_defaults, doc_setdefault. cbn [fields].
  destruct (String.eqb_spec k "ingested_at") as [->|Hi].
  - rewrite setdefault_lookup_eq, setdefault_lookup_ne by discriminate.
    now destruct (fields d !! "ingested_at").
  - rewrite setdefault_lookup_ne by congruence.
    destruct (String.eqb_spec k "language") as [->|Hl].
    + rewrite setdefault_lookup_eq. now destruct (fields d !! "language").
    + rewrite setdefault_lookup_ne by congruence.
      now destruct (fields d !! k).
Qed.

Lemma with_defaults_idem now now' d :
  with_defaults now' (with_defaults now d) = with_defaults now d.
Proof.
  unfold with_defaults at 1. unfold doc_setdefault. cbn [metadata].
  assert (is_Some (fields (with_defaults now d) !! "language")) as Hl.
  { rewrite with_defaults_lookup_default.
    destruct (fields d !! "language"); cbn; eauto. }
  assert (is_Some (fields (with_defaults now d) !! "ingested_at")) as Hi.
  { rewrite with_defaults_lookup_default.
    destruct (fields d !! "ingested_at"); cbn; eauto. }
  cbn [fields]. rewrite (setdefault_present "language") by exact Hl.
  rewrite (setdefault_present "ingested_at") by exact Hi.
  now destruct (with_defaults now d).
Qed.

(** X8. [validate_doc_shape] only adds: the document it returns has every
    field of the input with the same value (a language or ingestion time the
    input carries, even [None], is kept), the same metadata, and besides
    these only [language] = "de" and [ingested_at] = the current time with Z
    where the input had no such key.  Validating the result again, at any
    later time, returns it unchanged. *)
Theorem validate_doc_shape_only_adds (now now' : string) (doc out : document) :
  validate_doc_shape now doc = Ok out ->
  (forall k v, fields doc !! k = Some v -> fields out !! k = Some v)
  /\ (forall k, fields doc !! k = None ->
        fields out !! k
        = if String.eqb k "language" then Some (VStr "de")
          else if String.eqb k "ingested_at" then Some (VStr (now +:+ "Z"))
          else None)
  /\ metadata out = metadata doc
  /\ validate_doc_shape now' out = Ok out.
Proof.
  intros Hv. rewrite validate_doc_shape_cases in Hv.
  destruct (missing_fields doc) eqn:Hm; [|discriminate].
  injection Hv as <-. split; [|split; [|split]].
  - intros k v Hk. now rewrite with_defaults_lookup_default, Hk.
  - intros k Hk. now rewrite with_defaults_lookup_default, Hk.
  - reflexivity.
  - rewrite validate_doc_shape_cases, with_defaults_idem.
    assert (valid (with_defaults now doc)) as Hvalid
      by (apply valid_with_defaults, valid_missing, Hm).
    apply valid_missing in Hvalid. now rewrite Hvalid.
Qed.

End ValidationFacts.

Lemma validate_doc_shape_only_adds_witness :
  exists out,
    IngestionService.validate_doc_shape "2025-08-01T10:30:00"
      Examples.doc_with_id = Ok out
    /\ IngestionService.validate_doc_shape "2026-01-01T00:00:00" out = Ok out
    /\ SearchService.doc_get out "ingested_at" = VStr "2025-08-01T10:30:00Z".
Proof.
  eexists. split; [reflexivity|].
  destruct (validate_doc_shape_only_adds "2025-08-01T10:30:00"
              "2026-01-01T00:00:00" Examples.doc_with_id _ eq_refl)
    as (_ & _ & _ & H).
  split; [exact H | reflexivity].
Defined.

(** ** More on bulk submission *)

Section IndexDocumentsFacts.

Import SearchService.

Variable os_index : string.
Variable bulk : list action -> bulk_result.

Lemma gen_actions_lookup index docs :
  forall h l,
    l ∈ docs ->
    (gen_actions index docs h).1 !! l = Some (assign_id (h !!! l)).
Proof.
  induction docs as [|l0 docs IH]; intros h l Hl; [now apply elem_of_nil in Hl|].
  cbn [gen_actions].
  pose proof (gen_actions_spec index docs (<[l0 := assign_id (h !!! l0)]> h))
    as Hspec.
  specialize (IH (<[l0 := assign_id (h !!! l0)]> h) l).
  destruct (gen_actions index docs (<[l0 := assign_id (h !!! l0)]> h))
    as [h' acts].
  destruct Hspec as (_ & _ & Hout). cbn [fst] in *.
  destruct (decide (l ∈ docs)) as [Hd|Hd].
  - rewrite (IH Hd). f_equal. destruct (decide (l0 = l)) as [->|Hne].
    + rewrite lookup_total_insert_eq. apply assign_id_idem.
    + now rewrite lookup_total_insert_ne.
  - apply elem_of_cons in Hl as [->|?]; [|contradiction].
    rewrite (Hout l0 Hd). apply lookup_insert_eq.
Qed.

Lemma assign_id_url d : doc_get (assign_id d) "url" = doc_get d "url".
Proof.
  unfold assign_id.
  destruct (negb (truthy (doc_get d "id")) && truthy (doc_get d "url"));
    [|reflexivity].
  now rewrite doc_get_set_ne by discriminate.
Qed.

Lemma assign_id_truthy d :
  truthy (doc_get d "url") = true ->
  truthy (doc_get (assign_id d) "id") = true.
Proof.
  intros Hu. unfold assign_id. rewrite Hu.
  destruct (truthy (doc_get d "id")) eqn:E; cbn [negb andb]; [exact E|].
  rewrite doc_get_set_eq. apply doc_id_truthy.
Qed.

(** X9. Submitting the same list again changes nothing: after one call of
    [index_documents] a second call on the same objects leaves every object
    as it is and submits the same actions with the same store identifiers.
    An object with a non-empty url is never submitted with an empty or null
    [_id], and [_id] always equals the [id] field of the [_source]
    submitted with it. *)
Theorem index_documents_again (docs : list loc) (index_name : value)
    (h : heap) :
  let '(h1, acts1, _) := index_documents os_index bulk docs index_name h in
  let '(h2, acts2, _) := index_documents os_index bulk docs index_name h1 in
  h2 = h1 /\ acts2 = acts1
  /\ Forall (fun a => _id a = doc_get (_source a) "id"
                      /\ (truthy (doc_get (_source a) "url") = true ->
                          truthy (_id a) = true)) acts1.
Proof.
  unfold index_documents.
  set (index := py_str (py_or index_name (VStr os_index))).
  pose proof (gen_actions_spec index docs h) as H1.
  pose proof (gen_actions_lookup index docs h) as L1.
  destruct (gen_actions index docs h) as [h1 acts1]. cbn [fst] in L1.
  destruct H1 as (Ha1 & Hin1 & Hout1).
  pose proof (gen_actions_spec index docs h1) as H2.
  pose proof (gen_actions_lookup index docs h1) as L2.
  destruct (gen_actions index docs h1) as [h2 acts2]. cbn [fst] in L2.
  destruct H2 as (Ha2 & Hin2 & Hout2).
  split; [|split].
  - apply map_eq. intros l. destruct (decide (l ∈ docs)) as [Hl|Hl].
    + rewrite (L2 l Hl), (L1 l Hl), (Hin1 l Hl). f_equal. apply assign_id_idem.
    + apply Hout2, Hl.
  - rewrite Ha1, Ha2. apply list_fmap_ext. intros i l Hi.
    assert (l ∈ docs) as Hl by (eapply list_elem_of_lookup_2; exact Hi).
    now rewrite (Hin1 l Hl), assign_id_idem.
  - rewrite Ha1. apply Forall_fmap, Forall_forall. intros l _.
    unfold compose. cbn [_id _source action_of]. split; [reflexivity|].
    rewrite assign_id_url. apply assign_id_truthy.
Qed.

End IndexDocumentsFacts.

Lemma index_documents_again_witness :
  let '(h1, acts1, _) :=
    SearchService.index_documents "policy-documents" Examples.accept_all
      Examples.sample_docs VNone Examples.sample_heap in
  let '(h2, acts2, _) :=
    SearchService.index_documents "policy-documents" Examples.accept_all
      Examples.sample_docs VNone h1 in
  h2 = h1 /\ acts2 = acts1.
Proof.
  pose proof (index_documents_again "policy-documents" Examples.accept_all
                Examples.sample_docs VNone Examples.sample_heap) as H.
  destruct (SearchService.index_documents _ _ _ _ Examples.sample_heap)
    as [[h1 acts1] r1].
  destruct (SearchService.index_documents _ _ _ _ h1) as [[h2 acts2] r2].
  destruct H as (H1 & H2 & _). now split.
Defined.

(** ** More on the request body *)

Section RequestBody.

Import SearchService.

(** X10. Free text only decides the must clause and the highlighting.
    Without it (no query or the empty string) the must clause is a single
    match-all and no highlighting is requested; with it the must clause is a
    single bool query over four should clauses and the highlighting of
    content and title is requested.  Filters, offset, size, aggregations and
    the source fields of the body are the same for every query text. *)
Theorem search_body_query_modes (query query' : value)
    (sources doc_types : option (list string)) (date_from date_to : value)
    (page size : Z) :
  let body := build_body query sources doc_types date_from date_to page size in
  let body' := build_body query' sources doc_types date_from date_to page size in
  (truthy query = false ->
     jpath ["query"; "bool"; "must"] body
     = Some (JList [JDict [("match_all", JDict [])]])
     /\ jget "highlight" body = None)
  /\ (truthy query = true ->
      jpath ["query"; "bool"; "must"] body
      = Some (JList [JDict [("bool", JDict [
                ("should", JList (should_queries (py_str query)));
                ("minimum_should_match", JInt 1)])]])
      /\ length (should_queries (py_str query)) = 4%nat
      /\ jget "highlight" body = Some highlight_spec)
  /\ jpath ["query"; "bool"; "filter"] body
     = jpath ["query"; "bool"; "filter"] body'
  /\ Forall (fun k => jget k body = jget k body')
            ["from"; "size"; "aggs"; "_source"]
  /\ jget "from" body = Some (JInt ((page - 1) * size))
  /\ jget "size" body = Some (JInt size).
Proof.
  cbn zeta. unfold build_body, must_clauses.
  split; [|split; [|split; [|split; [|split]]]].
  - intros ->. split; reflexivity.
  - intros ->. repeat split; reflexivity.
  - destruct (truthy query), (truthy query'); reflexivity.
  - repeat constructor.
  - reflexivity.
  - reflexivity.
Qed.


End RequestBody.

Section RequestBodyWitnesses.

Import SearchService.

Lemma search_body_query_modes_witness :
  jget "highlight"
    (build_body (VStr "") (Some ["eu"]) None (VStr "2025-01-01") VNone 2 25)
  = None
  /\ jget "from"
       (build_body (VStr "") (Some ["eu"]) None (VStr "2025-01-01") VNone 2 25)
     = Some (JInt 25).
Proof.
  destruct (search_body_query_modes (VStr "") VNone (Some ["eu"]) None
              (VStr "2025-01-01") VNone 2 25) as (H & _ & _ & _ & Hfrom & _).
  destruct (H eq_refl) as [_ Hh]. split; [exact Hh | exact Hfrom].
Defined.


End RequestBodyWitnesses.

(** ** More on snippets *)

Section SnippetFacts.

Import SearchService.

(** X12. A shaped hit has no snippet exactly when the store highlighted
    nothing of content or title and the stored content is absent or empty;
    and a snippet taken from the stored content (no highlight) is never
    longer than 301 characters and starts like the content. *)
Theorem snippet_null_iff (h : raw_hit) :
  (snippet (shape_hit h) = None
   <-> no_fragment (hl_content h) /\ no_fragment (hl_title h)
       /\ (src_content h = None \/ src_content h = Some []))
  /\ (no_fragment (hl_content h) -> no_fragment (hl_title h) ->
      forall s, snippet (shape_hit h) = Some s ->
        (length s <= 301)%nat
        /\ take 300 s = take 300 (default [] (src_content h))).
Proof.
  unfold no_fragment. cbn [snippet shape_hit]. split.
  - unfold make_snippet. split.
    + destruct (hl_content h) as [[|f fs]|]; cbn [default]; try discriminate;
        (destruct (hl_title h) as [[|g gs]|]; cbn [default]; try discriminate);
        (destruct (src_content h) as [[|c cs]|]; cbn [text_truthy default];
         [| destruct (300 <? _); discriminate |]); intros _; tauto.
    + intros ([-> | ->] & [-> | ->] & [-> | ->]); reflexivity.
  - intros Hc Ht s Hs.
    assert (make_snippet h
            = match src_content h with
              | Some (c :: cs) =>
                  if 300 <? Z.of_nat (length (c :: cs))
                  then Some (take 300 (c :: cs) ++ ellipsis)
                  else Some (c :: cs)
              | _ => None
              end) as Hm.
    { unfold make_snippet.
      destruct Hc as [-> | ->], Ht as [-> | ->];
        destruct (src_content h) as [[|c cs]|]; reflexivity. }
    rewrite Hm in Hs.
    destruct (src_content h) as [[|c cs]|]; try discriminate.
    change (default [] (Some (c :: cs))) with (c :: cs).
    destruct (Z.ltb_spec 300 (Z.of_nat (length (c :: cs)))) as [Hlt|Hge].
    + assert (take 300 (c :: cs) ++ ellipsis = s) as <- by congruence.
      split.
      * rewrite length_app, length_take. cbn [length ellipsis]. lia.
      * rewrite take_app_le by (rewrite length_take; lia). apply take_take.
    + assert (c :: cs = s) as <- by congruence.
      split; [lia | reflexivity].
Qed.

End SnippetFacts.

Lemma snippet_null_iff_witness :
  exists s, SearchService.snippet (SearchService.shape_hit Examples.long_hit)
            = Some s
            /\ (length s <= 301)%nat.
Proof.
  eexists. split; [reflexivity|].
  destruct (snippet_null_iff Examples.long_hit) as [_ H].
  destruct (H (or_introl eq_refl) (or_intror eq_refl) _ eq_refl) as [Hlen _].
  exact Hlen.
Defined.

(** ** Download urls and debate dates *)

Section DownloadUrls.

Import EuUrls.

Lemma append_assoc (a b c : string) : (a +:+ b) +:+ c = a +:+ (b +:+ c).
Proof.
  induction a as [|x a IH]; [reflexivity|].
  change (String x ((a +:+ b) +:+ c) = String x (a +:+ (b +:+ c))).
  now f_equal.
Qed.

Lemma parse_identifier_ok s : exists meta, EuApi.parse_identifier s = Ok meta.
Proof.
  unfold EuApi.parse_identifier.
  destruct (split "-" s) as [|k [|t rest]]; [now eexists | now eexists|].
  cbn -[String.eqb join slice].
  destruct (String.eqb k "CRE"); [now eexists|].
  destruct rest as [|y [|n rest]]; now eexists.
Qed.

Variable upper : string -> string.

(** X13. [build_download_url] never raises.  For an identifier of exactly
    four hyphen-delimited segments whose kind tag is in upper case and is
    not CRE, the url is the document base, the identifier itself, [-ASW]
    for the answer to a written question (kind E), the language and [.pdf];
    the source name is the kind, or E-ASW for such an answer.  For an
    identifier of five segments with kind CRE the url is the base, the
    identifier, the language and [.pdf].  An identifier without a hyphen
    gives a url that reads None for term, year and number. *)
Theorem build_download_url_embeds_identifier (details : WorkDetails)
    (lang : string) :
  (exists url src, build_download_url upper details lang = Ok (url, src))
  /\ (forall k t y n,
        split "-" (identifier details) = [k; t; y; n] ->
        upper k = k -> k <> "CRE" ->
        build_download_url upper details lang
        = Ok (doceo +:+ identifier details
                +:+ (if String.eqb k "E" && is_answer details
                     then "-ASW" else "")
                +:+ "_" +:+ lang +:+ ".pdf",
              if String.eqb k "E" && is_answer details then "E-ASW" else k))
  /\ (forall t y m d,
        split "-" (identifier details) = ["CRE"; t; y; m; d] ->
        upper "CRE" = "CRE" ->
        build_download_url upper details lang
        = Ok (doceo +:+ identifier details +:+ "_" +:+ lang +:+ ".pdf", "CRE"))
  /\ (occurs "-" (identifier details) = false ->
      upper "" = "" ->
      build_download_url upper details lang
      = Ok (doceo +:+ "-None-None-None_" +:+ lang +:+ ".pdf", "")).
Proof.
  split; [|split; [|split]].
  - unfold build_download_url.
    destruct (parse_identifier_ok (identifier details)) as (meta & ->).
    cbn [mbind result_bind bind].
    destruct (String.eqb _ "CRE"); [now eexists _, _|].
    destruct (String.eqb _ "E" && is_answer details); now eexists _, _.
  - intros k t y n Hs Hup Hk. unfold build_download_url.
    rewrite <- (join_split "-" (identifier details)) at 2.
    unfold EuApi.parse_identifier. rewrite Hs.
    cbn -[String.eqb String.append].
    destruct (String.eqb_spec k "CRE") as [->|_]; [now destruct Hk|].
    cbn -[String.eqb String.append]. rewrite Hup.
    destruct (String.eqb_spec k "CRE") as [->|_]; [now destruct Hk|].
    destruct (String.eqb k "E" && is_answer details);
      cbn -[String.append doceo]; now rewrite !append_assoc.
  - intros t y m d Hs Hup. unfold build_download_url.
    rewrite <- (join_split "-" (identifier details)) at 2.
    unfold EuApi.parse_identifier. rewrite Hs.
    cbn -[String.append doceo]. rewrite Hup.
    cbn -[String.append doceo]. now rewrite !append_assoc.
  - intros Hocc Hup. unfold build_download_url, EuApi.parse_identifier.
    assert (split "-" (identifier details) = [identifier details]) as ->.
    { induction (identifier details) as [|c s IH]; [reflexivity|].
      cbn in Hocc |- *. apply orb_false_iff in Hocc as [-> Hocc].
      now rewrite (IH Hocc). }
    cbn -[String.append doceo]. rewrite Hup. reflexivity.
Qed.

End DownloadUrls.

Lemma build_download_url_embeds_identifier_witness :
  EuUrls.build_download_url EuUrls.ascii_upper EuUrls.report_details "EN"
  = Ok ("https://www.europarl.europa.eu/doceo/document/A-10-2024-0001_EN.pdf",
        "A")
  /\ EuUrls.build_download_url EuUrls.ascii_upper EuUrls.answer_details "EN"
     = Ok ("https://www.europarl.europa.eu/doceo/document/E-10-2024-001357-ASW_EN.pdf",
           "E-ASW").
Proof.
  split.
  - destruct (build_download_url_embeds_identifier EuUrls.ascii_upper
                EuUrls.report_details "EN") as (_ & H & _).
    rewrite (H "A" "10" "2024" "0001" eq_refl eq_refl ltac:(discriminate)).
    reflexivity.
  - destruct (build_download_url_embeds_identifier EuUrls.ascii_upper
                EuUrls.answer_details "EN") as (_ & H & _).
    rewrite (H "E" "10" "2024" "001357" eq_refl eq_refl ltac:(discriminate)).
    reflexivity.
Defined.

Section DebateDates.

Import EuApi DateShape.

(** X14. The publication date [iter_cre] derives from a debate identifier
    agrees with [parse_identifier]: for an identifier parsed with kind CRE
    it is the parsed date followed by T00:00:00Z, and null when the parsed
    date is null; when the parsed date has the shape YYYY-MM-DD the result
    is a UTC instant. *)
Theorem cre_publication_date_agrees (identifier : string)
    (meta : identifier_meta) :
  parse_identifier identifier = Ok meta ->
  kind meta = Some "CRE" ->
  EuClient.cre_publication_date identifier
  = match date meta with
    | Some d => VStr (d +:+ "T00:00:00Z")
    | None => VNone
    end
  /\ (forall d, date meta = Some d -> is_date_only d = true ->
        exists s, EuClient.cre_publication_date identifier = VStr s
                  /\ is_utc_instant s = true).
Proof.
  unfold parse_identifier, EuClient.cre_publication_date.
  destruct (split "-" identifier) as [|k [|t rest]];
    [intros [= <-]; discriminate | intros [= <-]; discriminate|].
  cbn -[String.eqb join slice String.append].
  destruct (String.eqb_spec k "CRE") as [->|Hk].
  - intros [= <-] _. cbn [date].
    destruct rest as [|y [|m [|d rest]]]; cbn -[String.append];
      try (split; [reflexivity | intros ? [=]]).
    assert (y +:+ "-" +:+ m +:+ "-" +:+ d +:+ "T00:00:00Z"
            = (y +:+ "-" +:+ m +:+ "-" +:+ d) +:+ "T00:00:00Z") as ->.
    { now rewrite !append_assoc. }
    split; [reflexivity|]. intros d' [= <-] Hd. eexists. split; [reflexivity|].
    now apply date_only_midnight_is_utc_instant.
  - destruct rest as [|y [|n rest]]; cbn; intros [= <-] [= Hk']; congruence.
Qed.

End DebateDates.

Lemma cre_publication_date_agrees_witness :
  EuClient.cre_publication_date "CRE-10-2025-01-20"
  = VStr "2025-01-20T00:00:00Z".
Proof.
  destruct (cre_publication_date_agrees "CRE-10-2025-01-20" _ eq_refl eq_refl)
    as [H _].
  exact H.
Defined.

(** ** The daily feed *)

Section DailyFeed.

Import SearchService Scripts Backfill Daily.

Lemma string_compare_refl s : String.compare s s = Eq.
Proof.
  induction s as [|c s IH]; cbn; [reflexivity|].
  unfold Ascii.compare. now rewrite N.compare_refl.
Qed.

(** The gate is 0 exactly for a record without date or of the target day. *)
Lemma day_gate_zero target_date d :
  day_gate target_date d = 0
  <-> String.substring 0 10 (py_str (py_or (get d "datum") (VStr ""))) = ""
      \/ String.substring 0 10 (py_str (py_or (get d "datum") (VStr "")))
         = target_date.
Proof.
  unfold day_gate.
  set (dstr := String.substring 0 10 _).
  destruct (String.eqb_spec dstr "") as [E|Hne];
    [split; [now left | reflexivity]|].
  unfold String.ltb. rewrite (String.compare_antisym target_date dstr).
  destruct (String.compare dstr target_date) eqn:E; cbn.
  - apply String.compare_eq_iff in E. split; [now right | reflexivity].
  - split; [discriminate|]. intros [H|H]; [contradiction|].
    rewrite H, string_compare_refl in E. discriminate.
  - split; [discriminate|]. intros [H|H]; [contradiction|].
    rewrite H, string_compare_refl in E. discriminate.
Qed.

Lemma of_the_day_mono target_date recs recs' docs :
  (forall rec, rec ∈ recs -> rec ∈ recs') ->
  Forall (of_the_day target_date recs) docs ->
  Forall (of_the_day target_date recs') docs.
Proof.
  intros Hsub Hdocs. eapply Forall_impl; [exact Hdocs|].
  intros d (rec & t' & base & Hin & H).
  exists rec, t', base. split; [now apply Hsub | exact H].
Qed.

(** One loop: the documents come from records that pass the gate, the
    counter counts them, and the loop only goes on below the cap. *)
Lemma day_stream_spec target_date t max_docs recs ending :
  forall produced,
    let '(docs, p, how) :=
      day_stream target_date t max_docs produced recs ending in
    Forall (of_the_day target_date recs) docs
    /\ p = produced + Z.of_nat (length docs)
    /\ ((length docs <= 1)%nat \/ p <= max_docs)
    /\ (how = GoOn -> docs = [] \/ p < max_docs).
Proof.
  induction recs as [|doc rest IH]; intros produced; cbn [day_stream].
  - repeat split; [constructor | cbn; lia | left; cbn; lia | now left].
  - destruct (0 <? day_gate target_date doc) eqn:Hnew.
    { specialize (IH produced).
      destruct (day_stream target_date t max_docs produced rest ending)
        as [[docs p] how].
      destruct IH as (H1 & H2 & H3 & H4). repeat split; auto.
      eapply of_the_day_mono; [|exact H1]. intros rec Hrec. now right. }
    destruct (day_gate target_date doc <? 0) eqn:Hold.
    { repeat split; [constructor | cbn; lia | left; cbn; lia | now left]. }
    assert (day_gate target_date doc = 0) as Hgate by lia.
    destruct (normalize_for_index doc) as [base0|e] eqn:Hn;
      cbn [mbind result_bind bind];
      [|repeat split; [constructor | cbn; lia | left; cbn; lia | now left]].
    destruct (set_document_type t base0) as [base|e] eqn:Ht;
      [|repeat split; [constructor | cbn; lia | left; cbn; lia | now left]].
    assert (of_the_day target_date (doc :: rest) base) as Hbase.
    { exists doc, t, base0. split; [left|]. now repeat split. }
    destruct (Z.leb_spec max_docs (produced + 1)) as [Hcap|Hcap].
    { split; [constructor; [exact Hbase | constructor]|].
      split; [cbn; lia|]. split; [left; cbn; lia | discriminate]. }
    specialize (IH (produced + 1)).
    destruct (day_stream target_date t max_docs (produced + 1) rest ending)
      as [[docs p] how].
    destruct IH as (H1 & H2 & H3 & H4).
    split.
    { constructor; [exact Hbase|].
      eapply of_the_day_mono; [|exact H1]. intros rec Hrec. now right. }
    split; [cbn [length]; lia|]. split.
    + destruct docs as [|d docs]; [left; cbn; lia|].
      right. destruct H3 as [H3|H3]; [|exact H3]. cbn [length] in *. lia.
    + intros Hg. right. destruct (H4 Hg) as [-> | Hp]; [cbn in H2; lia | exact Hp].
Qed.

(** X15. [iter_newest_for_day] yields only documents made of records of the
    target day (the first ten characters of [datum] equal the target date)
    or without date; it yields at most [max_docs] documents, and at most one
    when [max_docs] is below 1 (the cap is tested after the yield); this
    holds however the client streams end, and without an API key. *)
Theorem iter_newest_for_day_gate_and_cap (api_key : value)
    (target_date : string) (max_docs : Z)
    (plenar drucksache : stream (gmap string value)) :
  let s := iter_newest_for_day api_key target_date max_docs plenar
             drucksache in
  Forall (of_the_day target_date (items plenar ++ items drucksache)) (items s)
  /\ Z.of_nat (length (items s)) <= Z.max max_docs 1.
Proof.
  cbn zeta. unfold iter_newest_for_day.
  destruct (DipClient.new_client api_key) as [_|e0];
    [|split; [constructor | cbn; lia]].
  pose proof (day_stream_spec target_date "plenarprotokoll" max_docs
                (items plenar) (raised plenar) 0) as H1.
  destruct (day_stream target_date "plenarprotokoll" max_docs 0 (items plenar)
              (raised plenar)) as [[a p] how].
  destruct H1 as (Ha & Hp & Hbound & Hgo).
  assert (Forall (of_the_day target_date (items plenar ++ items drucksache)) a)
    as Ha'.
  { eapply of_the_day_mono; [|exact Ha]. intros rec Hrec.
    apply elem_of_app. now left. }
  destruct how as [| |e]; cbn [items]; [|split; [exact Ha' | lia]..].
  pose proof (day_stream_spec target_date "drucksache" max_docs
                (items drucksache) (raised drucksache) p) as H2.
  destruct (day_stream target_date "drucksache" max_docs p (items drucksache)
              (raised drucksache)) as [[b q] how'].
  destruct H2 as (Hb & Hq & Hbound2 & _). cbn [items]. split.
  - apply Forall_app. split; [exact Ha'|].
    eapply of_the_day_mono; [|exact Hb]. intros rec Hrec.
    apply elem_of_app. now right.
  - rewrite length_app.
    destruct (Hgo eq_refl) as [-> | Hlt]; cbn [length] in *; lia.
Qed.

End DailyFeed.

Lemma day_gate_examples :
  Daily.day_gate "2025-08-01" Daily.newer_record = 1
  /\ Daily.day_gate "2025-08-01" Examples.dip_record_day = 0
  /\ Daily.day_gate "2025-08-01" Examples.dip_record_naive = 0
  /\ Daily.day_gate "2025-08-01" Daily.older_record = -1.
Proof. vm_compute. repeat split. Qed.

Section DailyFeedStop.

Import SearchService Scripts Backfill Daily.

(** X16. The scan of a stream stops at the first record older than the
    target day it reads: whatever follows that record in the stream, and
    however the stream ends after it, has no influence on what is yielded
    (also records of the target day that come after it are not yielded). *)
Theorem day_stream_stops_at_older (target_date t : string) (max_docs : Z)
    (pre post : list (gmap string value)) (old : gmap string value)
    (produced : Z) (ending ending' : option exn) :
  day_gate target_date old = -1 ->
  day_stream target_date t max_docs produced (pre ++ old :: post) ending
  = day_stream target_date t max_docs produced (pre ++ [old]) ending'.
Proof.
  intros Hold. revert produced.
  induction pre as [|doc pre IH]; intros produced; cbn [app day_stream].
  - now rewrite Hold.
  - destruct (0 <? day_gate target_date doc); [apply IH|].
    destruct (day_gate target_date doc <? 0); [reflexivity|].
    destruct (base ← normalize_for_index doc; set_document_type t base)
      as [base|e]; [|reflexivity].
    destruct (max_docs <=? produced + 1); [reflexivity|].
    now rewrite IH.
Qed.

End DailyFeedStop.

Lemma day_stream_stops_at_older_witness :
  Daily.day_stream "2025-08-01" "plenarprotokoll" 2000 0
    ([Daily.newer_record; Examples.dip_record_day]
     ++ Daily.older_record :: [Examples.dip_record_day])
    (Some (HTTPError 503))
  = Daily.day_stream "2025-08-01" "plenarprotokoll" 2000 0
      ([Daily.newer_record; Examples.dip_record_day] ++ [Daily.older_record])
      None.
Proof.
  apply (day_stream_stops_at_older "2025-08-01" "plenarprotokoll" 2000
           [Daily.newer_record; Examples.dip_record_day]
           [Examples.dip_record_day] Daily.older_record 0
           (Some (HTTPError 503)) None).
  reflexivity.
Defined.

(** ** Documents of the EU client *)

Section EuDocumentFacts.

Import SearchService IngestionService EuDocuments.

Lemma hex_digit_is_hex x :
  0 <= x < 16 -> is_hex_char (Sha1.hex_digit x) = true.
Proof.
  intros Hx.
  assert (x = 0 \/ x = 1 \/ x = 2 \/ x = 3 \/ x = 4 \/ x = 5 \/ x = 6
          \/ x = 7 \/ x = 8 \/ x = 9 \/ x = 10 \/ x = 11 \/ x = 12
          \/ x = 13 \/ x = 14 \/ x = 15) as H by lia.
  repeat (destruct H as [->|H]; [reflexivity|]). now subst.
Qed.

Lemma land_15_range y : 0 <= Z.land y 15 < 16.
Proof.
  change 15 with (Z.ones 4). rewrite Z.land_ones by lia.
  apply Z.mod_pos_bound. lia.
Qed.

Lemma hex_word_all_hex x : all_hex (Sha1.hex_word x) = true.
Proof.
  unfold Sha1.hex_word. cbn [seq map string_of_list_ascii all_hex].
  now rewrite !hex_digit_is_hex by apply land_15_range.
Qed.

Lemma all_hex_append a b :
  all_hex a = true -> all_hex b = true -> all_hex (a +:+ b) = true.
Proof.
  intros Ha Hb. induction a as [|c a IH]; [exact Hb|].
  cbn [all_hex] in Ha. apply andb_prop in Ha as [Hc Ha].
  change (all_hex (String c (a +:+ b)) = true). cbn [all_hex].
  now rewrite Hc, IH.
Qed.

(** X17. The store identifier computed from a url is always a string of 40
    characters, each a digit or a letter a-f, whatever the url. *)
Theorem doc_id_is_forty_hex_digits (url : string) :
  String.length (_doc_id url) = 40%nat /\ all_hex (_doc_id url) = true.
Proof.
  split; [reflexivity|]. unfold _doc_id, Sha1.hexdigest.
  repeat apply all_hex_append; apply hex_word_all_hex.
Qed.

Lemma eu_document_lookup title_en src_name pub_date url text language :
  let d := eu_document title_en src_name pub_date url text language in
  doc_get d "id" = VStr (_doc_id url)
  /\ fields d !! "source" = Some (VStr "eu")
  /\ fields d !! "url" = Some (VStr url)
  /\ fields d !! "content" = Some (py_or text (VStr "")).
Proof.
  cbn zeta. unfold eu_document, doc_get, get.
  cbn [fields list_to_map foldr uncurry fst snd].
  repeat split;
    rewrite ?lookup_insert_ne by discriminate; now rewrite lookup_insert_eq.
Qed.

(** X18. A document of the EU client passes validation exactly when text
    was extracted for it: with no text, or an empty one, its content is the
    empty string and [validate_doc_shape] raises, naming content as the one
    missing field (which ends the whole run).  Its id is the digest of its
    url, the one [index_documents] would give the same document arriving
    without id. *)
Theorem eu_document_needs_text (now : string) (title_en : value)
    (src_name : string) (pub_date : value) (url : string) (text : value)
    (language : string) :
  url <> "" ->
  let d := eu_document title_en src_name pub_date url text language in
  (truthy text = true -> validate_doc_shape now d = Ok (with_defaults now d))
  /\ (truthy text = false ->
      validate_doc_shape now d
      = Raise (ValueError "Missing required fields: ['content']"))
  /\ doc_get (assign_id (without_id d)) "id" = doc_get d "id"
  /\ assign_id d = d.
Proof.
  intros Hurl. cbn zeta.
  destruct (eu_document_lookup title_en src_name pub_date url text language)
    as (Hid & Hsrc & Hu & Hc).
  set (d := eu_document title_en src_name pub_date url text language) in *.
  assert (truthy (VStr url) = true) as Htu
    by (cbn; now destruct (String.eqb_spec url "")).
  assert (missing_fields d
          = if truthy text then [] else ["content"]) as Hm.
  { unfold missing_fields, required_fields. cbn [List.filter].
    rewrite (bool_decide_eq_false_2 (empty_or_absent d "source")),
            (bool_decide_eq_false_2 (empty_or_absent d "url")).
    - destruct (truthy text) eqn:Ht.
      + rewrite bool_decide_eq_false_2; [reflexivity|].
        rewrite empty_or_absent_truthy. unfold doc_get, get. rewrite Hc.
        cbn [default from_option id]. unfold py_or. rewrite Ht. cbn iota.
        congruence.
      + rewrite bool_decide_eq_true_2; [reflexivity|].
        unfold empty_or_absent. rewrite Hc. unfold py_or. rewrite Ht.
        now right; right.
    - rewrite empty_or_absent_truthy. unfold doc_get, get. rewrite Hu.
      cbn [default from_option id]. congruence.
    - unfold empty_or_absent. rewrite Hsrc.
      intros [H|[H|H]]; discriminate. }
  split; [|split; [|split]].
  - intros Ht. rewrite validate_doc_shape_cases, Hm, Ht. reflexivity.
  - intros Ht. rewrite validate_doc_shape_cases, Hm, Ht. reflexivity.
  - assert (doc_get (without_id d) "id" = VNone) as Hwid.
    { unfold doc_get, get, without_id. cbn [fields].
      now rewrite lookup_delete_eq. }
    assert (doc_get (without_id d) "url" = VStr url) as Hwurl.
    { unfold doc_get, get, without_id. cbn [fields].
      now rewrite lookup_delete_ne, Hu by discriminate. }
    unfold assign_id. rewrite Hwid, Hwurl, Htu. cbn [truthy negb andb py_str].
    now rewrite doc_get_set_eq, Hid.
  - unfold assign_id. rewrite Hid, doc_id_truthy. reflexivity.
Qed.

End EuDocumentFacts.

Lemma eu_document_needs_text_witness :
  IngestionService.validate_doc_shape "2025-08-01T10:30:00"
    (EuDocuments.eu_document VNone "CRE" (VStr "2025-01-20T00:00:00Z")
       "https://www.europarl.europa.eu/doceo/document/CRE-10-2025-01-20_EN.pdf"
       VNone "mixed")
  = Raise (ValueError "Missing required fields: ['content']").
Proof.
  destruct (eu_document_needs_text "2025-08-01T10:30:00" VNone "CRE"
              (VStr "2025-01-20T00:00:00Z")
              "https://www.europarl.europa.eu/doceo/document/CRE-10-2025-01-20_EN.pdf"
              VNone "mixed") as (_ & H & _).
  - discriminate.
  - exact (H eq_refl).
Defined.

(** ** Index administration *)

Section IndexAdminFacts.

Import SearchService IndexAdmin.

(** X19. [ensure_index] creates the index only when it is absent and never
    touches an existing one (its settings and mappings stay as they were
    created, whatever the code would create now); other indices are
    untouched and a second call changes nothing.  [recreate_index] leaves
    the configured index with exactly the current settings and mappings,
    whatever it held before, and touches no other index. *)
Theorem ensure_index_never_recreates (os_index : string) (index_name : value)
    (store : gmap string json) :
  let index := py_str (py_or index_name (VStr os_index)) in
  let store' := ensure_index os_index index_name store in
  (forall body, store !! index = Some body -> store' = store)
  /\ (store !! index = None -> store' !! index = Some index_body)
  /\ (forall i, i <> index -> store' !! i = store !! i)
  /\ ensure_index os_index index_name store' = store'
  /\ recreate_index os_index store !! os_index = Some index_body
  /\ (forall i, i <> os_index -> recreate_index os_index store !! i = store !! i).
Proof.
  cbn zeta. unfold recreate_index, ensure_index.
  cbn [py_or truthy py_str].
  set (index := py_str (py_or index_name (VStr os_index))).
  split; [|split; [|split; [|split; [|split]]]].
  - intros body Hb. rewrite bool_decide_eq_true_2; [reflexivity | now exists body].
  - intros Hn. rewrite bool_decide_eq_false_2; [apply lookup_insert_eq|].
    rewrite Hn. now intros [? ?].
  - intros i Hi. destruct (bool_decide (is_Some (store !! index)));
      [reflexivity | now rewrite lookup_insert_ne].
  - destruct (bool_decide (is_Some (store !! index))) eqn:E.
    + now rewrite E.
    + rewrite bool_decide_eq_true_2; [reflexivity|].
      rewrite lookup_insert_eq. now eexists.
  - destruct (decide (is_Some (store !! os_index))) as [Hs|Hs].
    + rewrite (bool_decide_eq_true_2 _ Hs).
      rewrite bool_decide_eq_false_2; [apply lookup_insert_eq|].
      rewrite lookup_delete_eq. now intros [? ?].
    + rewrite !(bool_decide_eq_false_2 _ Hs). apply lookup_insert_eq.
  - intros i Hi. destruct (decide (is_Some (store !! os_index))) as [Hs|Hs].
    + rewrite (bool_decide_eq_true_2 _ Hs).
      rewrite bool_decide_eq_false_2;
        [now rewrite lookup_insert_ne, lookup_delete_ne|].
      rewrite lookup_delete_eq. now intros [? ?].
    + rewrite !(bool_decide_eq_false_2 _ Hs). now rewrite lookup_insert_ne.
Qed.

End IndexAdminFacts.

Lemma ensure_index_never_recreates_witness :
  IndexAdmin.ensure_index "protocols-v1" VNone
    {[ "protocols-v1" := SearchService.JDict [] ]}
  = {[ "protocols-v1" := SearchService.JDict [] ]}
  /\ IndexAdmin.recreate_index "protocols-v1"
       {[ "protocols-v1" := SearchService.JDict [] ]} !! "protocols-v1"
     = Some IndexAdmin.index_body.
Proof.
  destruct (ensure_index_never_recreates "protocols-v1" VNone
              {[ "protocols-v1" := SearchService.JDict [] ]})
    as (H & _ & _ & _ & Hr & _).
  split; [exact (H (SearchService.JDict []) eq_refl) | exact Hr].
Defined.

(** ** The listing of work identifiers *)

Section EuListingFacts.

Import EuListing.

Variable responses : nat -> page.

Example int_str_examples :
  int_str 10 = "10" /\ int_str 0 = "0" /\ int_str (-3) = "-3".
Proof. repeat split. Qed.

Lemma term_matches_of_term t ident :
  term_matches (Some t) ident = true -> of_term t ident.
Proof.
  unfold term_matches, of_term. rewrite !orb_true_iff.
  intros [[[H|H]|H]|H].
  - exists "A". split; [apply list_elem_of_here | exact H].
  - exists "TA". split; [apply list_elem_of_further, list_elem_of_here | exact H].
  - exists "E". split; [do 2 apply list_elem_of_further; apply list_elem_of_here
                       | exact H].
  - exists "CRE". split; [do 3 apply list_elem_of_further; apply list_elem_of_here
                         | exact H].
Qed.

Lemma page_stubs_of_term t items :
  Forall (fun st => of_term t (identifier st)) (page_stubs (Some t) items).
Proof.
  unfold page_stubs. apply Forall_forall. intros st Hst.
  apply list_elem_of_In, List.filter_In in Hst as [_ H].
  now apply term_matches_of_term.
Qed.

Lemma yielded_of_yields (stubs : list WorkStub) :
  omap (fun ev => match ev with Yield st => Some st | Request _ _ _ => None end)
       (Yield <$> stubs) = stubs.
Proof. induction stubs as [|st stubs IH]; [reflexivity|]. cbn. now rewrite IH. Qed.

Lemma offsets_of_yields (stubs : list WorkStub) :
  omap (fun ev => match ev with Request _ o _ => Some o | Yield _ => None end)
       (Yield <$> stubs) = [].
Proof. induction stubs as [|st stubs IH]; [reflexivity | exact IH]. Qed.

Lemma yielded_step q o l stubs r :
  yielded {| events := Request q o l :: (Yield <$> stubs) ++ events r;
             final := final r |}
  = stubs ++ yielded r.
Proof.
  unfold yielded. cbn [events].
  change (Request q o l :: (Yield <$> stubs) ++ events r)
    with ([Request q o l] ++ (Yield <$> stubs) ++ events r).
  now rewrite !omap_app, yielded_of_yields.
Qed.

Lemma offsets_step q o l stubs r :
  offsets {| events := Request q o l :: (Yield <$> stubs) ++ events r;
             final := final r |}
  = o :: offsets r.
Proof.
  unfold offsets. cbn [events].
  change (Request q o l :: (Yield <$> stubs) ++ events r)
    with ([Request q o l] ++ (Yield <$> stubs) ++ events r).
  now rewrite !omap_app, offsets_of_yields.
Qed.

Lemma yielded_last q o l stubs st :
  yielded {| events := Request q o l :: (Yield <$> stubs); final := st |}
  = stubs.
Proof.
  unfold yielded. cbn [events].
  change (Request q o l :: (Yield <$> stubs))
    with ([Request q o l] ++ (Yield <$> stubs)).
  now rewrite omap_app, yielded_of_yields.
Qed.

Lemma offsets_last q o l stubs st :
  offsets {| events := Request q o l :: (Yield <$> stubs); final := st |}
  = [o].
Proof.
  unfold offsets. cbn [events].
  change (Request q o l :: (Yield <$> stubs))
    with ([Request q o l] ++ (Yield <$> stubs)).
  now rewrite omap_app, offsets_of_yields.
Qed.

(** One turn of the loop, by cases. *)
Lemma list_loop_step query_kind term page_limit max_pages fuel n offset pages :
  list_loop responses query_kind term page_limit max_pages (S fuel) n offset
    pages
  = match page_items (responses n) with
    | Raise e => {| events := [Request query_kind offset page_limit];
                    final := Raised e |}
    | Ok [] => {| events := [Request query_kind offset page_limit];
                  final := Returned |}
    | Ok (it :: items) =>
        if match max_pages with
           | Some m => m <=? pages + 1
           | None => false
           end
        then {| events := Request query_kind offset page_limit
                          :: (Yield <$> page_stubs term (it :: items));
                final := Returned |}
        else
          let r := list_loop responses query_kind term page_limit max_pages
                     fuel (S n) (offset + page_limit) (pages + 1) in
          {| events := Request query_kind offset page_limit
                       :: (Yield <$> page_stubs term (it :: items))
                          ++ events r;
             final := final r |}
    end.
Proof.
  cbn [list_loop].
  destruct (page_items (responses n)) as [[|it items]|e]; reflexivity.
Qed.

(** The loop from request [n] on: the stubs pass the term filter and the
    offsets advance by the page limit. *)
Lemma list_loop_spec query_kind term page_limit max_pages fuel :
  forall n offset pages,
    let r := list_loop responses query_kind term page_limit max_pages fuel n
               offset pages in
    Forall (fun st => term_matches term (identifier st) = true) (yielded r)
    /\ offsets r
       = (fun k => offset + Z.of_nat k * page_limit)
         <$> seq 0 (length (offsets r)).
Proof.
  induction fuel as [|fuel IH]; intros n offset pages; cbn zeta.
  - split; [constructor | reflexivity].
  - rewrite list_loop_step.
    destruct (page_items (responses n)) as [[|it items]|e];
      [split; [constructor | cbn; f_equal; lia] |
      | split; [constructor | cbn; f_equal; lia]].
    assert (Forall (fun st => term_matches term (identifier st) = true)
                   (page_stubs term (it :: items))) as Hpage.
    { apply Forall_forall. intros st Hst. unfold page_stubs in Hst.
      now apply list_elem_of_In, List.filter_In in Hst as [_ H]. }
    destruct (match max_pages with Some m => m <=? pages + 1 | None => false end).
    + rewrite yielded_last, offsets_last.
      split; [exact Hpage | cbn; f_equal; lia].
    + cbn zeta. rewrite yielded_step, offsets_step.
      destruct (IH (S n) (offset + page_limit) (pages + 1)) as [Hy Ho].
      split; [apply Forall_app; now split|].
      rewrite Ho at 1. cbn [length seq fmap list_fmap]. f_equal; [lia|].
      rewrite <- fmap_S_seq, <- list_fmap_compose.
      apply list_fmap_ext. intros i k _. cbn. lia.
Qed.

(** With a page cap the loop ends within the pages that are left. *)
Lemma list_loop_capped query_kind term page_limit m fuel :
  forall n offset pages,
    (Z.to_nat (Z.max (m - pages) 1) <= fuel)%nat ->
    let r := list_loop responses query_kind term page_limit (Some m) fuel n
               offset pages in
    final r <> Running
    /\ (length (offsets r) <= Z.to_nat (Z.max (m - pages) 1))%nat.
Proof.
  induction fuel as [|fuel IH]; intros n offset pages Hfuel; cbn zeta; [lia|].
  rewrite list_loop_step.
  destruct (page_items (responses n)) as [[|it items]|e];
    [split; [discriminate | cbn; lia] | | split; [discriminate | cbn; lia]].
  destruct (Z.leb_spec m (pages + 1)) as [Hcap|Hcap].
  - rewrite offsets_last. split; [discriminate | cbn; lia].
  - cbn zeta. rewrite offsets_step.
    destruct (IH (S n) (offset + page_limit) (pages + 1)) as [Hf Hl]; [lia|].
    split; [exact Hf | cbn [length]; lia].
Qed.

(** X20. The stubs [list_work_ids] yields for a term all have an identifier
    that starts with A-, TA-, E- or CRE-, the term and a hyphen, whatever
    the pages hold; and the requests ask for the offsets 0, limit,
    2 * limit, ... in this order. *)
Theorem list_work_ids_term_and_offsets (fuel : nat) (kind : string) (t : Z)
    (page_limit : Z) (max_pages : option Z) :
  let r := list_work_ids responses fuel kind (Some t) page_limit max_pages in
  Forall (fun st => of_term t (identifier st)) (yielded r)
  /\ offsets r
     = (fun k => Z.of_nat k * page_limit) <$> seq 0 (length (offsets r)).
Proof.
  cbn zeta. unfold list_work_ids.
  destruct (worktype_query kind) as [query_kind|e];
    [|split; [constructor | reflexivity]].
  destruct (list_loop_spec query_kind (Some t) page_limit max_pages fuel 0 0 0)
    as [Hy Ho].
  split.
  - eapply Forall_impl; [exact Hy|]. intros st. apply term_matches_of_term.
  - exact Ho.
Qed.

(** The loop ends at a page without items, when no page before it fails. *)
Lemma list_loop_ends_at_empty query_kind term page_limit max_pages :
  forall (k fuel n : nat) offset pages,
    (k < fuel)%nat ->
    page_items (responses (n + k)) = Ok [] ->
    (forall j, (j < k)%nat ->
       exists items, page_items (responses (n + j)) = Ok items) ->
    let r := list_loop responses query_kind term page_limit max_pages fuel n
               offset pages in
    final r = Returned /\ (length (offsets r) <= S k)%nat.
Proof.
  induction k as [|k IH]; intros fuel n offset pages Hfuel Hempty Hbefore;
    cbn zeta; (destruct fuel as [|fuel]; [lia|]); rewrite list_loop_step.
  - rewrite Nat.add_0_r in Hempty. rewrite Hempty. split; [reflexivity | cbn; lia].
  - destruct (Hbefore 0%nat ltac:(lia)) as [items Hitems].
    rewrite Nat.add_0_r in Hitems. rewrite Hitems.
    destruct items as [|it items]; [split; [reflexivity | cbn; lia]|].
    destruct (match max_pages with Some m => m <=? pages + 1 | None => false end).
    + rewrite offsets_last. split; [reflexivity | cbn; lia].
    + cbn zeta. rewrite offsets_step.
      destruct (IH fuel (S n) (offset + page_limit) (pages + 1)) as [Hf Hl].
      * lia.
      * now rewrite Nat.add_succ_comm.
      * intros j Hj. rewrite Nat.add_succ_comm. apply Hbefore. lia.
      * split; [exact Hf | cbn [length]; lia].
Qed.

(** X21. With a page cap [max_pages], [list_work_ids] ends after at most
    [max_pages] requests, and after one request when the cap is below 1:
    the cap is tested after the page has been fetched and yielded. *)
Theorem list_work_ids_stops (fuel : nat) (kind : string) (term : option Z)
    (page_limit m : Z) :
  (Z.to_nat (Z.max m 1) <= fuel)%nat ->
  let r := list_work_ids responses fuel kind term page_limit (Some m) in
  final r <> Running
  /\ (length (offsets r) <= Z.to_nat (Z.max m 1))%nat.
Proof.
  intros Hfuel. cbn zeta. unfold list_work_ids.
  destruct (worktype_query kind) as [query_kind|e].
  - destruct (list_loop_capped query_kind term page_limit m fuel 0 0 0)
      as [Hf Hl]; [now rewrite Z.sub_0_r|].
    rewrite Z.sub_0_r in Hl. now split.
  - split; [discriminate | cbn; lia].
Qed.

(** X22. For a known kind, [list_work_ids] returns without error at the
    first page that has no items (an empty or missing [data] entry, or a
    body that is not JSON), provided no request before it failed: it makes
    no request after that page, with or without a page cap. *)
Theorem list_work_ids_ends_at_empty_page (fuel : nat) (kind : string)
    (term : option Z) (page_limit : Z) (max_pages : option Z) (k : nat) :
  is_Some (match worktype_query kind with Ok q => Some q | Raise _ => None end) ->
  (k < fuel)%nat ->
  page_items (responses k) = Ok [] ->
  (forall j, (j < k)%nat -> exists items, page_items (responses j) = Ok items) ->
  let r := list_work_ids responses fuel kind term page_limit max_pages in
  final r = Returned /\ (length (offsets r) <= S k)%nat.
Proof.
  intros Hkind Hfuel Hempty Hbefore. cbn zeta. unfold list_work_ids.
  destruct (worktype_query kind) as [query_kind|e];
    [|now destruct Hkind as [? [=]]].
  now apply (list_loop_ends_at_empty query_kind term page_limit max_pages k
               fuel 0%nat 0 0).
Qed.

End EuListingFacts.

Lemma list_work_ids_stops_witness :
  (Z.to_nat (Z.max 2 1) <= 5)%nat
  /\ let r := EuListing.list_work_ids EuListing.endless_listing 5 "A"
                (Some 10) 500 (Some 2) in
     EuListing.final r <> EuListing.Running
     /\ (length (EuListing.offsets r) <= Z.to_nat (Z.max 2 1))%nat.
Proof.
  split; [cbn; lia|].
  apply (list_work_ids_stops EuListing.endless_listing 5 "A" (Some 10) 500 2).
  cbn; lia.
Defined.

Lemma list_work_ids_ends_at_empty_page_witness :
  let r := EuListing.list_work_ids EuListing.short_listing 5 "A" (Some 10)
             500 None in
  EuListing.final r = EuListing.Returned
  /\ (length (EuListing.offsets r) <= 2)%nat.
Proof.
  apply (list_work_ids_ends_at_empty_page EuListing.short_listing 5 "A"
           (Some 10) 500 None 1).
  - now eexists.
  - lia.
  - reflexivity.
  - intros j Hj. assert (j = 0%nat) as -> by lia. now eexists.
Defined.
